(** * CRM-Natale: the spreadsheet import, merge and GLS export pipeline

    A shallow embedding of [public/excelimporter.js] (class [ExcelImporter])
    and of the merge loop of the ['import-excel'] handler of the Electron
    main process, together with the properties stated for them; and of
    what these rest on: the JSON files of [public/dataManager.js] (the
    collections, the deleted records and the settings) and the handlers
    ['import-excel'], ['export-gls'] and ['update-bulk'] as wholes.

    Conventions of the embedding.
    - A JavaScript string is the list of its UTF-16 code units ([jsstring]).
    - Letter case: [toLowerCase] and [toUpperCase] are embedded on Basic
      Latin and Latin-1, where the synonym table lives; the merge takes
      the built-in [toLowerCase] as a variable, so what is proved of it
      holds for every script.
    - A JavaScript value is one of the scalars a spreadsheet cell or a JSON
      record field can hold ([value]); numbers are the integer-valued ones.
    - A JavaScript object used as a record is an association list in
      property order ([obj]); reading an absent property gives [VUndefined].
    - [Date.now()] is a [clock]: the n-th call of an operation reads
      [clk n], and operations thread the number of calls made so far.
    - A [throw] is the left injection of a sum ([exn + A]).
    - The data folder is a [disk]: what is under each file name, and
      whether a write there throws; the dialogs and the calls into the
      xlsx library are variables of the sections that use them. *)

From Stdlib Require Import ZArith NArith List String Ascii Bool Lia.
From Stdlib Require Import Numbers.DecimalString.
From Stdlib Require Import Sorting.Sorted.
Import ListNotations.

Local Open Scope N_scope.

(* ================================================================== *)
(** ** Strings *)

Definition jsstring := list N.

(** A literal of Basic Latin (and Latin-1) characters. *)
Definition js (s : string) : jsstring :=
  map N_of_ascii (list_ascii_of_string s).

Fixpoint str_eqb (a b : jsstring) : bool :=
  match a, b with
  | [], [] => true
  | x :: a', y :: b' => N.eqb x y && str_eqb a' b'
  | _, _ => false
  end.

(** Comparison of [Array.prototype.sort] without a comparator: code unit
    by code unit, a proper prefix first. *)
Fixpoint str_leb (a b : jsstring) : bool :=
  match a, b with
  | [], _ => true
  | _ :: _, [] => false
  | x :: a', y :: b' =>
      if N.ltb x y then true
      else if N.eqb x y then str_leb a' b' else false
  end.

Fixpoint insert_sorted (k : jsstring) (l : list jsstring) : list jsstring :=
  match l with
  | [] => [k]
  | h :: t => if str_leb k h then k :: l else h :: insert_sorted k t
  end.

Definition sort_strings (l : list jsstring) : list jsstring :=
  fold_right insert_sorted [] l.

Definition in_range (lo hi c : N) : bool := N.leb lo c && N.leb c hi.

(** [String.prototype.toLowerCase] on Basic Latin and the Latin-1
    Supplement (U+00D7 is the multiplication sign); code units outside
    these blocks are left as they are, so this is the built-in on the
    strings of these two blocks ([latin1] below) and on white space,
    and not on the letters of other blocks. It is used for the headers
    and the cells of a sheet, to evaluate the synonym table; the
    statements that depend on letter case say on which strings they
    hold. The merge does not use it: see [ImportExcel]. *)
Definition lower_unit (c : N) : N :=
  if in_range 65 90 c then c + 32
  else if in_range 192 222 c && negb (N.eqb c 215) then c + 32
  else c.

Definition toLowerCase (s : jsstring) : jsstring := map lower_unit s.

(** [String.prototype.toUpperCase], same blocks (U+00F7 is the division
    sign; sharp s, the micro sign and y with diaeresis, whose capitals
    lie outside Latin-1, are left as they are): the built-in on the code
    units that [upperExact] below allows. *)
Definition upper_unit (c : N) : N :=
  if in_range 97 122 c then c - 32
  else if in_range 224 254 c && negb (N.eqb c 247) then c - 32
  else c.

Definition toUpperCase (s : jsstring) : jsstring := map upper_unit s.

(** The class [\s] of regular expressions, which is also the set that
    [String.prototype.trim] strips: WhiteSpace and LineTerminator. *)
Definition is_space (c : N) : bool :=
  in_range 9 13 c || N.eqb c 32 || N.eqb c 160 || N.eqb c 5760
  || in_range 8192 8202 c || N.eqb c 8232 || N.eqb c 8233
  || N.eqb c 8239 || N.eqb c 8287 || N.eqb c 12288 || N.eqb c 65279.

(** What [.] does not match: the line terminators. *)
Definition is_line_terminator (c : N) : bool :=
  N.eqb c 10 || N.eqb c 13 || N.eqb c 8232 || N.eqb c 8233.

(** The class [\d]. *)
Definition is_digit (c : N) : bool := in_range 48 57 c.

Fixpoint drop_while (p : N -> bool) (s : jsstring) : jsstring :=
  match s with
  | [] => []
  | c :: s' => if p c then drop_while p s' else s
  end.

Definition trimStart (s : jsstring) : jsstring := drop_while is_space s.
Definition trimEnd (s : jsstring) : jsstring :=
  rev (drop_while is_space (rev s)).
Definition trim (s : jsstring) : jsstring := trimEnd (trimStart s).

Fixpoint starts_with (p s : jsstring) : bool :=
  match p, s with
  | [], _ => true
  | _ :: _, [] => false
  | x :: p', y :: s' => N.eqb x y && starts_with p' s'
  end.

(** [s.includes(sub)] on strings. *)
Fixpoint includes (s sub : jsstring) : bool :=
  starts_with sub s ||
  match s with
  | [] => false
  | _ :: s' => includes s' sub
  end.

(** [arr.includes(x)] on an array of strings. *)
Definition array_includes (arr : list jsstring) (x : jsstring) : bool :=
  existsb (str_eqb x) arr.

(** [s.replace(/[\/\-_.]/g, ' ')]. *)
Definition is_key_punct (c : N) : bool :=
  N.eqb c 47 || N.eqb c 45 || N.eqb c 95 || N.eqb c 46.

Definition replace_key_punct (s : jsstring) : jsstring :=
  map (fun c => if is_key_punct c then 32 else c) s.

(** [s.replace(/\s+/g, r)] for a one-unit [r]: every maximal run of
    white space becomes one [r]. [in_run] tells that the unit before was
    white space. *)
Fixpoint replace_space_runs (r : N) (in_run : bool) (s : jsstring)
  : jsstring :=
  match s with
  | [] => []
  | c :: s' =>
      if is_space c then
        if in_run then replace_space_runs r true s'
        else r :: replace_space_runs r true s'
      else c :: replace_space_runs r false s'
  end.

(** Decimal rendering of an integer, as [String(n)] gives for an
    integer that a number holds exactly and that is below 10^21 in
    magnitude (every integer up to 2^53 is one); no statement rests on
    the rendering of a larger one. *)
Definition decimal (z : Z) : jsstring :=
  js (NilZero.string_of_int (Z.to_int z)).

(* ================================================================== *)
(** ** Values and objects *)

(** A [Date] object is kept by its two renderings. *)
Inductive value : Type :=
| VUndefined
| VNull
| VBool (b : bool)
| VNum (z : Z)
| VStr (s : jsstring)
| VDate (iso str : jsstring).

(** ToBoolean. *)
Definition truthy (v : value) : bool :=
  match v with
  | VUndefined | VNull => false
  | VBool b => b
  | VNum z => negb (Z.eqb z 0)
  | VStr s => negb (str_eqb s [])
  | VDate _ _ => true
  end.

(** [a || b] and [!a]. *)
Definition js_or (a b : value) : value := if truthy a then a else b.
Definition js_not (a : value) : bool := negb (truthy a).

(** [a === b] against a primitive; a [Date] is an object and is never
    identical to a primitive. *)
Definition strict_eq (a b : value) : bool :=
  match a, b with
  | VUndefined, VUndefined => true
  | VNull, VNull => true
  | VBool x, VBool y => Bool.eqb x y
  | VNum x, VNum y => Z.eqb x y
  | VStr x, VStr y => str_eqb x y
  | _, _ => false
  end.

(** [String(v)], which is also [v.toString()] where that method exists. *)
Definition ToString (v : value) : jsstring :=
  match v with
  | VUndefined => js "undefined"
  | VNull => js "null"
  | VBool true => js "true"
  | VBool false => js "false"
  | VNum z => decimal z
  | VStr s => s
  | VDate _ str => str
  end.

Definition obj := list (jsstring * value).

(** [o[k]]. *)
Fixpoint get (o : obj) (k : jsstring) : value :=
  match o with
  | [] => VUndefined
  | (k', v) :: o' => if str_eqb k k' then v else get o' k
  end.

(** [k in o] for own properties. *)
Fixpoint has (o : obj) (k : jsstring) : bool :=
  match o with
  | [] => false
  | (k', _) :: o' => str_eqb k k' || has o' k
  end.

(** [o[k] = v]: an own property keeps its place, a new one goes last. *)
Fixpoint set (o : obj) (k : jsstring) (v : value) : obj :=
  match o with
  | [] => [(k, v)]
  | (k', v') :: o' =>
      if str_eqb k k' then (k', v) :: o' else (k', v') :: set o' k v
  end.

(** [{...a, ...b}]. *)
Definition spread (a b : obj) : obj :=
  fold_left (fun acc kv => set acc (fst kv) (snd kv)) b a.

(** [Object.keys(o)] and [Object.values(o)]. *)
Definition keys (o : obj) : list jsstring := map fst o.
Definition values (o : obj) : list value := map snd o.

(** Thrown values: an [Error] or a [TypeError], with its message. *)
Inductive exn : Type :=
| Error (message : jsstring)
| TypeError (message : jsstring).

Definition message (e : exn) : jsstring :=
  match e with Error m | TypeError m => m end.

Definition clock := nat -> Z.

(** Sequencing of steps that may throw. *)
Definition bind {A B : Type} (c : exn + A) (k : A -> exn + B) : exn + B :=
  match c with
  | inl e => inl e
  | inr a => k a
  end.

(** [arr.map(f)] where [f] may throw: the first throw ends the map. *)
Fixpoint mapM {A B : Type} (f : A -> exn + B) (l : list A) : exn + list B :=
  match l with
  | [] => inr []
  | x :: l' =>
      bind (f x) (fun y => bind (mapM f l') (fun ys => inr (y :: ys)))
  end.

(** [arr[i] = x] for an index inside the array. *)
Fixpoint update_nth {A : Type} (i : nat) (x : A) (l : list A) : list A :=
  match l, i with
  | [], _ => []
  | _ :: l', O => x :: l'
  | y :: l', S i' => y :: update_nth i' x l'
  end.

(* ================================================================== *)
(** ** ExcelImporter: key and value normalization *)

Module ExcelImporter.

(** [createExplicitHeaders()], which is also [columnOrder]. *)
Definition createExplicitHeaders : list jsstring :=
  [js "nome"; js "azienda"; js "indirizzo"; js "civico"; js "cap";
   js "localita"; js "provincia"; js "telefono"; js "email"; js "note";
   js "grappa"; js "extraAltro"; js "consegnaSpedizione"; js "gls"].

Definition columnOrder : list jsstring := createExplicitHeaders.

(** The accented letters of the table: a grave U+00E0, the degree sign
    U+00B0. *)
Definition a_grave : jsstring := [224].
Definition degree : jsstring := [176].

(** [keyMapping], in the order of definition. *)
Definition keyMapping : list (jsstring * list jsstring) :=
  [ (js "nome",
      [js "nome"; js "nome persona"; js "nominativo"; js "nome_persona";
       js "nome cliente"; js "nome e cognome"; js "persona";
       js "referente"; js "nome referente"; js "cliente"]);
    (js "azienda",
      [js "azienda"; js "nome azienda"; js "societ" ++ a_grave;
       js "ragione sociale"; js "company"; js "ditta";
       js "societ" ++ a_grave ++ js " cliente"; js "societa";
       js "nome societa"; js "societ" ++ a_grave]);
    (js "indirizzo",
      [js "indirizzo"; js "via"; js "strada"; js "address";
       js "via/piazza"; js "indirizzo stradale"; js "via piazza";
       js "indirizzo spedizione"]);
    (js "civico",
      [js "civico"; js "numero civico"; js "n. civico"; js "n.civico";
       js "n" ++ degree; js "numero"; js "numero indirizzo";
       js "n. civico"; js "num"; js "num."]);
    (js "cap",
      [js "cap"; js "codice postale"; js "postal code"; js "zip";
       js "codice avviamento postale"; js "c.a.p."; js "c.a.p"]);
    (js "localita",
      [js "localita"; js "localit" ++ a_grave; js "comune";
       js "citt" ++ a_grave; js "city"; js "paese"; js "town";
       js "citta"; js "loc"; js "loc."]);
    (js "provincia",
      [js "provincia"; js "prov"; js "province"; js "pr"; js "pr.";
       js "sigla provincia"; js "prov."; js "provincia sigla"]);
    (js "telefono",
      [js "telefono"; js "tel"; js "phone"; js "cellulare"; js "tel.";
       js "numero telefono"; js "cell"; js "numero cellulare";
       js "tel/cell"; js "cell."]);
    (js "email",
      [js "email"; js "e-mail"; js "mail"; js "posta elettronica";
       js "indirizzo email"; js "e mail"; js "posta"]);
    (js "note",
      [js "note"; js "annotazioni"; js "commenti"; js "notes";
       js "note aggiuntive"; js "note cliente"; js "commento"]);
    (js "tipologia",
      [js "tipologia"; js "tipo partner"; js "categoria";
       js "tipo cliente"; js "tipo"; js "category"; js "gruppo"]);
    (js "grappa",
      [js "grappa"; js "regalo grappa"; js "omaggio grappa"; js "regalo";
       js "gift"; js "presente"; js "omaggio"; js "dono"]);
    (js "extraAltro",
      [js "extra/altro"; js "extra"; js "altro regalo";
       js "altro omaggio"; js "extra regalo"; js "regalo extra";
       js "altro"; js "altri regali"; js "extra/altri"]);
    (js "consegnaSpedizione",
      [js "consegna/spedizione"; js "consegna"; js "consegna a mano";
       js "incaricato consegna"; js "consegnatario"; js "deliverer";
       js "spedizione"; js "incaricato"; js "consegna spedizione"]);
    (js "gls",
      [js "gls"; js "spedizione gls"; js "corriere"; js "spedizione";
       js "shipping"; js "courier"; js "corriere gls"]) ].

(** [String(originalKey).toLowerCase().trim()
       .replace(/[\/\-_.]/g, ' ').replace(/\s+/g, ' ')]. *)
Definition normalizeKey (originalKey : jsstring) : jsstring :=
  replace_space_runs 32 false
    (replace_key_punct (trim (toLowerCase originalKey))).

(** The first loop over [keyMapping]: an exact match. *)
Definition exactMatch (normalizedKey : jsstring) : option jsstring :=
  option_map fst
    (find (fun e => array_includes (snd e) normalizedKey) keyMapping).

(** The second loop: a substring match in either direction. *)
Definition partialMatch (normalizedKey : jsstring) : option jsstring :=
  option_map fst
    (find (fun e =>
             existsb (fun possibleKey =>
                        includes normalizedKey possibleKey
                        || includes possibleKey normalizedKey) (snd e))
          keyMapping).

(** [mappedKey] after both loops. *)
Definition mappedKey (normalizedKey : jsstring) : option jsstring :=
  match exactMatch normalizedKey with
  | Some key => Some key
  | None => partialMatch normalizedKey
  end.

(** [finalKey = mappedKey || normalizedKey.replace(/\s+/g, '_')]. *)
Definition finalKey (originalKey : jsstring) : jsstring :=
  let normalizedKey := normalizeKey originalKey in
  match mappedKey normalizedKey with
  | Some key => key
  | None => replace_space_runs 95 false normalizedKey
  end.

(** The check mark glyphs U+2713, U+2714 and the square root U+221A,
    and i grave U+00EC. *)
Definition truthyStrings : list jsstring :=
  [js "1"; js "true"; js "yes"; js "s" ++ [236]; js "si"; js "vero";
   js "x"; [10003]; [10004]; [8730]].

Definition normalizeBoolean (v : value) : bool :=
  match v with
  | VBool b => b
  | VNum z => Z.eqb z 1
  | VStr s =>
      let lowercaseValue := trim (toLowerCase s) in
      array_includes truthyStrings lowercaseValue
  | _ => false
  end.

Definition normalizeValue (fieldName : jsstring) (v : value) : value :=
  if str_eqb fieldName (js "grappa") || str_eqb fieldName (js "gls") then
    if normalizeBoolean v then VStr (js "1") else VStr []
  else
    match v with
    | VDate iso _ => VStr iso
    | _ => VStr (trim (ToString v))
    end.

(* ------------------------------------------------------------------ *)
(** *** The house number pattern

    The pattern of the source has three parts between [^] and [$]: a lazy
    group 1 of any units but line terminators, one or more units of the
    class comma-or-white-space, and group 2, a digit followed by units
    other than a comma. *)

(** The class [[,\s]]. *)
Definition is_sep (c : N) : bool := N.eqb c 44 || is_space c.

Definition no_comma (s : jsstring) : bool :=
  forallb (fun c => negb (N.eqb c 44)) s.

(** The second and third part anchored where [s] starts; the result is
    group 2. The greedy run of separators can only end where the
    separators end, since a digit is not a separator, and the run of
    non-commas has to reach the end of the string. *)
Definition matchTail (s : jsstring) : option jsstring :=
  match s with
  | [] => None
  | c :: s' =>
      if is_sep c then
        match drop_while is_sep s' with
        | [] => None
        | d :: rest =>
            if is_digit d && no_comma rest then Some (d :: rest) else None
        end
      else None
  end.

(** The whole pattern: the lazy group 1 is tried at length 0, 1, 2, ...
    and may only grow over units that [.] matches. The result is
    (group 1, group 2), or [None] for [null]. *)
Fixpoint civicoMatch (raw : jsstring) : option (jsstring * jsstring) :=
  match matchTail raw with
  | Some m2 => Some ([], m2)
  | None =>
      match raw with
      | [] => None
      | c :: raw' =>
          if is_line_terminator c then None
          else
            match civicoMatch raw' with
            | Some (m1, m2) => Some (c :: m1, m2)
            | None => None
            end
      end
  end.

(** The block after the field assignment, the same in both branches of
    [normalizeRowData]. *)
Definition extractCivico (normalizedRow : obj) : obj :=
  let indirizzo := get normalizedRow (js "indirizzo") in
  let civico := get normalizedRow (js "civico") in
  if truthy indirizzo && (js_not civico || strict_eq civico (VStr [])) then
    let raw := trim (ToString indirizzo) in
    match civicoMatch raw with
    | Some (m1, m2) =>
        set (set normalizedRow (js "indirizzo") (VStr (trim m1)))
            (js "civico") (VStr (trim m2))
    | None => normalizedRow
    end
  else normalizedRow.

(* ------------------------------------------------------------------ *)
(** *** normalizeRowData *)

(** [/^[A-Z]{1,2}$/.test(key)]. *)
Definition isGenericColumn (key : jsstring) : bool :=
  match key with
  | [a] => in_range 65 90 a
  | [a; b] => in_range 65 90 a && in_range 65 90 b
  | _ => false
  end.

(** [value === '' || value === null || value === undefined]. *)
Definition isBlank (v : value) : bool :=
  strict_eq v (VStr []) || strict_eq v VNull || strict_eq v VUndefined.

(** The loop over [Object.keys(row).sort()] of the generic branch. *)
Fixpoint genericLoop (row : obj) (sortedKeys : list jsstring)
    (colIndex : nat) (normalizedRow : obj) : obj :=
  match sortedKeys with
  | [] => normalizedRow
  | key :: rest =>
      if isGenericColumn key && (colIndex <? List.length columnOrder)%nat then
        let v := get row key in
        let field := nth colIndex columnOrder [] in
        genericLoop row rest (S colIndex)
          (if negb (isBlank v)
           then set normalizedRow field (normalizeValue field v)
           else normalizedRow)
      else genericLoop row rest colIndex normalizedRow
  end.

(** One turn of the loop [for (const originalKey in row)]. *)
Definition headerStep (normalizedRow : obj) (entry : jsstring * value)
  : obj :=
  let originalKey := fst entry in
  let v := snd entry in
  if isBlank v then normalizedRow
  else
    let fk := finalKey originalKey in
    set normalizedRow fk (normalizeValue fk v).

Definition initialRow (now : Z) (dataType : jsstring) : obj :=
  [(js "tipo", VStr dataType);
   (js "eliminato", VBool false);
   (js "createdAt", VNum now)].

(** Field assignment, before the house number is looked for. *)
Definition assignFields (now : Z) (row : obj) (dataType : jsstring) : obj :=
  if existsb isGenericColumn (keys row) then
    genericLoop row (sort_strings (keys row)) 0 (initialRow now dataType)
  else
    fold_left headerStep row (initialRow now dataType).

(** [normalizeRowData(row, dataType)]; [now] is what its one call of
    [Date.now()] reads. *)
Definition normalizeRowData (now : Z) (row : obj) (dataType : jsstring)
  : obj :=
  extractCivico (assignFields now row dataType).

(* ------------------------------------------------------------------ *)
(** *** importFile *)

(** [val !== undefined && val !== null && val !== '']. *)
Definition counted (v : value) : bool :=
  negb (strict_eq v VUndefined) && negb (strict_eq v VNull)
  && negb (strict_eq v (VStr [])).

Definition nonEmptyFields (row : obj) : nat :=
  List.length (filter counted (values row)).

(** The predicate of the [validData] filter. *)
Definition isValid (row : obj) : bool :=
  truthy (js_or (get row (js "nome")) (get row (js "azienda")))
  && (3 <=? nonEmptyFields row)%nat.

(** The [map] over [jsonData]: [t] counts the calls of [Date.now()]
    made so far, [index] is the row index. *)
Fixpoint normalizeAll (clk : clock) (t index : nat) (jsonData : list obj)
    (dataType : jsstring) : list obj :=
  match jsonData with
  | [] => []
  | row :: rest =>
      let normalizedRow := normalizeRowData (clk t) row dataType in
      if js_not (get normalizedRow (js "id")) then
        set normalizedRow (js "id") (VNum (clk (S t) + Z.of_nat index))
          :: normalizeAll clk (S (S t)) (S index) rest dataType
      else
        normalizedRow :: normalizeAll clk (S t) (S index) rest dataType
  end.

Record workbook (W : Type) : Type := {
  SheetNames : list jsstring;
  Sheets : list (jsstring * W)
}.
Arguments SheetNames {W} _.
Arguments Sheets {W} _.

(** [workbook.Sheets[name]]; a property key is converted to a string. *)
Fixpoint sheetAt {W : Type} (sheets : list (jsstring * W)) (name : jsstring)
  : option W :=
  match sheets with
  | [] => None
  | (n, w) :: rest => if str_eqb name n then Some w else sheetAt rest name
  end.

(** [dataType.slice(1, -1)]. *)
Definition slice_1_m1 (s : jsstring) : jsstring := removelast (skipn 1 s).

(** [determineSheetName(workbook, dataType)]; [VUndefined] is
    [sheetNames[0]] of a workbook without sheets. *)
Definition determineSheetName {W : Type} (wb : workbook W)
    (dataType : jsstring) : value :=
  let sheetNames := SheetNames wb in
  let possibleNames :=
    [ toUpperCase (firstn 1 dataType) ++ skipn 1 dataType;
      dataType;
      dataType ++ js "i";
      toUpperCase (firstn 1 dataType) ++ slice_1_m1 dataType ++ js "i" ] in
  match find (array_includes sheetNames) possibleNames with
  | Some name => VStr name
  | None =>
      match find (fun sheetName =>
                    includes (toLowerCase sheetName) (toLowerCase dataType))
                 sheetNames with
      | Some sheetName => VStr sheetName
      | None =>
          match sheetNames with
          | [] => VUndefined
          | first :: _ => VStr first
          end
      end
  end.

(** The [header] option of [XLSX.utils.sheet_to_json]. *)
Inductive headerOption : Type :=
| HeaderFirstRow
| HeaderLetters
| HeaderExplicit (names : list jsstring).

(** [{success: true, message, data}] or [{success: false, message}]. *)
Inductive importResult : Type :=
| ImportSuccess (msg : jsstring) (data : list obj)
| ImportFailure (msg : jsstring).

(** [!jsonData.length || Object.keys(jsonData[0]).length <= 1]. *)
Definition noValidHeaders (jsonData : list obj) : bool :=
  match jsonData with
  | [] => true
  | first :: _ => (List.length (keys first) <=? 1)%nat
  end.

Section ImportFile.

(** The worksheet type and the two calls into the xlsx library, each
    of which may throw. *)
Variable W : Type.
Variable readFile : jsstring -> exn + workbook W.
Variable sheet_to_json : option W -> headerOption -> exn + list obj.
Variable clk : clock.

(** The three conversions of the worksheet, in turn. *)
Definition readRows (worksheet : option W) : exn + list obj :=
  bind (sheet_to_json worksheet HeaderFirstRow) (fun jsonData =>
  if noValidHeaders jsonData then
    bind (sheet_to_json worksheet HeaderLetters) (fun jsonData =>
    if noValidHeaders jsonData then
      sheet_to_json worksheet (HeaderExplicit createExplicitHeaders)
    else inr jsonData)
  else inr jsonData).

Definition successMessage (valid total : nat) : jsstring :=
  js "Importazione completata con successo: "
  ++ decimal (Z.of_nat valid) ++ js " record validi su "
  ++ decimal (Z.of_nat total) ++ js " totali".

(** The [try] block. *)
Definition importFileBody (filePath dataType : jsstring)
  : exn + importResult :=
  bind (readFile filePath) (fun wb =>
  let sheetName := determineSheetName wb dataType in
  let worksheet := sheetAt (Sheets wb) (ToString sheetName) in
  bind (readRows worksheet) (fun jsonData =>
  let normalizedData := normalizeAll clk 0 0 jsonData dataType in
  let validData := filter isValid normalizedData in
  inr (ImportSuccess
         (successMessage (List.length validData) (List.length normalizedData))
         validData))).

(** [importFile(filePath, dataType)]: the [try] block and its [catch]. *)
Definition importFile (filePath dataType : jsstring) : importResult :=
  match importFileBody filePath dataType with
  | inr result => result
  | inl error =>
      ImportFailure (js "Errore durante l'importazione: " ++ message error)
  end.

End ImportFile.

(* ------------------------------------------------------------------ *)
(** *** exportGLS *)

(** The predicate of the [glsRecords] filter. *)
Definition isGls (record : obj) : bool :=
  let gls := get record (js "gls") in
  truthy gls
  && (strict_eq gls (VStr (js "1")) || strict_eq gls (VNum 1)
      || strict_eq gls (VBool true)).

(** [record.azienda && record.azienda.trim() !== '' ? record.azienda
     : record.nome]; only a string has a [trim] method. *)
Definition nomeDestinatario (record : obj) : exn + value :=
  let azienda := get record (js "azienda") in
  if truthy azienda then
    match azienda with
    | VStr s =>
        inr (if negb (str_eqb (trim s) []) then azienda
             else get record (js "nome"))
    | _ => inl (TypeError (js "record.azienda.trim is not a function"))
    end
  else inr (get record (js "nome")).

(** The template literal of the address, trimmed. *)
Definition indirizzoCompleto (record : obj) : jsstring :=
  trim (ToString (js_or (get record (js "indirizzo")) (VStr []))
        ++ js " "
        ++ ToString (js_or (get record (js "civico")) (VStr []))).

(** The callback of [glsRecords.map]: one row of the ten columns. *)
Definition formatRecord (record : obj) : exn + obj :=
  bind (nomeDestinatario record) (fun nd =>
  inr [ (js "NOME DESTINATARIO", js_or nd (VStr []));
        (js "INDIRIZZO", js_or (VStr (indirizzoCompleto record)) (VStr []));
        (js "LOCALITA'", js_or (get record (js "localita")) (VStr []));
        (js "PROV", js_or (get record (js "provincia")) (VStr []));
        (js "CAP", js_or (get record (js "cap")) (VStr []));
        (js "TIPO MERCE", VStr (js "OMAGGIO NATALIZIO"));
        (js "COLLI", VStr (js "1"));
        (js "NOTE SPEDIZIONE", js_or (get record (js "note")) (VStr []));
        (js "RIFERIMENTO MITTENTE",
           js_or (get record (js "nome")) (VStr []));
        (js "TELEFONO", js_or (get record (js "telefono")) (VStr [])) ]).

(** [exportGLS(data)] up to [formattedData], the rows of the one sheet
    that the xlsx library then writes; the [catch] throws again what it
    caught. *)
Definition exportGLS (data : list obj) : exn + list obj :=
  let glsRecords := filter isGls data in
  if (List.length glsRecords =? 0)%nat then
    inl (Error (js "Nessun record da esportare per GLS"))
  else mapM formatRecord glsRecords.

End ExcelImporter.

(* ================================================================== *)
(** ** The merge of the ['import-excel'] handler *)

Module ImportExcel.

Section CaseMapping.

(** [String.prototype.toLowerCase]. The merge uses of it only that it
    gives a string for a string, so it is a variable here: what is
    proved of the merge holds for the built-in, whatever it does to the
    letters of any script. The scenarios apply the merge to
    [toLowerCase] above, which is the built-in on their strings. *)
Variable toLowerCase : jsstring -> jsstring.

(** [expr.toLowerCase()], where the expression [expr] has the value
    [v]; only a string has the method. *)
Definition toLowerCaseOf (expr : string) (v : value) : exn + jsstring :=
  match v with
  | VStr s => inr (toLowerCase s)
  | _ => inl (TypeError (js expr ++ js ".toLowerCase is not a function"))
  end.

(** The callback of [updatedData.findIndex]. *)
Definition sameNameAndCompany (importedItem item : obj) : exn + bool :=
  let nome := js "nome" in
  let azienda := js "azienda" in
  if truthy (get item nome) && truthy (get importedItem nome)
     && truthy (get item azienda) && truthy (get importedItem azienda)
  then
    bind (toLowerCaseOf "item.nome" (get item nome)) (fun a =>
    bind (toLowerCaseOf "importedItem.nome" (get importedItem nome)) (fun b =>
    if str_eqb a b then
      bind (toLowerCaseOf "item.azienda" (get item azienda)) (fun c =>
      bind (toLowerCaseOf "importedItem.azienda"
              (get importedItem azienda)) (fun d =>
      inr (str_eqb c d)))
    else inr false))
  else inr false.

(** [arr.findIndex(p)], counting from [i]; [None] is the source's -1. *)
Fixpoint findIndex (p : obj -> exn + bool) (arr : list obj) (i : nat)
  : exn + option nat :=
  match arr with
  | [] => inr None
  | item :: rest =>
      bind (p item) (fun b =>
      if b then inr (Some i) else findIndex p rest (S i))
  end.

(** The variables of the loop; [ticks] counts the calls of [Date.now()]. *)
Record mergeState : Type := {
  updatedData : list obj;
  newRecords : nat;
  updatedRecords : nat;
  ticks : nat
}.

(** The record written over a match. *)
Definition mergedRecord (now : Z) (existing importedItem : obj) : obj :=
  let originalId := get existing (js "id") in
  let eliminato := js_or (get existing (js "eliminato")) (VBool false) in
  set (set (set (spread existing importedItem)
                (js "id") originalId)
           (js "eliminato") eliminato)
      (js "lastUpdate") (VNum now).

(** The record pushed when nothing matches. *)
Definition createdRecord (newId now : Z) (importedItem : obj) : obj :=
  set (set (set (spread [] importedItem)
                (js "id") (VNum newId))
           (js "eliminato") (VBool false))
      (js "createdAt") (VNum now).

(** One turn of [for (const importedItem of result.data)]. *)
Definition mergeStep (clk : clock) (st : mergeState) (importedItem : obj)
  : exn + mergeState :=
  bind (findIndex (sameNameAndCompany importedItem) (updatedData st) 0)
    (fun existingIndex =>
  match existingIndex with
  | Some i =>
      let existing := nth i (updatedData st) [] in
      inr {| updatedData :=
               update_nth i
                 (mergedRecord (clk (ticks st)) existing importedItem)
                 (updatedData st);
             newRecords := newRecords st;
             updatedRecords := S (updatedRecords st);
             ticks := S (ticks st) |}
  | None =>
      let newId :=
        (clk (ticks st) + Z.of_nat (List.length (updatedData st))
         + Z.of_nat (newRecords st))%Z in
      inr {| updatedData :=
               updatedData st
               ++ [createdRecord newId (clk (S (ticks st))) importedItem];
             newRecords := S (newRecords st);
             updatedRecords := updatedRecords st;
             ticks := S (S (ticks st)) |}
  end).

Fixpoint mergeLoop (clk : clock) (st : mergeState) (imported : list obj)
  : exn + mergeState :=
  match imported with
  | [] => inr st
  | importedItem :: rest =>
      bind (mergeStep clk st importedItem) (fun st' =>
      mergeLoop clk st' rest)
  end.

(** [currentData.filter((item) => !item.eliminato)]. *)
Definition excludeDeleted (currentData : list obj) : list obj :=
  filter (fun item => js_not (get item (js "eliminato"))) currentData.

(** From [const updatedData = [...currentData]] to the end of the loop. *)
Definition merge (clk : clock) (currentData imported : list obj)
  : exn + mergeState :=
  mergeLoop clk
    {| updatedData := currentData; newRecords := 0;
       updatedRecords := 0; ticks := 0 |}
    imported.

End CaseMapping.

End ImportExcel.

(* ================================================================== *)
(** ** DataManager: the JSON files of the data folder *)

Module DataManager.

(** What the text of a file is to [loadData]: nothing but white space,
    text that [JSON.parse] rejects, an array of records, or one record
    that is not in an array. *)
Inductive content : Type :=
| Blank
| Invalid (e : exn)
| Records (items : list obj)
| Single (item : obj).

(** What is at a path: no file, a file that cannot be read, or a file
    with its content. *)
Inductive file : Type :=
| NoFile
| Unreadable (e : exn)
| File (c : content).

(** The data folder: the file under each file name, and for each file
    name what [fs.promises.writeFile] throws there, if it throws; a
    write that throws is taken to leave the file as it was. *)
Record disk : Type := {
  files : jsstring -> file;
  writeError : jsstring -> option exn
}.

(** [`${dataType}.json`], the file name inside the data folder; two
    names are two files, as they are for names without path
    separators. *)
Definition fileName (dataType : value) : jsstring :=
  ToString dataType ++ js ".json".

(** What [JSON.parse(JSON.stringify(o))] gives for a record: a property
    that is undefined is left out and a date becomes its ISO string. *)
Definition toJSON (o : obj) : obj :=
  map (fun kv => (fst kv,
                  match snd kv with
                  | VDate iso _ => VStr iso
                  | v => v
                  end))
      (filter (fun kv => negb (strict_eq (snd kv) VUndefined)) o).

(** The folder after a write that went through. *)
Definition write (d : disk) (name : jsstring) (c : content) : disk :=
  {| files := fun n => if str_eqb n name then File c else files d n;
     writeError := writeError d |}.

(** [{success: true, data}] or [{success: false, error}]. *)
Inductive loadResult : Type :=
| LoadOk (data : list obj)
| LoadFailed (error : jsstring).

(** [{success: true}] or [{success: false, error}]. *)
Inductive result : Type :=
| Ok
| Failed (error : jsstring).

(** [parsed.filter((item) => !item.eliminato)] under its condition. *)
Definition visible (dataType : value) (includeEliminati : bool)
    (parsed : list obj) : list obj :=
  if negb includeEliminati
     && negb (strict_eq dataType (VStr (js "eliminati")))
  then filter (fun item => js_not (get item (js "eliminato"))) parsed
  else parsed.

(** [loadData(dataType, dataFolderPath, includeEliminati)]. *)
Definition loadData (d : disk) (dataType : value) (includeEliminati : bool)
  : loadResult :=
  match files d (fileName dataType) with
  | NoFile => LoadOk []
  | Unreadable e => LoadFailed (message e)
  | File Blank => LoadOk []
  | File (Invalid e) => LoadFailed (message e)
  | File (Records items) => LoadOk (visible dataType includeEliminati items)
  | File (Single item) => LoadOk (visible dataType includeEliminati [item])
  end.

(** [saveData(dataType, data, dataFolderPath)] for an array of records. *)
Definition saveData (d : disk) (dataType : value) (data : list obj)
  : disk * result :=
  match writeError d (fileName dataType) with
  | Some e => (d, Failed (message e))
  | None => (write d (fileName dataType) (Records (map toJSON data)), Ok)
  end.

(** [data.findIndex((item) => item.id === id)]; [None] is -1. *)
Fixpoint indexOfId (id : value) (data : list obj) : option nat :=
  match data with
  | [] => None
  | item :: rest =>
      if strict_eq (get item (js "id")) id then Some 0%nat
      else option_map S (indexOfId id rest)
  end.

Definition notFound (id : value) : jsstring :=
  js "Record con ID " ++ ToString id ++ js " non trovato".

(** [data.splice(index, 1)]. *)
Fixpoint splice1 {A : Type} (index : nat) (l : list A) : list A :=
  match l, index with
  | [], _ => []
  | _ :: l', O => l'
  | x :: l', S i => x :: splice1 i l'
  end.

(** [delete o[k]]. *)
Definition delete (o : obj) (k : jsstring) : obj :=
  filter (fun kv => negb (str_eqb (fst kv) k)) o.

(** The record as [moveToEliminati] flags it. *)
Definition flagged (now : Z) (record : obj) : obj :=
  set (set record (js "eliminato") (VBool true))
      (js "eliminatoIl") (VNum now).

(** [moveToEliminati(dataType, id, dataFolderPath)]; [now] is what its
    call of [Date.now()] reads. The results of the two [saveData] calls
    are not looked at. *)
Definition moveToEliminati (d : disk) (now : Z) (dataType id : value)
  : disk * result :=
  match loadData d dataType true with
  | LoadFailed error => (d, Failed error)
  | LoadOk data =>
      match indexOfId id data with
      | None => (d, Failed (notFound id))
      | Some index =>
          let record := flagged now (nth index data []) in
          let data' := update_nth index record data in
          let d1 := fst (saveData d dataType data') in
          let eliminati :=
            match loadData d1 (VStr (js "eliminati")) true with
            | LoadOk e => e
            | LoadFailed _ => []
            end in
          let d2 :=
            fst (saveData d1 (VStr (js "eliminati"))
                   (eliminati ++ [record])) in
          (d2, Ok)
      end
  end.

(** The record as [restoreFromEliminati] puts it back. *)
Definition restored (record : obj) : obj :=
  delete (set (spread [] record) (js "eliminato") (VBool false))
         (js "eliminatoIl").

(** [restoreFromEliminati(id, dataFolderPath)]. *)
Definition restoreFromEliminati (d : disk) (id : value) : disk * result :=
  match loadData d (VStr (js "eliminati")) true with
  | LoadFailed error => (d, Failed error)
  | LoadOk data =>
      match indexOfId id data with
      | None => (d, Failed (notFound id))
      | Some index =>
          let record := restored (nth index data []) in
          let d1 :=
            fst (saveData d (VStr (js "eliminati")) (splice1 index data)) in
          let dataType := get record (js "tipo") in
          let currentData :=
            match loadData d1 dataType true with
            | LoadOk c => c
            | LoadFailed _ => []
            end in
          let currentData' :=
            match indexOfId id currentData with
            | Some existingIndex => update_nth existingIndex record currentData
            | None => currentData ++ [record]
            end in
          let d2 := fst (saveData d1 dataType currentData') in
          (d2, Ok)
      end
  end.

End DataManager.

(* ================================================================== *)
(** ** The handlers of the main process *)

Module Main.

(** [{success: true, message, data}] or [{success: false, message}]. *)
Inductive response : Type :=
| Success (msg : jsstring) (data : list obj)
| Failure (msg : jsstring).

(** [ids.includes(item.id)]. *)
Definition selected (ids : list value) (item : obj) : bool :=
  existsb (strict_eq (get item (js "id"))) ids.

(** The [map] of the ['update-bulk'] handler; [t] counts the calls of
    [Date.now()] made so far. *)
Fixpoint bulkMap (clk : clock) (t : nat) (ids : list value)
    (propertyName : jsstring) (propertyValue : value) (data : list obj)
  : list obj :=
  match data with
  | [] => []
  | item :: rest =>
      if selected ids item then
        set (set (spread [] item) propertyName propertyValue)
            (js "lastUpdate") (VNum (clk t))
          :: bulkMap clk (S t) ids propertyName propertyValue rest
      else item :: bulkMap clk t ids propertyName propertyValue rest
  end.

(** The ['update-bulk'] handler. *)
Definition updateBulk (d : DataManager.disk) (clk : clock)
    (dataType : value) (ids : list value) (propertyName : jsstring)
    (propertyValue : value) : DataManager.disk * response :=
  match DataManager.loadData d dataType true with
  | DataManager.LoadFailed error => (d, Failure error)
  | DataManager.LoadOk data =>
      let updatedData :=
        bulkMap clk 0 ids propertyName propertyValue data in
      match DataManager.saveData d dataType updatedData with
      | (_, DataManager.Failed error) => (d, Failure error)
      | (d', DataManager.Ok) =>
          (d',
           Success (js "Aggiornamento completato con successo: "
                    ++ decimal (Z.of_nat (List.length ids)) ++ js " record")
                   (ImportExcel.excludeDeleted updatedData))
      end
  end.

(** What the importer's result is as a response. *)
Definition ofImportResult (r : ExcelImporter.importResult) : response :=
  match r with
  | ExcelImporter.ImportSuccess msg data => Success msg data
  | ExcelImporter.ImportFailure msg => Failure msg
  end.

Definition mergeMessage (newRecords updatedRecords : nat) : jsstring :=
  js "Importazione completata: " ++ decimal (Z.of_nat newRecords)
  ++ js " nuovi record, " ++ decimal (Z.of_nat updatedRecords)
  ++ js " record aggiornati".

Section ImportHandler.

(** The open dialog, which gives [canceled] and [filePaths] or throws;
    the calls of the importer into the xlsx library; the readings of
    the clock during the import and during the merge; the built-in
    [toLowerCase] of the merge. *)
Variable showOpenDialog : exn + (bool * list jsstring).
Variable W : Type.
Variable readFile : jsstring -> exn + ExcelImporter.workbook W.
Variable sheet_to_json :
  option W -> ExcelImporter.headerOption -> exn + list obj.
Variables clkImport clkMerge : clock.
Variable toLowerCase : jsstring -> jsstring.

(** The part of the ['import-excel'] handler that merges and saves. *)
Definition mergeAndSave (d : DataManager.disk) (dataType : jsstring)
    (imported : list obj) : DataManager.disk * response :=
  match DataManager.loadData d (VStr dataType) true with
  | DataManager.LoadFailed error => (d, Failure error)
  | DataManager.LoadOk currentData =>
      match ImportExcel.merge toLowerCase clkMerge
              (ImportExcel.excludeDeleted currentData) imported with
      | inl e => (d, Failure (message e))
      | inr st =>
          match DataManager.saveData d (VStr dataType)
                  (ImportExcel.updatedData st) with
          | (_, DataManager.Failed error) => (d, Failure error)
          | (d', DataManager.Ok) =>
              (d',
               Success (mergeMessage (ImportExcel.newRecords st)
                          (ImportExcel.updatedRecords st))
                       (ImportExcel.excludeDeleted
                          (ImportExcel.updatedData st)))
          end
      end
  end.

(** The ['import-excel'] handler. *)
Definition importExcel (d : DataManager.disk) (dataType : jsstring)
  : DataManager.disk * response :=
  match showOpenDialog with
  | inl e => (d, Failure (message e))
  | inr (canceled, filePaths) =>
      match filePaths with
      | [] => (d, Failure (js "Importazione annullata"))
      | filePath :: _ =>
          if canceled then (d, Failure (js "Importazione annullata"))
          else
            match ExcelImporter.importFile W readFile sheet_to_json
                    clkImport filePath dataType with
            | ExcelImporter.ImportSuccess msg (r :: data) =>
                mergeAndSave d dataType (r :: data)
            | result => (d, ofImportResult result)
            end
      end
  end.

End ImportHandler.


Section ExportHandler.

(** The save dialog, which gives [canceled] and [filePath] (absent for
    [None]; an empty path is falsy too) or throws, and the writing of
    the workbook, which may throw; the workbook is kept by the rows of
    its sheet. *)
Variable showSaveDialog : exn + (bool * option jsstring).
Variable writeFile : jsstring -> list obj -> exn + unit.


End ExportHandler.

End Main.

(* ================================================================== *)
(** ** DataManager: the settings *)

Module Settings.

(** A value as the settings hold it: what a JSON text can hold, with
    arrays and objects, and undefined; numbers are integers here. *)
#[warnings="-register-all"]
Inductive json : Type :=
| JUndefined
| JNull
| JBool (b : bool)
| JNum (z : Z)
| JStr (s : jsstring)
| JArr (items : list json)
| JObj (props : list (jsstring * json)).

(** Truthiness, [a && b] and [a || b]. *)
Definition jtruthy (j : json) : bool :=
  match j with
  | JUndefined | JNull => false
  | JBool b => b
  | JNum z => negb (z =? 0)%Z
  | JStr s => negb (str_eqb s [])
  | JArr _ | JObj _ => true
  end.

Definition jand (a b : json) : json := if jtruthy a then b else a.
Definition jor (a b : json) : json := if jtruthy a then a else b.

Fixpoint lookup (props : list (jsstring * json)) (k : jsstring) : json :=
  match props with
  | [] => JUndefined
  | (k', v) :: rest => if str_eqb k k' then v else lookup rest k
  end.

(** [j.k] for a [j] that is neither null nor undefined and a name [k]
    that only an object of the settings can have as a property. *)
Definition prop (j : json) (k : jsstring) : json :=
  match j with
  | JObj props => lookup props k
  | _ => JUndefined
  end.

(** [Array.isArray(j)], and [j.length] of an array. *)
Definition isArray (j : json) : bool :=
  match j with JArr _ => true | _ => false end.

Definition arrayLength (j : json) : nat :=
  match j with JArr items => List.length items | _ => 0%nat end.

(** What [JSON.parse(JSON.stringify(j))] gives: an undefined property
    is left out and an undefined item of an array becomes null. *)
Fixpoint toJSON (j : json) : json :=
  match j with
  | JArr items =>
      JArr ((fix items' (l : list json) : list json :=
               match l with
               | [] => []
               | JUndefined :: rest => JNull :: items' rest
               | x :: rest => toJSON x :: items' rest
               end) items)
  | JObj props =>
      JObj ((fix props' (l : list (jsstring * json))
               : list (jsstring * json) :=
               match l with
               | [] => []
               | (_, JUndefined) :: rest => props' rest
               | (k, v) :: rest => (k, toJSON v) :: props' rest
               end) props)
  | _ => j
  end.

(** What the text of settings.json is to [loadData], and what is at its
    path. *)
Inductive text : Type :=
| Blank
| Invalid (e : exn)
| Parsed (j : json).

Inductive file : Type :=
| NoFile
| Unreadable (e : exn)
| File (t : text).

Inductive loadResult : Type :=
| LoadOk (data : list json)
| LoadFailed (error : jsstring).

(** [loadData('settings', dataFolderPath, true)]: with the deleted
    records included nothing is filtered. *)
Definition loadData (f : file) : loadResult :=
  match f with
  | NoFile => LoadOk []
  | Unreadable e => LoadFailed (message e)
  | File Blank => LoadOk []
  | File (Invalid e) => LoadFailed (message e)
  | File (Parsed (JArr items)) => LoadOk items
  | File (Parsed j) => LoadOk [j]
  end.

Definition defaultConsegnatari : json :=
  JArr [JStr (js "Andrea Gosgnach"); JStr (js "Marco Crasnich");
        JStr (js "Massimo Cendron"); JStr (js "Matteo Rocchetto")].

Definition defaultGiftNames : json :=
  JArr [JStr (js "Grappa"); JStr (js "Extra/Altro"); JStr (js "Nessuno")].

(** The [normalized] object of [loadSettings]; [year] is what
    [new Date().getFullYear()] gives. *)
Definition loadNormalized (year : Z) (settingsData : json)
  : list (jsstring * json) :=
  [ (js "regaloCorrente",
       jor (jand settingsData (prop settingsData (js "regaloCorrente")))
           (JStr (js "Grappa")));
    (js "annoCorrente",
       jor (jand settingsData (prop settingsData (js "annoCorrente")))
           (JNum year));
    (js "consegnatari",
       if isArray (jand settingsData (prop settingsData (js "consegnatari")))
       then prop settingsData (js "consegnatari")
       else defaultConsegnatari);
    (js "giftNames",
       if isArray (jand settingsData (prop settingsData (js "giftNames")))
          && (arrayLength (prop settingsData (js "giftNames")) =? 3)%nat
       then prop settingsData (js "giftNames")
       else defaultGiftNames) ].

(** [loadSettings(dataFolderPath)], which answers [success: true] on
    both paths: the data of the answer. The first case is the [catch]. *)
Definition loadSettings (year : Z) (f : file) : list (jsstring * json) :=
  match loadData f with
  | LoadFailed _ =>
      [ (js "regaloCorrente", JStr (js "Grappa"));
        (js "annoCorrente", JNum year);
        (js "consegnatari", defaultConsegnatari) ]
  | LoadOk data =>
      let settingsData :=
        match data with
        | [] => JArr []
        | first :: _ => first
        end in
      loadNormalized year settingsData
  end.

(** The [normalized] object of [saveSettings]. *)
Definition saveNormalized (year : Z) (settings : json)
  : list (jsstring * json) :=
  [ (js "regaloCorrente",
       if jtruthy (jand settings (prop settings (js "regaloCorrente")))
       then prop settings (js "regaloCorrente")
       else JStr (js "Grappa"));
    (js "annoCorrente",
       if jtruthy (jand settings (prop settings (js "annoCorrente")))
       then prop settings (js "annoCorrente")
       else JNum year);
    (js "consegnatari",
       if isArray (jand settings (prop settings (js "consegnatari")))
          && (0 <? arrayLength (prop settings (js "consegnatari")))%nat
       then prop settings (js "consegnatari")
       else defaultConsegnatari);
    (js "giftNames",
       if isArray (jand settings (prop settings (js "giftNames")))
          && (arrayLength (prop settings (js "giftNames")) =? 3)%nat
       then prop settings (js "giftNames")
       else defaultGiftNames) ].

(** [saveSettings(settings, dataFolderPath)]: the file afterwards and
    the result of [saveData]; [writeError] is what the write throws, if
    it throws, and a write that throws is taken to leave the file as it
    was. *)
Definition saveSettings (year : Z) (settings : json) (f : file)
    (writeError : option exn) : file * DataManager.result :=
  match writeError with
  | Some e => (f, DataManager.Failed (message e))
  | None =>
      (File (Parsed (toJSON (JObj (saveNormalized year settings)))),
       DataManager.Ok)
  end.

End Settings.

(** [true] when no property name occurs twice, as in every object. *)
Fixpoint well_formed (o : obj) : bool :=
  match o with
  | [] => true
  | (k, _) :: o' => negb (has o' k) && well_formed o'
  end.

(* ================================================================== *)
(** ** Scenarios and the vocabulary of the statements *)

(** The merge scenario: one stored record and one imported record that
    differ in letter case and in the telephone number. *)
Definition scenarioCurrent : list obj :=
  [ [ (js "id", VNum 1); (js "nome", VStr (js "Mario"));
      (js "azienda", VStr (js "Acme")); (js "telefono", VStr (js "000")) ] ].

Definition scenarioImport : list obj :=
  [ [ (js "nome", VStr (js "mario")); (js "azienda", VStr (js "ACME"));
      (js "telefono", VStr (js "111")) ] ].

(** Two stored records and a batch of two: the first imported record
    is the second stored one in another letter case, the second
    imported record is new. *)
Definition scenarioTwoCurrent : list obj :=
  [ [ (js "id", VNum 1); (js "nome", VStr (js "Anna"));
      (js "azienda", VStr (js "Acme")); (js "telefono", VStr (js "000")) ];
    [ (js "id", VNum 2); (js "nome", VStr (js "Mario"));
      (js "azienda", VStr (js "Acme")); (js "telefono", VStr (js "000")) ] ].

Definition scenarioTwoImport : list obj :=
  [ [ (js "nome", VStr (js "MARIO")); (js "azienda", VStr (js "acme"));
      (js "telefono", VStr (js "222")) ];
    [ (js "nome", VStr (js "Luca")); (js "azienda", VStr (js "Acme"));
      (js "telefono", VStr (js "333")) ] ].

(** A batch as the reader returns it for a sheet with the headers Nome
    and Telefono and one row: the record has a nome and no azienda. *)
Definition batchWithoutAzienda : list obj :=
  [ [ (js "tipo", VStr (js "clienti")); (js "eliminato", VBool false);
      (js "createdAt", VNum 1000); (js "nome", VStr (js "Mario"));
      (js "telefono", VStr (js "0432 111")); (js "id", VNum 1000) ] ].

(** The identity that the merge compares: the lower-cased nome and
    azienda of a record in which both are non-empty strings, under the
    case mapping [lower]. *)
Definition nameKey (lower : jsstring -> jsstring) (r : obj)
  : option (jsstring * jsstring) :=
  match get r (js "nome"), get r (js "azienda") with
  | VStr n, VStr a =>
      if negb (str_eqb n []) && negb (str_eqb a [])
      then Some (lower n, lower a) else None
  | _, _ => None
  end.

Definition key_eqb (k k' : jsstring * jsstring) : bool :=
  str_eqb (fst k) (fst k') && str_eqb (snd k) (snd k').

(** A record in which nome and azienda are both non-empty strings. *)
Definition hasNameKey (r : obj) : bool :=
  match get r (js "nome"), get r (js "azienda") with
  | VStr n, VStr a => negb (str_eqb n []) && negb (str_eqb a [])
  | _, _ => false
  end.

(** Two records of one company, under different names. *)
Definition batchSameCompany : list obj :=
  [ [ (js "nome", VStr (js "Mario")); (js "azienda", VStr (js "Acme"));
      (js "id", VNum 1) ];
    [ (js "nome", VStr (js "Anna")); (js "azienda", VStr (js "ACME"));
      (js "id", VNum 2) ] ].

(** A non-empty string. *)
Definition nonEmptyString (v : value) : Prop :=
  exists s, v = VStr s /\ s <> [].

(** A string, or nothing. *)
Definition textOrAbsent (v : value) : Prop :=
  v = VUndefined \/ exists s, v = VStr s.

(** What holds of the row under construction all along
    [normalizeRowData now row dataType]: tipo and createdAt are the
    initial ones; eliminato is the initial [false] unless a populated
    column of a sheet with headers has a header that resolves to the
    name eliminato, and then it is the text of that cell; every other
    property is a string or absent. *)
Definition Normalized (now : Z) (row : obj) (dataType : jsstring)
    (o : obj) : Prop :=
  get o (js "tipo") = VStr dataType /\
  get o (js "createdAt") = VNum now /\
  (get o (js "eliminato") = VBool false \/
   (existsb ExcelImporter.isGenericColumn (keys row) = false /\
    exists k v, In (k, v) row /\ ExcelImporter.isBlank v = false /\
                ExcelImporter.finalKey k = js "eliminato" /\
                get o (js "eliminato")
                  = ExcelImporter.normalizeValue (js "eliminato") v)) /\
  forall k, k <> js "tipo" -> k <> js "createdAt" ->
            k <> js "eliminato" -> textOrAbsent (get o k).




(** A workbook with the one sheet Clienti, a reader that finds it, and
    a conversion that gives two rows under the headers Nome, Azienda
    and Telefono: one with a name and a company, one with a telephone
    number only. *)
Definition sampleReadFile (_ : jsstring) : exn + ExcelImporter.workbook unit :=
  inr {| ExcelImporter.SheetNames := [js "Clienti"];
         ExcelImporter.Sheets := [(js "Clienti", tt)] |}.

Definition sampleRows : list obj :=
  [ [ (js "Nome", VStr (js "Mario")); (js "Azienda", VStr (js "Acme"));
      (js "Telefono", VStr []) ];
    [ (js "Nome", VStr []); (js "Azienda", VStr []);
      (js "Telefono", VStr (js "0432 111")) ] ].

Definition sampleSheetToJson (_ : option unit)
    (_ : ExcelImporter.headerOption) : exn + list obj :=
  inr sampleRows.

Definition sampleClock : clock := fun n => (1000 + Z.of_nat n)%Z.

(** The first row of the sample sheet once normalized. *)
Definition sampleNormalized : obj :=
  [ (js "tipo", VStr (js "clienti")); (js "eliminato", VBool false);
    (js "createdAt", VNum 1000); (js "nome", VStr (js "Mario"));
    (js "azienda", VStr (js "Acme")); (js "id", VNum 1001) ].

(** The export scenario: a record flagged for GLS and one that is not. *)
Definition exportScenario : list obj :=
  [ [ (js "nome", VStr (js "A")); (js "azienda", VStr []);
      (js "gls", VStr (js "1")); (js "indirizzo", VStr (js "Via X"));
      (js "civico", VStr (js "5")); (js "localita", VStr (js "Udine")) ];
    [ (js "nome", VStr (js "B")); (js "gls", VStr []) ] ].

(** A value on which [exportGLS] can test the company name: a falsy
    value, which ends the test, or a string, which has a [trim]. *)
Definition falsyOrString (v : value) : Prop :=
  truthy v = false \/ exists s, v = VStr s.

(** The house number pattern, said of a string: a token is a digit
    followed by units other than a comma; a tail is one or more
    separators and then a token; the pattern splits [raw] into a prefix
    without line terminators, separators and a token, at the shortest
    prefix after which a tail begins. *)
Definition isToken (tok : jsstring) : Prop :=
  exists d rest,
    tok = d :: rest /\ is_digit d = true
    /\ ExcelImporter.no_comma rest = true.

Definition TailPattern (s tok : jsstring) : Prop :=
  exists seps,
    s = seps ++ tok /\ seps <> []
    /\ forallb ExcelImporter.is_sep seps = true /\ isToken tok.

Definition noLineTerminator (s : jsstring) : bool :=
  forallb (fun c => negb (is_line_terminator c)) s.

Definition CivicoPattern (raw m1 m2 : jsstring) : Prop :=
  (exists seps,
     raw = m1 ++ seps ++ m2 /\ seps <> []
     /\ forallb ExcelImporter.is_sep seps = true) /\
  noLineTerminator m1 = true /\
  isToken m2 /\
  forall p q tok,
    raw = p ++ q -> (List.length p < List.length m1)%nat ->
    ~ TailPattern q tok.

Fixpoint take_while (p : N -> bool) (s : jsstring) : jsstring :=
  match s with
  | [] => []
  | c :: s' => if p c then c :: take_while p s' else []
  end.

(** A reader that finds no file. *)
Definition missingFile (_ : jsstring) : exn + ExcelImporter.workbook unit :=
  inl (Error (js "ENOENT: no such file or directory")).

(** Export followed by import. The xlsx library is taken to give back,
    for the sheet it wrote from [formattedData], those rows under their
    ten headers; ten headers are valid headers, so the first of the three
    conversions of [importFile] is the one used. *)
Definition reimport (clk : clock) (dataType : jsstring) (data : list obj)
  : exn + list obj :=
  bind (ExcelImporter.exportGLS data) (fun formattedData =>
  inr (filter ExcelImporter.isValid
         (ExcelImporter.normalizeAll clk 0 0 formattedData dataType))).

(** What the export writes as recipient: [nomeDestinatario || '']. *)
Definition recipientOf (record : obj) : value :=
  match get record (js "azienda") with
  | VStr s =>
      if str_eqb (trim s) []
      then js_or (get record (js "nome")) (VStr [])
      else VStr s
  | _ => js_or (get record (js "nome")) (VStr [])
  end.

(** How a record [r] read back from the export relates to the record
    that was exported. *)
Definition Reimported (record r : obj) : Prop :=
  (forall f,
     In f [js "localita"; js "provincia"; js "cap"; js "telefono"] ->
     get r f = if truthy (get record f)
               then ExcelImporter.normalizeValue f (get record f)
               else VUndefined) /\
  get r (js "azienda") = VUndefined /\
  get r (js "nome")
    = (if truthy (recipientOf record)
       then ExcelImporter.normalizeValue (js "nome") (recipientOf record)
       else VUndefined) /\
  get r (js "riferimento_mittente")
    = (if truthy (get record (js "nome"))
       then ExcelImporter.normalizeValue (js "riferimento_mittente")
              (get record (js "nome"))
       else VUndefined).

(** Three records flagged for GLS: one with a name and a company, and
    two that differ only in having the same text as company or none. *)
Definition recordWithCompany : obj :=
  [ (js "id", VNum 7); (js "nome", VStr (js "Mario Rossi"));
    (js "azienda", VStr (js "Acme")); (js "localita", VStr (js "Udine"));
    (js "provincia", VStr (js "UD")); (js "cap", VStr (js "33100"));
    (js "telefono", VStr (js "0432 111")); (js "gls", VStr (js "1")) ].

Definition recordSameText : obj :=
  [ (js "nome", VStr (js "Rossi")); (js "azienda", VStr (js "Rossi"));
    (js "gls", VStr (js "1")) ].

Definition recordNoCompany : obj :=
  [ (js "nome", VStr (js "Rossi")); (js "gls", VStr (js "1")) ].

(** A string of Basic Latin and Latin-1 code units; on these strings
    [toLowerCase] is the built-in. *)
Definition latin1 (s : jsstring) : bool := forallb (fun c => N.leb c 255) s.

(** A code unit on which [toUpperCase] is the built-in: one of Basic
    Latin or Latin-1 other than the micro sign, sharp s and y with
    diaeresis. *)
Definition upperExact (c : N) : bool :=
  N.leb c 255 && negb (N.eqb c 181) && negb (N.eqb c 223)
  && negb (N.eqb c 255).

(** Two spaces in a row somewhere in a string. *)
Fixpoint has_double_space (s : jsstring) : bool :=
  match s with
  | a :: (b :: _) as rest =>
      (N.eqb a 32 && N.eqb b 32) || has_double_space rest
  | _ => false
  end.

(** A clock that does not go backwards. *)
Definition monotone (clk : clock) : Prop :=
  forall m n, (m <= n)%nat -> (clk m <= clk n)%Z.

(** The header row of the export. *)
Definition glsHeaders : list jsstring :=
  [js "NOME DESTINATARIO"; js "INDIRIZZO"; js "LOCALITA'"; js "PROV";
   js "CAP"; js "TIPO MERCE"; js "COLLI"; js "NOTE SPEDIZIONE";
   js "RIFERIMENTO MITTENTE"; js "TELEFONO"].

(** The column letters of a row in the order in which the generic
    branch of [normalizeRowData] visits them. *)
Definition genericKeys (row : obj) : list jsstring :=
  filter ExcelImporter.isGenericColumn (sort_strings (keys row)).

(** A sheet without headers, read with column letters, of 27 columns of
    which three are filled, and with a stray header beside them. *)
Definition lettersRow : obj :=
  [ (js "A", VStr (js "Mario")); (js "B", VStr (js "Acme"));
    (js "AA", VStr (js "Via Roma 1")); (js "Nome", VStr (js "Luigi")) ].

(** The identifiers of a record set, in order. *)
Definition idsOf (records : list obj) : list value :=
  map (fun r => get r (js "id")) records.

(** A record that the store does not show: its eliminato is truthy. *)
Definition isDeleted (r : obj) : bool := truthy (get r (js "eliminato")).


(** A value that a JSON text can hold. *)
Definition jsonValue (v : value) : bool :=
  match v with
  | VUndefined | VDate _ _ => false
  | _ => true
  end.

(** A record as [JSON.parse] gives it: no property name twice, every
    value one that JSON can hold. *)
Definition isJson (o : obj) : bool :=
  well_formed o && forallb (fun kv => jsonValue (snd kv)) o.

(** A folder in which every write goes through. *)
Definition writable (d : DataManager.disk) : Prop :=
  forall name, DataManager.writeError d name = None.

(** A folder with the collection clienti of two records, the second
    deleted already, and the deleted records' file holding that one. *)
Definition sampleClient (id : Z) (nome : string) (eliminato : bool) : obj :=
  [ (js "id", VNum id); (js "tipo", VStr (js "clienti"));
    (js "nome", VStr (js nome)); (js "azienda", VStr (js "Acme"));
    (js "gls", VStr (js "1")); (js "eliminato", VBool eliminato) ].

Definition sampleDisk : DataManager.disk :=
  {| DataManager.files := fun name =>
       if str_eqb name (js "clienti.json") then
         DataManager.File
           (DataManager.Records
              [sampleClient 1 "Mario" false; sampleClient 2 "Anna" true])
       else if str_eqb name (js "eliminati.json") then
         DataManager.File
           (DataManager.Records [sampleClient 2 "Anna" true])
       else DataManager.NoFile;
     DataManager.writeError := fun _ => None |}.

(** The same folder when it cannot be written to. *)
Definition readOnlyDisk : DataManager.disk :=
  {| DataManager.files := DataManager.files sampleDisk;
     DataManager.writeError := fun _ => Some (Error (js "EACCES")) |}.

(** The same folder when the text of clienti.json is not JSON. *)
Definition corruptDisk : DataManager.disk :=
  {| DataManager.files := fun name =>
       if str_eqb name (js "clienti.json") then
         DataManager.File
           (DataManager.Invalid (Error (js "Unexpected end of JSON input")))
       else DataManager.files sampleDisk name;
     DataManager.writeError := fun _ => None |}.

(** Settings as the page sends them when the list of recipients was
    emptied and one gift name is missing. *)
Definition sampleSettings : Settings.json :=
  Settings.JObj
    [ (js "regaloCorrente", Settings.JStr (js "Panettone"));
      (js "consegnatari", Settings.JArr []);
      (js "giftNames",
         Settings.JArr [Settings.JStr (js "Panettone");
                        Settings.JStr (js "Altro")]) ].

(* ================================================================== *)
(** ** Strings and objects: basic facts *)

Lemma str_eqb_refl (a : jsstring) : str_eqb a a = true.
Proof.
  induction a as [|x a IH]; simpl; [reflexivity|].
  now rewrite N.eqb_refl, IH.
Qed.

Lemma str_eqb_eq (a b : jsstring) : str_eqb a b = true <-> a = b.
Proof.
  split.
  - revert b; induction a as [|x a IH]; intros [|y b] H; simpl in H;
      try discriminate; [reflexivity|].
    apply andb_true_iff in H as [Hx Hab].
    apply N.eqb_eq in Hx. apply IH in Hab. now subst.
  - intros ->. apply str_eqb_refl.
Qed.

Lemma str_eqb_neq (a b : jsstring) : str_eqb a b = false <-> a <> b.
Proof.
  rewrite <- str_eqb_eq. destruct (str_eqb a b); split; congruence.
Qed.

Lemma str_eqb_sym (a b : jsstring) : str_eqb a b = str_eqb b a.
Proof.
  destruct (str_eqb a b) eqn:E.
  - apply str_eqb_eq in E. subst. symmetry. apply str_eqb_refl.
  - symmetry. apply str_eqb_neq. apply str_eqb_neq in E. congruence.
Qed.

Lemma truthy_VStr (s : jsstring) : truthy (VStr s) = true <-> s <> [].
Proof.
  simpl. rewrite negb_true_iff. apply str_eqb_neq.
Qed.

Lemma get_set (o : obj) (k k' : jsstring) (v : value) :
  get (set o k v) k' = if str_eqb k' k then v else get o k'.
Proof.
  induction o as [|[k0 v0] o IH]; simpl.
  - reflexivity.
  - destruct (str_eqb k k0) eqn:E; simpl.
    + apply str_eqb_eq in E. subst k0.
      destruct (str_eqb k' k); reflexivity.
    + destruct (str_eqb k' k0) eqn:E'.
      * apply str_eqb_eq in E'. subst k0.
        rewrite (str_eqb_sym k' k), E. reflexivity.
      * apply IH.
Qed.

Lemma get_set_same (o : obj) (k : jsstring) (v : value) :
  get (set o k v) k = v.
Proof. now rewrite get_set, str_eqb_refl. Qed.

Lemma get_set_other (o : obj) (k k' : jsstring) (v : value) :
  k' <> k -> get (set o k v) k' = get o k'.
Proof.
  intros H. rewrite get_set. apply str_eqb_neq in H. now rewrite H.
Qed.

Lemma get_absent (o : obj) (k : jsstring) :
  has o k = false -> get o k = VUndefined.
Proof.
  induction o as [|[k0 v0] o IH]; simpl; [reflexivity|].
  intros H. apply orb_false_iff in H as [H1 H2]. rewrite H1. auto.
Qed.

Lemma get_spread_absent (b a : obj) (k : jsstring) :
  has b k = false -> get (spread a b) k = get a k.
Proof.
  unfold spread. revert a.
  induction b as [|[k0 v0] b IH]; intros a H; simpl in *; [reflexivity|].
  apply orb_false_iff in H as [H1 H2].
  rewrite IH by assumption. rewrite get_set. now rewrite H1.
Qed.

Lemma get_spread_present (b a : obj) (k : jsstring) :
  well_formed b = true -> has b k = true ->
  get (spread a b) k = get b k.
Proof.
  unfold spread. revert a.
  induction b as [|[k0 v0] b IH]; intros a Hwf H; simpl in *;
    [discriminate|].
  apply andb_true_iff in Hwf as [Hk0 Hwf].
  apply negb_true_iff in Hk0.
  destruct (str_eqb k k0) eqn:E.
  - apply str_eqb_eq in E. subst k0.
    change (get (spread (set a k v0) b) k = v0).
    rewrite get_spread_absent by assumption. apply get_set_same.
  - simpl in H. now apply IH.
Qed.

Lemma get_spread (b a : obj) (k : jsstring) :
  well_formed b = true ->
  get (spread a b) k = if has b k then get b k else get a k.
Proof.
  intros Hwf. destruct (has b k) eqn:E.
  - now apply get_spread_present.
  - now apply get_spread_absent.
Qed.

Lemma length_update_nth {A : Type} (i : nat) (x : A) (l : list A) :
  List.length (update_nth i x l) = List.length l.
Proof.
  revert i; induction l as [|y l IH]; intros [|i]; simpl; auto.
Qed.

Lemma nth_update_nth {A : Type} (i j : nat) (x d : A) (l : list A) :
  (i < List.length l)%nat ->
  nth j (update_nth i x l) d = if Nat.eqb j i then x else nth j l d.
Proof.
  revert i j; induction l as [|y l IH]; intros i j Hi; simpl in Hi;
    [lia|].
  destruct i as [|i], j as [|j]; simpl; try reflexivity.
  apply IH. lia.
Qed.

(* ================================================================== *)
(** ** The merge: matching and overwriting *)

Section Merge.
Import ImportExcel.

Variable lower : jsstring -> jsstring.

Lemma toLowerCaseOf_inr (expr : string) (v : value) (s : jsstring) :
  toLowerCaseOf lower expr v = inr s -> exists x, v = VStr x /\ s = lower x.
Proof.
  destruct v; simpl; try discriminate.
  intros H. injection H as <-. eauto.
Qed.

Lemma sameNameAndCompany_true (importedItem item : obj) :
  sameNameAndCompany lower importedItem item = inr true <->
  exists n1 a1 n2 a2,
    get item (js "nome") = VStr n1 /\
    get item (js "azienda") = VStr a1 /\
    get importedItem (js "nome") = VStr n2 /\
    get importedItem (js "azienda") = VStr a2 /\
    n1 <> [] /\ a1 <> [] /\ n2 <> [] /\ a2 <> [] /\
    lower n1 = lower n2 /\ lower a1 = lower a2.
Proof.
  unfold sameNameAndCompany. cbv zeta. split.
  - destruct (truthy (get item (js "nome"))
              && truthy (get importedItem (js "nome"))
              && truthy (get item (js "azienda"))
              && truthy (get importedItem (js "azienda"))) eqn:Hc;
      [|discriminate].
    repeat (apply andb_true_iff in Hc as [Hc ?]).
    unfold bind.
    destruct (toLowerCaseOf lower _ (get item (js "nome"))) as [|a] eqn:Ea;
      [discriminate|].
    destruct (toLowerCaseOf lower _ (get importedItem (js "nome"))) as [|b] eqn:Eb;
      [discriminate|].
    destruct (str_eqb a b) eqn:Eab; [|discriminate].
    destruct (toLowerCaseOf lower _ (get item (js "azienda"))) as [|c] eqn:Ec;
      [discriminate|].
    destruct (toLowerCaseOf lower _ (get importedItem (js "azienda"))) as [|d] eqn:Ed;
      [discriminate|].
    intros Hres. injection Hres as Hcd.
    apply toLowerCaseOf_inr in Ea as (n1 & Hn1 & ->).
    apply toLowerCaseOf_inr in Eb as (n2 & Hn2 & ->).
    apply toLowerCaseOf_inr in Ec as (a1 & Ha1 & ->).
    apply toLowerCaseOf_inr in Ed as (a2 & Ha2 & ->).
    exists n1, a1, n2, a2.
    rewrite Hn1, Hn2, Ha1, Ha2 in *.
    repeat split; try (now apply truthy_VStr); now apply str_eqb_eq.
  - intros (n1 & a1 & n2 & a2 & -> & -> & -> & -> &
            H1 & H2 & H3 & H4 & Hn & Ha).
    apply truthy_VStr in H1, H2, H3, H4.
    rewrite H1, H2, H3, H4. simpl.
    rewrite Hn, Ha, !str_eqb_refl. reflexivity.
Qed.

Lemma findIndex_Some (p : obj -> exn + bool) (arr : list obj)
    (n i : nat) :
  findIndex p arr n = inr (Some i) ->
  exists j, i = (n + j)%nat /\ (j < List.length arr)%nat /\
            p (nth j arr []) = inr true /\
            forall j', (j' < j)%nat -> p (nth j' arr []) = inr false.
Proof.
  revert n. induction arr as [|x arr IH]; intros n H; simpl in H.
  - discriminate.
  - unfold bind in H. destruct (p x) as [e|[|]] eqn:Ex; try discriminate.
    + injection H as <-. exists 0%nat. simpl.
      repeat split; try lia; try assumption.
    + apply IH in H as (j & -> & Hj & Hp & Hbefore).
      exists (S j). simpl. repeat split; try lia; try assumption.
      intros [|j'] Hj'; [assumption|]. apply Hbefore. lia.
Qed.

Lemma findIndex_None (p : obj -> exn + bool) (arr : list obj) (n : nat) :
  findIndex p arr n = inr None ->
  Forall (fun item => p item = inr false) arr.
Proof.
  revert n. induction arr as [|x arr IH]; intros n H; simpl in H.
  - constructor.
  - unfold bind in H. destruct (p x) as [e|[|]] eqn:Ex; try discriminate.
    constructor; eauto.
Qed.

Lemma mergedRecord_fields (now : Z) (existing importedItem : obj) :
  well_formed importedItem = true ->
  let merged := mergedRecord now existing importedItem in
  get merged (js "id") = get existing (js "id") /\
  get merged (js "eliminato")
    = js_or (get existing (js "eliminato")) (VBool false) /\
  truthy (get merged (js "eliminato"))
    = truthy (get existing (js "eliminato")) /\
  get merged (js "lastUpdate") = VNum now /\
  forall k, k <> js "id" -> k <> js "eliminato" ->
            k <> js "lastUpdate" ->
            get merged k = if has importedItem k then get importedItem k
                           else get existing k.
Proof.
  intros Hwf merged. subst merged. unfold mergedRecord.
  repeat split.
  - rewrite get_set_other by discriminate.
    rewrite get_set_other by discriminate. apply get_set_same.
  - rewrite get_set_other by discriminate. apply get_set_same.
  - rewrite get_set_other by discriminate. rewrite get_set_same.
    unfold js_or.
    destruct (truthy (get existing (js "eliminato"))) eqn:E; auto.
  - apply get_set_same.
  - intros k H1 H2 H3. rewrite !get_set_other by assumption.
    now apply get_spread.
Qed.

Lemma findIndex_all_false (p : obj -> exn + bool) (arr : list obj) :
  Forall (fun item => p item = inr false) arr ->
  forall n, findIndex p arr n = inr None.
Proof.
  induction 1 as [|item arr Hp _ IH]; intros n; simpl.
  - reflexivity.
  - rewrite Hp. simpl. apply IH.
Qed.

(** The index found is that of the first element on which the callback
    gives true, when it gives false on those before. *)
Lemma findIndex_first (p : obj -> exn + bool) (arr : list obj) (i : nat) :
  (i < List.length arr)%nat ->
  p (nth i arr []) = inr true ->
  (forall j, (j < i)%nat -> p (nth j arr []) = inr false) ->
  forall n, findIndex p arr n = inr (Some (n + i)%nat).
Proof.
  revert i. induction arr as [|x arr IH]; intros i Hi Hp Hbefore n;
    simpl in Hi; [lia|].
  destruct i as [|i]; cbn [findIndex].
  - simpl in Hp. rewrite Hp. cbn [bind]. now rewrite Nat.add_0_r.
  - pose proof (Hbefore 0%nat (Nat.lt_0_succ i)) as H0. simpl in H0.
    rewrite H0. cbn [bind].
    rewrite (IH i); [f_equal; f_equal; lia|lia|exact Hp|].
    intros j Hj. apply (Hbefore (S j)). lia.
Qed.

(** The loop takes the records of the batch one after the other. *)
Lemma mergeLoop_snoc (clk : clock) (imported : list obj) (x : obj) :
  forall st,
    mergeLoop lower clk st (imported ++ [x])
    = bind (mergeLoop lower clk st imported)
        (fun st' => mergeStep lower clk st' x).
Proof.
  induction imported as [|y imported IH]; intros st; cbn [app mergeLoop].
  - cbn [bind]. destruct (mergeStep lower clk st x); reflexivity.
  - destruct (mergeStep lower clk st y) as [e|st1]; cbn [bind];
      [reflexivity|apply IH].
Qed.

End Merge.

(** C1. Whatever [toLowerCase] does: an imported record matches a stored
    record exactly when the nome and the azienda of both are non-empty
    strings that are equal once lower-cased. In a step of the merge the
    record found is the first stored record that matches, wherever it
    stands: the step leaves the number of records and the count of new
    records as they were, adds one to the count of updated records,
    changes no other record, and writes in the place of the one found a
    record that has its id, its eliminato status (with [false] for a
    missing one), lastUpdate read from the clock, and for every other
    property the value of the imported record where it has the property
    and of the stored record otherwise. When no stored record matches,
    the stored records stay as they are and one record is put after
    them. The batch is merged record by record, in its order, from the
    current records and counts of zero. In the scenario the merge gives
    the one record with id 1 and telefono "111", no new record and one
    updated record; with two stored records and a batch of two, the
    second stored record is the one updated by the first imported
    record, and the second imported record comes after them. *)
Theorem merge_match_overwrites :
  forall lower : jsstring -> jsstring,
  (forall importedItem item : obj,
     ImportExcel.sameNameAndCompany lower importedItem item = inr true <->
     exists n1 a1 n2 a2,
       get item (js "nome") = VStr n1 /\
       get item (js "azienda") = VStr a1 /\
       get importedItem (js "nome") = VStr n2 /\
       get importedItem (js "azienda") = VStr a2 /\
       n1 <> [] /\ a1 <> [] /\ n2 <> [] /\ a2 <> [] /\
       lower n1 = lower n2 /\
       lower a1 = lower a2)
  /\
  (forall (clk : clock) (st : ImportExcel.mergeState)
          (importedItem : obj) (i : nat),
     well_formed importedItem = true ->
     (i < List.length (ImportExcel.updatedData st))%nat ->
     ImportExcel.sameNameAndCompany lower importedItem
       (nth i (ImportExcel.updatedData st) []) = inr true ->
     (forall j, (j < i)%nat ->
        ImportExcel.sameNameAndCompany lower importedItem
          (nth j (ImportExcel.updatedData st) []) = inr false) ->
     exists st',
       ImportExcel.mergeStep lower clk st importedItem = inr st' /\
       List.length (ImportExcel.updatedData st')
         = List.length (ImportExcel.updatedData st) /\
       ImportExcel.newRecords st' = ImportExcel.newRecords st /\
       ImportExcel.updatedRecords st'
         = S (ImportExcel.updatedRecords st) /\
       (forall j, j <> i ->
          nth j (ImportExcel.updatedData st') []
            = nth j (ImportExcel.updatedData st) []) /\
       let existing := nth i (ImportExcel.updatedData st) [] in
       let merged := nth i (ImportExcel.updatedData st') [] in
       get merged (js "id") = get existing (js "id") /\
       get merged (js "eliminato")
         = js_or (get existing (js "eliminato")) (VBool false) /\
       truthy (get merged (js "eliminato"))
         = truthy (get existing (js "eliminato")) /\
       get merged (js "lastUpdate")
         = VNum (clk (ImportExcel.ticks st)) /\
       forall k, k <> js "id" -> k <> js "eliminato" ->
                 k <> js "lastUpdate" ->
                 get merged k
                   = if has importedItem k then get importedItem k
                     else get existing k)
  /\
  (forall (clk : clock) (st : ImportExcel.mergeState) (importedItem : obj),
     Forall (fun item =>
               ImportExcel.sameNameAndCompany lower importedItem item
               = inr false)
       (ImportExcel.updatedData st) ->
     exists st' created,
       ImportExcel.mergeStep lower clk st importedItem = inr st' /\
       ImportExcel.updatedData st'
         = ImportExcel.updatedData st ++ [created] /\
       ImportExcel.newRecords st' = S (ImportExcel.newRecords st) /\
       ImportExcel.updatedRecords st' = ImportExcel.updatedRecords st)
  /\
  (forall (clk : clock) (currentData : list obj),
     ImportExcel.merge lower clk currentData []
     = inr {| ImportExcel.updatedData := currentData;
              ImportExcel.newRecords := 0;
              ImportExcel.updatedRecords := 0;
              ImportExcel.ticks := 0 |})
  /\
  (forall (clk : clock) (currentData imported : list obj)
          (importedItem : obj),
     ImportExcel.merge lower clk currentData (imported ++ [importedItem])
     = bind (ImportExcel.merge lower clk currentData imported)
         (fun st => ImportExcel.mergeStep lower clk st importedItem))
  /\
  (forall clk : clock,
     ImportExcel.merge toLowerCase clk
       (ImportExcel.excludeDeleted scenarioCurrent) scenarioImport
     = inr {| ImportExcel.updatedData :=
                [ [ (js "id", VNum 1);
                    (js "nome", VStr (js "mario"));
                    (js "azienda", VStr (js "ACME"));
                    (js "telefono", VStr (js "111"));
                    (js "eliminato", VBool false);
                    (js "lastUpdate", VNum (clk 0%nat)) ] ];
              ImportExcel.newRecords := 0;
              ImportExcel.updatedRecords := 1;
              ImportExcel.ticks := 1 |})
  /\
  (forall clk : clock,
     ImportExcel.merge toLowerCase clk
       (ImportExcel.excludeDeleted scenarioTwoCurrent) scenarioTwoImport
     = inr {| ImportExcel.updatedData :=
                [ [ (js "id", VNum 1);
                    (js "nome", VStr (js "Anna"));
                    (js "azienda", VStr (js "Acme"));
                    (js "telefono", VStr (js "000")) ];
                  [ (js "id", VNum 2);
                    (js "nome", VStr (js "MARIO"));
                    (js "azienda", VStr (js "acme"));
                    (js "telefono", VStr (js "222"));
                    (js "eliminato", VBool false);
                    (js "lastUpdate", VNum (clk 0%nat)) ];
                  [ (js "nome", VStr (js "Luca"));
                    (js "azienda", VStr (js "Acme"));
                    (js "telefono", VStr (js "333"));
                    (js "id", VNum (clk 1%nat + 2 + 0)%Z);
                    (js "eliminato", VBool false);
                    (js "createdAt", VNum (clk 2%nat)) ] ];
              ImportExcel.newRecords := 1;
              ImportExcel.updatedRecords := 1;
              ImportExcel.ticks := 3 |}).
Proof.
  intros lower.
  split; [exact (sameNameAndCompany_true lower)|]. split.
  { intros clk st importedItem i Hwf Hi Hp Hbefore.
    unfold ImportExcel.mergeStep.
    rewrite (findIndex_first _ _ i Hi Hp Hbefore 0%nat).
    cbn [bind Nat.add].
    eexists. split; [reflexivity|]. cbn [ImportExcel.updatedData
      ImportExcel.newRecords ImportExcel.updatedRecords].
    split; [apply length_update_nth|].
    split; [reflexivity|]. split; [reflexivity|].
    split.
    { intros j Hji. rewrite nth_update_nth by assumption.
      apply Nat.eqb_neq in Hji. now rewrite Hji. }
    rewrite nth_update_nth by assumption. rewrite Nat.eqb_refl.
    now apply mergedRecord_fields. }
  split.
  { intros clk st importedItem Hnone.
    unfold ImportExcel.mergeStep.
    rewrite (findIndex_all_false _ _ Hnone 0%nat). cbn [bind].
    do 2 eexists. split; [reflexivity|].
    repeat split. }
  split; [reflexivity|].
  split; [intros clk currentData imported importedItem;
          apply mergeLoop_snoc|].
  split; intros clk; reflexivity.
Qed.

(** The merge step of C1 at the second of two stored records. *)
Lemma merge_match_overwrites_witness :
  exists st',
    ImportExcel.mergeStep toLowerCase (fun _ => 1700000000000%Z)
      {| ImportExcel.updatedData := scenarioTwoCurrent;
         ImportExcel.newRecords := 0;
         ImportExcel.updatedRecords := 0;
         ImportExcel.ticks := 0 |}
      (hd [] scenarioTwoImport) = inr st' /\
    nth 0 (ImportExcel.updatedData st') [] = nth 0 scenarioTwoCurrent [] /\
    get (nth 1 (ImportExcel.updatedData st') []) (js "id") = VNum 2 /\
    get (nth 1 (ImportExcel.updatedData st') []) (js "telefono")
      = VStr (js "222").
Proof.
  destruct (merge_match_overwrites toLowerCase) as (_ & Hstep & _).
  destruct (Hstep (fun _ => 1700000000000%Z)
              {| ImportExcel.updatedData := scenarioTwoCurrent;
                 ImportExcel.newRecords := 0;
                 ImportExcel.updatedRecords := 0;
                 ImportExcel.ticks := 0 |}
              (hd [] scenarioTwoImport) 1%nat eq_refl)
    as (st' & Hst & _ & _ & _ & Hother & Hid & _ & _ & _ & Hk).
  - simpl. lia.
  - reflexivity.
  - intros [|j] Hj; [reflexivity|lia].
  - exists st'. split; [exact Hst|]. split; [|split].
    + now apply (Hother 0%nat).
    + rewrite Hid. reflexivity.
    + rewrite (Hk (js "telefono")); [reflexivity| | |]; discriminate.
Defined.

(* ================================================================== *)
(** ** The merge of a batch with itself *)

Section MergeIdempotence.
Import ImportExcel.

Variable lower : jsstring -> jsstring.
Variable clk : clock.

Lemma key_eqb_eq (k k' : jsstring * jsstring) :
  key_eqb k k' = true <-> k = k'.
Proof.
  destruct k as [a b], k' as [a' b']. unfold key_eqb. simpl.
  rewrite andb_true_iff, !str_eqb_eq. split.
  - intros [-> ->]. reflexivity.
  - intros H. injection H as -> ->. auto.
Qed.

Lemma sameNameAndCompany_by_key (x item : obj)
    (kx ki : jsstring * jsstring) :
  nameKey lower x = Some kx -> nameKey lower item = Some ki ->
  sameNameAndCompany lower x item = inr (key_eqb ki kx).
Proof.
  unfold nameKey, sameNameAndCompany.
  destruct (get x (js "nome")) as [| | | |n2|]; try discriminate.
  destruct (get x (js "azienda")) as [| | | |a2|]; try discriminate.
  destruct (get item (js "nome")) as [| | | |n1|]; try discriminate.
  destruct (get item (js "azienda")) as [| | | |a1|]; try discriminate.
  simpl truthy.
  destruct (negb (str_eqb n2 [])); try discriminate.
  destruct (negb (str_eqb a2 [])); try discriminate.
  destruct (negb (str_eqb n1 [])); try discriminate.
  destruct (negb (str_eqb a1 [])); try discriminate.
  simpl. intros Hx Hi. injection Hx as <-. injection Hi as <-.
  unfold key_eqb. simpl.
  destruct (str_eqb (lower n1) (lower n2)); reflexivity.
Qed.

Lemma nameKey_has (x : obj) (k : jsstring * jsstring) :
  nameKey lower x = Some k ->
  has x (js "nome") = true /\ has x (js "azienda") = true.
Proof.
  unfold nameKey. intros H. split.
  - destruct (has x (js "nome")) eqn:E; [reflexivity|].
    apply get_absent in E. rewrite E in H. discriminate.
  - destruct (has x (js "azienda")) eqn:E; [reflexivity|].
    apply get_absent in E. rewrite E in H.
    destruct (get x (js "nome")); discriminate.
Qed.

Lemma nameKey_mergedRecord (now : Z) (existing x : obj)
    (k : jsstring * jsstring) :
  well_formed x = true -> nameKey lower x = Some k ->
  nameKey lower (mergedRecord now existing x) = Some k.
Proof.
  intros Hwf Hk.
  destruct (nameKey_has x k Hk) as [Hn Ha].
  destruct (mergedRecord_fields now existing x Hwf)
    as (_ & _ & _ & _ & Hother).
  unfold nameKey.
  rewrite (Hother (js "nome")), (Hother (js "azienda"));
    try discriminate.
  rewrite Hn, Ha. exact Hk.
Qed.

Lemma findIndex_found (p : obj -> exn + bool) (arr : list obj) (n : nat) :
  Forall (fun item => exists b, p item = inr b) arr ->
  Exists (fun item => p item = inr true) arr ->
  exists i, findIndex p arr n = inr (Some i).
Proof.
  intros Hall. revert n.
  induction Hall as [|x arr [b Hb] Hall IH]; intros n Hex.
  - inversion Hex.
  - simpl. rewrite Hb. simpl. destruct b; [eauto|].
    apply IH. inversion Hex as [? ? Hx|]; subst; [congruence|assumption].
Qed.

Lemma map_update_nth {A B : Type} (f : A -> B) (i : nat) (x d : A)
    (l : list A) :
  (i < List.length l)%nat -> f x = f (nth i l d) ->
  map f (update_nth i x l) = map f l.
Proof.
  revert i. induction l as [|y l IH]; intros [|i] Hi Hf; simpl in *;
    try lia.
  - now rewrite Hf.
  - f_equal. apply IH; [lia|assumption].
Qed.

(** Every imported record whose key is among the keys of the array is
    an update, and an update leaves the keys of the array as they are. *)
Lemma mergeLoop_all_updates (keys : list (jsstring * jsstring))
    (imported : list obj) :
  Forall (fun x => well_formed x = true /\
                   exists k, nameKey lower x = Some k /\ In k keys) imported ->
  forall st,
    map (nameKey lower) (updatedData st) = map Some keys ->
    exists st',
      mergeLoop lower clk st imported = inr st' /\
      newRecords st' = newRecords st /\
      updatedRecords st'
        = (updatedRecords st + List.length imported)%nat /\
      map (nameKey lower) (updatedData st') = map Some keys.
Proof.
  induction 1 as [|x imported (Hwf & k & Hk & Hin) _ IH]; intros st Hkeys.
  - exists st. simpl. repeat split; auto.
  - simpl.
    assert (Hall : Forall (fun item => exists b,
                      sameNameAndCompany lower x item = inr b) (updatedData st)).
    { apply Forall_forall. intros item Hitem.
      assert (Hsome : In (nameKey lower item) (map Some keys)).
      { rewrite <- Hkeys. now apply in_map. }
      apply in_map_iff in Hsome as (ki & Hki & _).
      eexists. apply (sameNameAndCompany_by_key x item k ki Hk).
      symmetry. exact Hki. }
    assert (Hex : Exists (fun item => sameNameAndCompany lower x item = inr true)
                    (updatedData st)).
    { apply Exists_exists.
      assert (Hsome : In (Some k) (map (nameKey lower) (updatedData st))).
      { rewrite Hkeys. now apply in_map. }
      apply in_map_iff in Hsome as (item & Hitem & Hin').
      exists item. split; [assumption|].
      rewrite (sameNameAndCompany_by_key _ _ _ _ Hk Hitem).
      f_equal. now apply key_eqb_eq. }
    destruct (findIndex_found _ _ 0%nat Hall Hex) as [i Hi].
    unfold mergeStep. rewrite Hi. simpl.
    apply findIndex_Some in Hi as (j & Hj0 & Hj & Hp & _).
    simpl in Hj0. subst j.
    set (existing := nth i (updatedData st) []) in *.
    assert (Hsame : nameKey lower existing = Some k).
    { assert (Hsome : In (nameKey lower existing) (map Some keys)).
      { rewrite <- Hkeys. apply in_map. now apply nth_In. }
      apply in_map_iff in Hsome as (ki & Hki & _).
      symmetry in Hki.
      rewrite (sameNameAndCompany_by_key _ _ _ _ Hk Hki) in Hp.
      injection Hp as Hp. apply key_eqb_eq in Hp. now subst. }
    match goal with
    | |- exists st', mergeLoop lower clk ?s imported = _ /\ _ =>
        destruct (IH s) as (st' & Hloop & Hnew & Hupd & Hkeys')
    end.
    { simpl. rewrite <- Hkeys.
      apply map_update_nth with (d := []); [assumption|].
      transitivity (Some k);
        [now apply nameKey_mergedRecord | symmetry; exact Hsame]. }
    exists st'. simpl in *. repeat split; try assumption. lia.
Qed.

Lemma hasNameKey_nameKey (r : obj) :
  hasNameKey r = true -> exists k, nameKey lower r = Some k.
Proof.
  unfold hasNameKey, nameKey.
  destruct (get r (js "nome")); try discriminate.
  destruct (get r (js "azienda")); try discriminate.
  intros ->. eauto.
Qed.

End MergeIdempotence.

(** C2 as stated fails: a record that the reader accepts with a nome and
    no azienda matches nothing, itself included, so merging the one-record
    batch with itself inserts one record, updates none and leaves two. *)
Lemma merge_idempotence_counterexample :
  batchWithoutAzienda
    = filter ExcelImporter.isValid
        (ExcelImporter.normalizeAll (fun _ => 1000%Z) 0 0
           [ [ (js "Nome", VStr (js "Mario"));
               (js "Telefono", VStr (js "0432 111")) ] ]
           (js "clienti")) /\
  exists st,
    ImportExcel.merge toLowerCase (fun _ => 2000%Z)
      batchWithoutAzienda batchWithoutAzienda = inr st /\
    ImportExcel.newRecords st = 1%nat /\
    ImportExcel.updatedRecords st = 0%nat /\
    List.length (ImportExcel.updatedData st) = 2%nat.
Proof.
  split; [reflexivity|].
  eexists. split; [reflexivity|]. simpl. auto.
Qed.

(** C2, amended. For every batch of records in which nome and azienda
    are both non-empty strings, merging the batch with a current record
    set equal to that same batch succeeds, inserts no record, updates as
    many records as the batch has, and leaves as many records as the
    batch has, whatever [toLowerCase] does. *)
Theorem merge_idempotent_on_named_records :
  forall (lower : jsstring -> jsstring) (clk : clock) (batch : list obj),
    forallb well_formed batch = true ->
    forallb hasNameKey batch = true ->
    exists st,
      ImportExcel.merge lower clk batch batch = inr st /\
      ImportExcel.newRecords st = 0%nat /\
      ImportExcel.updatedRecords st = List.length batch /\
      List.length (ImportExcel.updatedData st) = List.length batch.
Proof.
  intros lower clk batch Hwf Hnamed.
  rewrite forallb_forall in Hwf, Hnamed.
  assert (Hkeys : exists keys, map (nameKey lower) batch = map Some keys).
  { clear Hwf. induction batch as [|r batch IH].
    - exists []. reflexivity.
    - destruct IH as [keys Hkeys].
      { intros x Hx. apply Hnamed. now right. }
      destruct (hasNameKey_nameKey lower r (Hnamed r (or_introl eq_refl)))
        as [k Ek].
      exists (k :: keys). simpl. now rewrite Ek, Hkeys. }
  destruct Hkeys as [keys Hkeys].
  destruct (mergeLoop_all_updates lower clk keys batch) with
    (st := {| ImportExcel.updatedData := batch;
              ImportExcel.newRecords := 0;
              ImportExcel.updatedRecords := 0;
              ImportExcel.ticks := 0 |})
    as (st' & Hloop & Hnew & Hupd & Hkeys').
  - apply Forall_forall. intros x Hx. split; [now apply Hwf|].
    assert (Hsome : In (nameKey lower x) (map Some keys)).
    { rewrite <- Hkeys. now apply in_map. }
    apply in_map_iff in Hsome as (k & Hk & Hin). eauto.
  - exact Hkeys.
  - exists st'. unfold ImportExcel.merge.
    repeat split; try assumption.
    apply (f_equal (@List.length _)) in Hkeys', Hkeys.
    rewrite !length_map in Hkeys', Hkeys. congruence.
Qed.

(** C2 amended, at a batch of two records of the same company. *)
Lemma merge_idempotent_on_named_records_witness :
  exists st,
    ImportExcel.merge toLowerCase (fun _ => 2000%Z)
      batchSameCompany batchSameCompany = inr st /\
    ImportExcel.newRecords st = 0%nat /\
    ImportExcel.updatedRecords st = 2%nat /\
    List.length (ImportExcel.updatedData st) = 2%nat.
Proof.
  exact (merge_idempotent_on_named_records toLowerCase (fun _ => 2000%Z)
           batchSameCompany eq_refl eq_refl).
Defined.

(* ================================================================== *)
(** ** What every normalized row carries *)

Section KeyFacts.
Import ExcelImporter.

Lemma in_range_spec (lo hi c : N) :
  in_range lo hi c = true <-> lo <= c <= hi.
Proof.
  unfold in_range. rewrite andb_true_iff, !N.leb_le. tauto.
Qed.

Lemma lower_unit_not_upper (c : N) : lower_unit c <> 65.
Proof.
  unfold lower_unit.
  destruct (in_range 65 90 c) eqn:E1.
  - apply in_range_spec in E1. lia.
  - destruct (in_range 192 222 c && negb (c =? 215)) eqn:E2.
    + apply andb_true_iff in E2 as [E2 _].
      apply in_range_spec in E2. lia.
    + intros ->. discriminate.
Qed.

Lemma In_drop_while (p : N -> bool) (x : N) (s : jsstring) :
  In x (drop_while p s) -> In x s.
Proof.
  induction s as [|c s IH]; simpl; [auto|].
  destruct (p c); simpl; auto.
Qed.

Lemma In_trim (x : N) (s : jsstring) : In x (trim s) -> In x s.
Proof.
  unfold trim, trimEnd, trimStart. intros H.
  apply In_rev in H. apply In_drop_while in H.
  apply In_rev in H. now apply In_drop_while in H.
Qed.

Lemma In_replace_key_punct (x : N) (s : jsstring) :
  In x (replace_key_punct s) -> x = 32 \/ In x s.
Proof.
  unfold replace_key_punct. intros H.
  apply in_map_iff in H as (c & Hc & Hin).
  destruct (is_key_punct c); subst; auto.
Qed.

Lemma In_replace_space_runs (r x : N) (b : bool) (s : jsstring) :
  In x (replace_space_runs r b s) -> x = r \/ In x s.
Proof.
  revert b. induction s as [|c s IH]; intros b; simpl; [auto|].
  destruct (is_space c).
  - destruct b; simpl.
    + intros H. apply IH in H. tauto.
    + intros [H|H]; [auto|]. apply IH in H. tauto.
  - simpl. intros [H|H]; [auto|]. apply IH in H. tauto.
Qed.

(** A normalized key has no capital A. *)
Lemma normalizeKey_no_upper_A (key : jsstring) :
  ~ In 65 (normalizeKey key).
Proof.
  unfold normalizeKey. intros H.
  apply In_replace_space_runs in H as [H|H]; [discriminate|].
  apply In_replace_key_punct in H as [H|H]; [discriminate|].
  apply In_trim in H. unfold toLowerCase in H.
  apply in_map_iff in H as (c & Hc & _).
  now apply lower_unit_not_upper in Hc.
Qed.

(** A replacement of white space that left no trace replaced nothing. *)
Lemma replace_space_runs_id (r : N) (s : jsstring) :
  ~ In r (replace_space_runs r false s) ->
  replace_space_runs r false s = s.
Proof.
  induction s as [|c s IH]; simpl; [reflexivity|].
  destruct (is_space c); simpl.
  - intros H. exfalso. apply H. now left.
  - intros H. f_equal. apply IH. intros Hin. apply H. now right.
Qed.

Lemma mappedKey_canonical (nk key : jsstring) :
  mappedKey nk = Some key -> In key (map fst keyMapping).
Proof.
  unfold mappedKey, exactMatch, partialMatch.
  match goal with
  | |- context [find ?f keyMapping] =>
      destruct (find f keyMapping) as [e|] eqn:E1; cbn [option_map]
  end.
  - intros H. injection H as <-. apply find_some in E1 as [E1 _].
    now apply in_map.
  - match goal with
    | |- context [find ?f keyMapping] =>
        destruct (find f keyMapping) as [e|] eqn:E2; cbn [option_map];
          [|discriminate]
    end.
    intros H. injection H as <-. apply find_some in E2 as [E2 _].
    now apply in_map.
Qed.

Lemma canonical_not_reserved (key : jsstring) :
  In key (map fst keyMapping) ->
  key <> js "tipo" /\ key <> js "createdAt" /\ key <> js "eliminato"
  /\ key <> js "id".
Proof.
  intros H.
  assert (Hall : forallb (fun k =>
                   negb (str_eqb k (js "tipo"))
                   && negb (str_eqb k (js "createdAt"))
                   && negb (str_eqb k (js "eliminato"))
                   && negb (str_eqb k (js "id")))
                 (map fst keyMapping) = true) by reflexivity.
  rewrite forallb_forall in Hall. specialize (Hall key H).
  repeat (apply andb_true_iff in Hall as [Hall ?]).
  repeat match goal with
         | X : negb _ = true |- _ =>
             apply negb_true_iff, str_eqb_neq in X
         end.
  auto.
Qed.

Lemma finalKey_not_tipo (key : jsstring) : finalKey key <> js "tipo".
Proof.
  unfold finalKey.
  destruct (mappedKey (normalizeKey key)) as [k|] eqn:E.
  - apply mappedKey_canonical in E.
    now apply canonical_not_reserved in E.
  - intros H.
    assert (Hid : replace_space_runs 95 false (normalizeKey key)
                  = normalizeKey key).
    { apply replace_space_runs_id. rewrite H. simpl.
      intuition discriminate. }
    rewrite Hid in H. rewrite H in E. discriminate.
Qed.

Lemma finalKey_not_createdAt (key : jsstring) :
  finalKey key <> js "createdAt".
Proof.
  unfold finalKey.
  destruct (mappedKey (normalizeKey key)) as [k|] eqn:E.
  - apply mappedKey_canonical in E.
    now apply canonical_not_reserved in E.
  - intros H.
    assert (Hid : replace_space_runs 95 false (normalizeKey key)
                  = normalizeKey key).
    { apply replace_space_runs_id. rewrite H. simpl.
      intuition discriminate. }
    rewrite Hid in H.
    apply (normalizeKey_no_upper_A key). rewrite H. simpl. tauto.
Qed.

Lemma columnOrder_not_reserved (field : jsstring) :
  In field columnOrder ->
  field <> js "tipo" /\ field <> js "createdAt"
  /\ field <> js "eliminato".
Proof.
  intros H.
  assert (Hall : forallb (fun k =>
                   negb (str_eqb k (js "tipo"))
                   && negb (str_eqb k (js "createdAt"))
                   && negb (str_eqb k (js "eliminato")))
                 columnOrder = true) by reflexivity.
  rewrite forallb_forall in Hall. specialize (Hall field H).
  repeat (apply andb_true_iff in Hall as [Hall ?]).
  repeat match goal with
         | X : negb _ = true |- _ =>
             apply negb_true_iff, str_eqb_neq in X
         end.
  auto.
Qed.

Lemma normalizeValue_text (fieldName : jsstring) (v : value) :
  exists s, normalizeValue fieldName v = VStr s.
Proof.
  unfold normalizeValue.
  destruct (str_eqb fieldName (js "grappa")
            || str_eqb fieldName (js "gls")).
  - destruct (normalizeBoolean v); eauto.
  - destruct v; eauto.
Qed.

End KeyFacts.

Section RowInvariant.
Import ExcelImporter.

Variables (now : Z) (row : obj) (dataType : jsstring).

Lemma Normalized_initial :
  Normalized now row dataType (initialRow now dataType).
Proof.
  unfold Normalized, initialRow. repeat split.
  - now left.
  - intros k H1 H2 H3. left. simpl.
    apply str_eqb_neq in H1, H2, H3. now rewrite H1, H2, H3.
Qed.

Lemma Normalized_set_text (o : obj) (k s : jsstring) :
  Normalized now row dataType o ->
  k <> js "tipo" -> k <> js "createdAt" -> k <> js "eliminato" ->
  Normalized now row dataType (set o k (VStr s)).
Proof.
  intros (Ht & Hc & He & Hx) H1 H2 H3. unfold Normalized.
  rewrite !get_set_other by congruence.
  repeat split; try assumption.
  intros k' H1' H2' H3'. rewrite get_set.
  destruct (str_eqb k' k); [right; eauto|auto].
Qed.

Lemma Normalized_headerStep (o : obj) (entry : jsstring * value) :
  existsb isGenericColumn (keys row) = false ->
  In entry row ->
  Normalized now row dataType o ->
  Normalized now row dataType (headerStep o entry).
Proof.
  intros Hgen Hin Ho. destruct entry as [k v]. unfold headerStep.
  cbn [fst snd]. destruct (isBlank v) eqn:Hb; [assumption|].
  destruct (normalizeValue_text (finalKey k) v) as [s Hs].
  destruct (str_eqb (finalKey k) (js "eliminato")) eqn:E.
  - apply str_eqb_eq in E. destruct Ho as (Ht & Hc & He & Hx).
    unfold Normalized. rewrite E.
    rewrite !get_set_other by discriminate. rewrite get_set_same.
    repeat split; try assumption.
    + right. split; [assumption|]. exists k, v. auto.
    + intros k' H1 H2 H3. rewrite get_set_other by assumption. auto.
  - apply str_eqb_neq in E. rewrite Hs.
    apply Normalized_set_text; try assumption.
    + apply finalKey_not_tipo.
    + apply finalKey_not_createdAt.
Qed.

Lemma Normalized_headerLoop (entries : list (jsstring * value)) :
  existsb isGenericColumn (keys row) = false ->
  incl entries row ->
  forall o, Normalized now row dataType o ->
            Normalized now row dataType (fold_left headerStep entries o).
Proof.
  intros Hgen. induction entries as [|e entries IH]; intros Hincl o Ho.
  - assumption.
  - simpl. apply IH.
    + intros x Hx. apply Hincl. now right.
    + apply Normalized_headerStep; try assumption.
      apply Hincl. now left.
Qed.

Lemma Normalized_genericLoop (sortedKeys : list jsstring) :
  forall colIndex o,
    Normalized now row dataType o ->
    Normalized now row dataType (genericLoop row sortedKeys colIndex o).
Proof.
  induction sortedKeys as [|key rest IH]; intros colIndex o Ho.
  - assumption.
  - cbn [genericLoop].
    destruct (isGenericColumn key
              && (colIndex <? List.length columnOrder)%nat) eqn:E.
    + apply IH. destruct (negb (isBlank (get row key))); [|assumption].
      apply andb_true_iff in E as [_ E]. apply Nat.ltb_lt in E.
      destruct (normalizeValue_text (nth colIndex columnOrder [])
                  (get row key)) as [s Hs].
      rewrite Hs.
      destruct (columnOrder_not_reserved (nth colIndex columnOrder []))
        as (H1 & H2 & H3); [now apply nth_In|].
      now apply Normalized_set_text.
    + now apply IH.
Qed.

Lemma Normalized_extractCivico (o : obj) :
  Normalized now row dataType o ->
  Normalized now row dataType (extractCivico o).
Proof.
  intros Ho. unfold extractCivico.
  destruct (truthy (get o (js "indirizzo")) && _); [|assumption].
  destruct (civicoMatch _) as [[m1 m2]|]; [|assumption].
  apply Normalized_set_text; try discriminate.
  apply Normalized_set_text; try discriminate. assumption.
Qed.

Lemma Normalized_normalizeRowData :
  Normalized now row dataType (normalizeRowData now row dataType).
Proof.
  unfold normalizeRowData, assignFields.
  apply Normalized_extractCivico.
  destruct (existsb isGenericColumn (keys row)) eqn:Hgen.
  - apply Normalized_genericLoop, Normalized_initial.
  - apply Normalized_headerLoop; try assumption.
    + apply incl_refl.
    + apply Normalized_initial.
Qed.

End RowInvariant.

Section Counting.
Import ExcelImporter.

Lemma counted_spec (v : value) :
  counted v = true <-> v <> VUndefined /\ v <> VNull /\ v <> VStr [].
Proof.
  unfold counted. destruct v as [| | | |s|]; simpl;
    try (split; [intros _; repeat split; discriminate|reflexivity]);
    try (split; [discriminate|intros (H1 & H2 & H3); congruence]).
  rewrite negb_true_iff, str_eqb_neq. split.
  - intros H. repeat split; congruence.
  - intros (_ & _ & H) ->. now apply H.
Qed.

Lemma counted_entry (o : obj) (k : jsstring) :
  counted (get o k) = true -> In (k, get o k) o.
Proof.
  induction o as [|[k0 v0] o IH]; simpl; [discriminate|].
  destruct (str_eqb k k0) eqn:E.
  - apply str_eqb_eq in E. subst. now left.
  - intros H. right. auto.
Qed.

Lemma nonEmptyFields_entries (o : obj) :
  nonEmptyFields o
  = List.length (filter (fun e => counted (snd e)) o).
Proof.
  unfold nonEmptyFields, values.
  induction o as [|[k v] o IH]; simpl; [reflexivity|].
  destruct (counted v); simpl; now rewrite IH.
Qed.

(** Three properties of different names with counted values. *)
Lemma three_counted (o : obj) (k1 k2 k3 : jsstring) :
  k1 <> k2 -> k1 <> k3 -> k2 <> k3 ->
  counted (get o k1) = true -> counted (get o k2) = true ->
  counted (get o k3) = true ->
  (3 <= nonEmptyFields o)%nat.
Proof.
  intros H12 H13 H23 C1 C2 C3. rewrite nonEmptyFields_entries.
  change 3%nat with
    (List.length [(k1, get o k1); (k2, get o k2); (k3, get o k3)]).
  apply NoDup_incl_length.
  - repeat constructor; simpl; intuition congruence.
  - intros e [<-|[<-|[<-|[]]]]; apply filter_In;
      (split; [now apply counted_entry|assumption]).
Qed.

Lemma truthy_text (v : value) :
  textOrAbsent v -> (truthy v = true <-> nonEmptyString v).
Proof.
  intros [->|[s ->]].
  - split; [discriminate|]. intros (s & H & _). discriminate.
  - rewrite truthy_VStr. split.
    + intros H. exists s. auto.
    + intros (s' & H & Hs). injection H as ->. assumption.
Qed.

Lemma nonEmptyString_counted (v : value) :
  nonEmptyString v -> counted v = true.
Proof.
  intros (s & -> & Hs). apply counted_spec.
  repeat split; congruence.
Qed.

End Counting.

Section ImportedRows.
Import ExcelImporter.

Variables (clk : clock) (dataType : jsstring).

Lemma In_normalizeAll (jsonData : list obj) :
  forall t index r,
    In r (normalizeAll clk t index jsonData dataType) ->
    exists t' index' row,
      In row jsonData /\
      let r0 := normalizeRowData (clk t') row dataType in
      (truthy (get r0 (js "id")) = true /\ r = r0) \/
      (truthy (get r0 (js "id")) = false /\
       r = set r0 (js "id") (VNum (clk (S t') + Z.of_nat index'))).
Proof.
  induction jsonData as [|row rest IH]; intros t index r H.
  - destruct H.
  - cbn [normalizeAll] in H. unfold js_not in H.
    destruct (truthy (get (normalizeRowData (clk t) row dataType)
                          (js "id"))) eqn:E;
      cbn [negb] in H; destruct H as [H|H].
    + exists t, index, row. split; [now left|]. left. auto.
    + apply IH in H as (t' & i' & row' & Hin & Hr).
      exists t', i', row'. split; [now right|assumption].
    + exists t, index, row. split; [now left|]. right. auto.
    + apply IH in H as (t' & i' & row' & Hin & Hr).
      exists t', i', row'. split; [now right|assumption].
Qed.

(** What a row of [normalizedData] carries. *)
Lemma normalizedData_row (jsonData : list obj) (t index : nat) (r : obj) :
  In r (normalizeAll clk t index jsonData dataType) ->
  exists now row,
    In row jsonData /\
    get r (js "tipo") = VStr dataType /\
    get r (js "createdAt") = VNum now /\
    (get r (js "eliminato") = VBool false \/
     (existsb isGenericColumn (keys row) = false /\
      exists k v, In (k, v) row /\ isBlank v = false /\
                  finalKey k = js "eliminato" /\
                  get r (js "eliminato")
                    = normalizeValue (js "eliminato") v)) /\
    (nonEmptyString (get r (js "id")) \/
     exists z, get r (js "id") = VNum z) /\
    forall k, k <> js "tipo" -> k <> js "createdAt" ->
              k <> js "eliminato" -> k <> js "id" ->
              textOrAbsent (get r k).
Proof.
  intros H. apply In_normalizeAll in H as (t' & i' & row & Hin & Hr).
  exists (clk t'), row. split; [assumption|].
  destruct (Normalized_normalizeRowData (clk t') row dataType)
    as (Ht & Hc & He & Hx).
  cbv zeta in Hr. destruct Hr as [[Hid ->]|[Hid ->]].
  - repeat split; try assumption.
    + left. apply truthy_text; [|assumption].
      apply Hx; discriminate.
    + intros k H1 H2 H3 _. auto.
  - rewrite !get_set_other by discriminate. rewrite get_set_same.
    repeat split; try assumption.
    + right. eauto.
    + intros k H1 H2 H3 H4. rewrite get_set_other by assumption. auto.
Qed.

(** For a row of [normalizedData], the filter decides on nome and
    azienda alone. *)
Lemma isValid_normalizedData (jsonData : list obj) (t index : nat)
    (r : obj) :
  In r (normalizeAll clk t index jsonData dataType) ->
  (isValid r = true <->
   nonEmptyString (get r (js "nome")) \/
   nonEmptyString (get r (js "azienda"))) /\
  (isValid r = true ->
   (3 <= nonEmptyFields r)%nat).
Proof.
  intros H.
  apply normalizedData_row in H
    as (now & row & _ & Ht & Hc & He & Hid & Hx).
  assert (Hn : textOrAbsent (get r (js "nome")))
    by (apply Hx; discriminate).
  assert (Ha : textOrAbsent (get r (js "azienda")))
    by (apply Hx; discriminate).
  assert (Cc : counted (get r (js "createdAt")) = true)
    by (now rewrite Hc).
  assert (Ci : counted (get r (js "id")) = true).
  { destruct Hid as [Hid|[z Hz]].
    - now apply nonEmptyString_counted.
    - now rewrite Hz. }
  unfold isValid. split.
  - rewrite andb_true_iff, Nat.leb_le. unfold js_or. split.
    + intros [Htr _].
      destruct (truthy (get r (js "nome"))) eqn:E.
      * left. now apply truthy_text.
      * right. now apply truthy_text.
    + intros [Hne|Hne].
      * split.
        -- apply truthy_text in Hne as Htr; [|assumption].
           now rewrite Htr.
        -- apply (three_counted r (js "nome") (js "createdAt")
                    (js "id")); try discriminate; try assumption.
           now apply nonEmptyString_counted.
      * split.
        -- apply truthy_text in Hne as Htr; [|assumption].
           destruct (truthy (get r (js "nome"))) eqn:E;
             [assumption|assumption].
        -- apply (three_counted r (js "azienda") (js "createdAt")
                    (js "id")); try discriminate; try assumption.
           now apply nonEmptyString_counted.
  - rewrite andb_true_iff, Nat.leb_le. tauto.
Qed.

End ImportedRows.

(* ================================================================== *)
(** ** The acceptance filter *)

(** C3. When [importFile] succeeds, its data are the rows of
    [normalizedData] that pass the filter, in order, and a row of
    [normalizedData] is among the data exactly when its nome or its
    azienda is a non-empty string and at least 3 of its values are
    counted, a value being counted exactly when it is not undefined, not
    null and not the empty string. *)
Theorem acceptance_filter :
  forall (W : Type)
         (readFile : jsstring -> exn + ExcelImporter.workbook W)
         (sheet_to_json : option W -> ExcelImporter.headerOption
                          -> exn + list obj)
         (clk : clock) (filePath dataType msg : jsstring)
         (data : list obj),
    ExcelImporter.importFile W readFile sheet_to_json clk filePath dataType
      = ExcelImporter.ImportSuccess msg data ->
    exists wb jsonData,
      readFile filePath = inr wb /\
      ExcelImporter.readRows W sheet_to_json
        (ExcelImporter.sheetAt (ExcelImporter.Sheets wb)
           (ToString (ExcelImporter.determineSheetName wb dataType)))
        = inr jsonData /\
      let normalizedData :=
        ExcelImporter.normalizeAll clk 0 0 jsonData dataType in
      data = filter ExcelImporter.isValid normalizedData /\
      (forall row, In row normalizedData ->
         (In row data <->
          (nonEmptyString (get row (js "nome")) \/
           nonEmptyString (get row (js "azienda"))) /\
          (3 <= List.length
                  (filter ExcelImporter.counted (values row)))%nat)) /\
      (forall v, ExcelImporter.counted v = true <->
                 v <> VUndefined /\ v <> VNull /\ v <> VStr []).
Proof.
  intros W readFile sheet_to_json clk filePath dataType msg data H.
  unfold ExcelImporter.importFile, ExcelImporter.importFileBody in H.
  destruct (readFile filePath) as [e|wb] eqn:Hread;
    [discriminate|]. cbn [bind] in H.
  destruct (ExcelImporter.readRows W sheet_to_json _) as [e|jsonData]
    eqn:Hrows; [discriminate|]. cbn [bind] in H.
  injection H as _ Hdata.
  exists wb, jsonData. split; [reflexivity|]. split; [exact Hrows|].
  cbv zeta. split; [now symmetry|]. split; [|exact counted_spec].
  intros row Hrow. subst data. rewrite filter_In.
  destruct (isValid_normalizedData clk dataType jsonData 0 0 row Hrow)
    as [Hiff Hcount].
  fold (ExcelImporter.nonEmptyFields row). split.
  - intros [_ Hv]. split; [now apply Hiff|now apply Hcount].
  - intros [Hne _]. split; [assumption|now apply Hiff].
Qed.

(** C3 at the sample sheet: of its two rows, the one with a name and a
    company is kept and the one with a telephone number only is not. *)
Lemma acceptance_filter_witness :
  ExcelImporter.importFile unit sampleReadFile sampleSheetToJson
    sampleClock (js "clienti.xlsx") (js "clienti")
  = ExcelImporter.ImportSuccess
      (js "Importazione completata con successo: 1 record validi su 2 totali")
      [ [ (js "tipo", VStr (js "clienti")); (js "eliminato", VBool false);
          (js "createdAt", VNum 1000); (js "nome", VStr (js "Mario"));
          (js "azienda", VStr (js "Acme")); (js "id", VNum 1001) ] ]
  /\
  exists wb jsonData,
    sampleReadFile (js "clienti.xlsx") = inr wb /\
    ExcelImporter.readRows unit sampleSheetToJson
      (ExcelImporter.sheetAt (ExcelImporter.Sheets wb)
         (ToString (ExcelImporter.determineSheetName wb (js "clienti"))))
      = inr jsonData /\
    [ [ (js "tipo", VStr (js "clienti")); (js "eliminato", VBool false);
        (js "createdAt", VNum 1000); (js "nome", VStr (js "Mario"));
        (js "azienda", VStr (js "Acme")); (js "id", VNum 1001) ] ]
    = filter ExcelImporter.isValid
        (ExcelImporter.normalizeAll sampleClock 0 0 jsonData
           (js "clienti")).
Proof.
  assert (H : ExcelImporter.importFile unit sampleReadFile
                sampleSheetToJson sampleClock (js "clienti.xlsx")
                (js "clienti")
              = ExcelImporter.ImportSuccess
                  (js "Importazione completata con successo: 1 record validi su 2 totali")
                  [ [ (js "tipo", VStr (js "clienti"));
                      (js "eliminato", VBool false);
                      (js "createdAt", VNum 1000);
                      (js "nome", VStr (js "Mario"));
                      (js "azienda", VStr (js "Acme"));
                      (js "id", VNum 1001) ] ])
    by (vm_compute; reflexivity).
  split; [exact H|].
  destruct (acceptance_filter _ _ _ _ _ _ _ _ H)
    as (wb & jsonData & Hread & Hrows & Hdata & _).
  exists wb, jsonData. auto.
Defined.

(* ================================================================== *)
(** ** Header resolution over the synonym table *)

Lemma array_includes_In (arr : list jsstring) (x : jsstring) :
  array_includes arr x = true <-> In x arr.
Proof.
  unfold array_includes. rewrite existsb_exists. split.
  - intros (y & Hy & E). apply str_eqb_eq in E. now subst.
  - intros H. exists x. split; [assumption|apply str_eqb_refl].
Qed.

(** C4. Three spellings of the table do not resolve to the field that
    lists them: "c.a.p." and "c.a.p", whose dots become spaces before
    the lookup, fall through to the fallback names "c_a_p_" and "c_a_p";
    "spedizione", listed for gls, resolves to consegnaSpedizione, which
    lists it earlier in the table. Every other spelling of the table
    resolves to its field, and so do "Tel.", "Cellulare" and "phone". *)
Theorem synonym_resolution :
  ExcelImporter.finalKey (js "c.a.p.") = js "c_a_p_" /\
  ExcelImporter.finalKey (js "c.a.p") = js "c_a_p" /\
  ExcelImporter.finalKey (js "spedizione") = js "consegnaSpedizione" /\
  In (js "cap", [js "cap"; js "codice postale"; js "postal code"; js "zip";
                 js "codice avviamento postale"; js "c.a.p."; js "c.a.p"])
     ExcelImporter.keyMapping /\
  (exists synonyms, In (js "gls", synonyms) ExcelImporter.keyMapping /\
                    In (js "spedizione") synonyms) /\
  (forall key synonyms spelling,
     In (key, synonyms) ExcelImporter.keyMapping ->
     In spelling synonyms ->
     ExcelImporter.finalKey spelling = key \/
     (key = js "cap" /\ (spelling = js "c.a.p." \/ spelling = js "c.a.p")) \/
     (key = js "gls" /\ spelling = js "spedizione")) /\
  ExcelImporter.finalKey (js "Tel.") = js "telefono" /\
  ExcelImporter.finalKey (js "Cellulare") = js "telefono" /\
  ExcelImporter.finalKey (js "phone") = js "telefono".
Proof.
  split; [vm_compute; reflexivity|].
  split; [vm_compute; reflexivity|].
  split; [vm_compute; reflexivity|].
  split; [vm_compute; tauto|].
  split.
  { eexists. split; [do 14 right; left; reflexivity|].
    do 3 right. left. reflexivity. }
  split; [|repeat split; vm_compute; reflexivity].
  intros key synonyms spelling Hentry Hspelling.
  assert (Hall :
    forallb (fun e =>
      forallb (fun sp =>
        str_eqb (ExcelImporter.finalKey sp) (fst e)
        || (str_eqb (fst e) (js "cap")
            && (str_eqb sp (js "c.a.p.") || str_eqb sp (js "c.a.p")))
        || (str_eqb (fst e) (js "gls") && str_eqb sp (js "spedizione")))
        (snd e)) ExcelImporter.keyMapping = true)
    by (vm_compute; reflexivity).
  rewrite forallb_forall in Hall. specialize (Hall _ Hentry).
  cbn [fst snd] in Hall.
  rewrite forallb_forall in Hall. specialize (Hall _ Hspelling).
  apply orb_true_iff in Hall as [Hall|Hall];
    [apply orb_true_iff in Hall as [Hall|Hall]|].
  - left. now apply str_eqb_eq.
  - right. left. apply andb_true_iff in Hall as [Hk Hs].
    apply str_eqb_eq in Hk. split; [assumption|].
    apply orb_true_iff in Hs as [Hs|Hs]; apply str_eqb_eq in Hs; auto.
  - right. right. apply andb_true_iff in Hall as [Hk Hs].
    apply str_eqb_eq in Hk, Hs. auto.
Qed.

(** C4 at the spelling "tel/cell" of telefono. *)
Lemma synonym_resolution_witness :
  ExcelImporter.finalKey (js "tel/cell") = js "telefono".
Proof.
  destruct synonym_resolution as (_ & _ & _ & _ & _ & Hall & _).
  destruct (Hall (js "telefono")
              [js "telefono"; js "tel"; js "phone"; js "cellulare";
               js "tel."; js "numero telefono"; js "cell";
               js "numero cellulare"; js "tel/cell"; js "cell."]
              (js "tel/cell"))
    as [H|[[H _]|[H _]]].
  - do 7 right. left. reflexivity.
  - do 8 right. left. reflexivity.
  - exact H.
  - discriminate H.
  - discriminate H.
Defined.

(* ================================================================== *)
(** ** Boolean flags *)

(** C5. For the fields grappa and gls, the inputs "Si" with i grave,
    "X", the number 1 and [true] normalize to "1", and the inputs "",
    "no", the number 0 and [false] to the empty string. In general a
    value normalizes to "1" or to the empty string: a boolean by its
    value, a number by being 1, a string by its lower-cased, trimmed form
    being one of "1", "true", "yes", "si" with or without the accent,
    "vero", "x" and the three check marks, and anything else to the empty
    string. *)
Theorem boolean_flag_normalization :
  forall field : jsstring,
    field = js "grappa" \/ field = js "gls" ->
    ExcelImporter.normalizeValue field (VStr (js "S" ++ [236]))
      = VStr (js "1") /\
    ExcelImporter.normalizeValue field (VStr (js "X")) = VStr (js "1") /\
    ExcelImporter.normalizeValue field (VNum 1) = VStr (js "1") /\
    ExcelImporter.normalizeValue field (VBool true) = VStr (js "1") /\
    ExcelImporter.normalizeValue field (VStr []) = VStr [] /\
    ExcelImporter.normalizeValue field (VStr (js "no")) = VStr [] /\
    ExcelImporter.normalizeValue field (VNum 0) = VStr [] /\
    ExcelImporter.normalizeValue field (VBool false) = VStr [] /\
    (forall v,
       ExcelImporter.normalizeValue field v
       = if ExcelImporter.normalizeBoolean v then VStr (js "1")
         else VStr []) /\
    (forall b, ExcelImporter.normalizeBoolean (VBool b) = b) /\
    (forall z, ExcelImporter.normalizeBoolean (VNum z) = true <-> z = 1%Z) /\
    (forall s,
       ExcelImporter.normalizeBoolean (VStr s) = true <->
       In (trim (toLowerCase s))
          [js "1"; js "true"; js "yes"; js "s" ++ [236]; js "si";
           js "vero"; js "x"; [10003]; [10004]; [8730]]) /\
    ExcelImporter.normalizeBoolean VUndefined = false /\
    ExcelImporter.normalizeBoolean VNull = false /\
    (forall iso str, ExcelImporter.normalizeBoolean (VDate iso str) = false).
Proof.
  assert (Hnum : forall z,
            ExcelImporter.normalizeBoolean (VNum z) = true <-> z = 1%Z)
    by (intros z; apply Z.eqb_eq).
  assert (Hstr : forall s,
            ExcelImporter.normalizeBoolean (VStr s) = true <->
            In (trim (toLowerCase s)) ExcelImporter.truthyStrings)
    by (intros s; apply array_includes_In).
  intros field [-> | ->];
    (do 8 (split; [vm_compute; reflexivity|]);
     split; [intros v; reflexivity|];
     split; [intros b; reflexivity|];
     split; [exact Hnum|];
     split; [exact Hstr|];
     repeat split).
Qed.

(** C5 at the field gls. *)
Lemma boolean_flag_normalization_witness :
  ExcelImporter.normalizeValue (js "gls") (VStr (js " VERO "))
  = VStr (js "1").
Proof.
  destruct (boolean_flag_normalization (js "gls") (or_intror eq_refl))
    as (_ & _ & _ & _ & _ & _ & _ & _ & Hv & _ & _ & Hs & _).
  rewrite Hv.
  destruct (ExcelImporter.normalizeBoolean (VStr (js " VERO "))) eqn:E.
  - reflexivity.
  - assert (Ht : ExcelImporter.normalizeBoolean (VStr (js " VERO ")) = true).
    { apply Hs. do 5 right. left. reflexivity. }
    rewrite E in Ht. discriminate Ht.
Defined.

(* ================================================================== *)
(** ** The GLS export *)

Section GlsExport.
Import ExcelImporter.

Lemma isGls_spec (record : obj) :
  isGls record = true <->
  get record (js "gls") = VStr (js "1") \/
  get record (js "gls") = VNum 1 \/
  get record (js "gls") = VBool true.
Proof.
  unfold isGls. destruct (get record (js "gls")) as [| |b|z|s|iso str].
  - split; [discriminate|]. intros [H|[H|H]]; discriminate.
  - split; [discriminate|]. intros [H|[H|H]]; discriminate.
  - destruct b; split; try discriminate; auto.
    intros [H|[H|H]]; discriminate.
  - cbn [strict_eq orb]. rewrite orb_false_r, andb_true_iff, Z.eqb_eq.
    split.
    + intros [_ ->]. auto.
    + intros [H|[H|H]]; try discriminate. injection H as ->. auto.
  - cbn [strict_eq orb]. rewrite !orb_false_r, andb_true_iff, str_eqb_eq.
    split.
    + intros [_ ->]. auto.
    + intros [H|[H|H]]; try discriminate. injection H as ->. auto.
  - split; [discriminate|]. intros [H|[H|H]]; discriminate.
Qed.

Lemma formatRecord_total (record : obj) :
  falsyOrString (get record (js "azienda")) ->
  exists row, formatRecord record = inr row.
Proof.
  unfold formatRecord, nomeDestinatario. intros [H|[s H]]; rewrite H.
  - simpl. eauto.
  - destruct (truthy (VStr s)); simpl; eauto.
Qed.

Lemma formatRecord_throws (record : obj) :
  ~ falsyOrString (get record (js "azienda")) ->
  exists e, formatRecord record = inl e.
Proof.
  unfold formatRecord, nomeDestinatario, falsyOrString. intros H.
  destruct (truthy (get record (js "azienda"))) eqn:E; [|tauto].
  destruct (get record (js "azienda")); simpl; eauto.
  exfalso. apply H. eauto.
Qed.

Lemma formatRecord_columns (record row : obj) :
  formatRecord record = inr row ->
  get row (js "NOME DESTINATARIO")
    = match get record (js "azienda") with
      | VStr s =>
          if str_eqb (trim s) []
          then js_or (get record (js "nome")) (VStr [])
          else VStr s
      | _ => js_or (get record (js "nome")) (VStr [])
      end /\
  get row (js "INDIRIZZO")
    = VStr (trim (ToString (js_or (get record (js "indirizzo")) (VStr []))
                  ++ js " "
                  ++ ToString (js_or (get record (js "civico"))
                                 (VStr [])))).
Proof.
  unfold formatRecord, nomeDestinatario.
  destruct (get record (js "azienda")) as [| |b|z|s|iso str] eqn:Ea;
    cbn [truthy bind];
    try (intros H; injection H as <-; split;
         [reflexivity|
          cbn [get str_eqb]; unfold indirizzoCompleto, js_or;
          cbn [truthy];
          match goal with
          | |- context [negb (str_eqb ?x [])] =>
              destruct x; reflexivity
          end]).
  - destruct b; cbn [bind]; [discriminate|].
    intros H; injection H as <-. split; [reflexivity|].
    cbn [get str_eqb]. unfold indirizzoCompleto, js_or. cbn [truthy].
    match goal with
    | |- context [negb (str_eqb ?x [])] => destruct x; reflexivity
    end.
  - destruct (negb (z =? 0)%Z); cbn [bind]; [discriminate|].
    intros H; injection H as <-. split; [reflexivity|].
    cbn [get str_eqb]. unfold indirizzoCompleto, js_or. cbn [truthy].
    match goal with
    | |- context [negb (str_eqb ?x [])] => destruct x; reflexivity
    end.
  - destruct (negb (str_eqb s [])) eqn:Es; cbn [bind].
    + intros H; injection H as <-. split.
      * cbn [get str_eqb]. simpl.
        destruct (str_eqb (trim s) []); cbn [negb]; [reflexivity|].
        unfold js_or. cbn [truthy]. now rewrite Es.
      * cbn [get str_eqb]. unfold indirizzoCompleto, js_or. cbn [truthy].
        match goal with
        | |- context [negb (str_eqb ?x [])] => destruct x; reflexivity
        end.
    + intros H; injection H as <-.
      apply negb_false_iff, str_eqb_eq in Es. subst s. split.
      * reflexivity.
      * cbn [get str_eqb]. unfold indirizzoCompleto, js_or. cbn [truthy].
        match goal with
        | |- context [negb (str_eqb ?x [])] => destruct x; reflexivity
        end.
  - discriminate.
Qed.

Lemma mapM_total {A B : Type} (f : A -> exn + B) (l : list A) :
  Forall (fun x => exists y, f x = inr y) l ->
  exists ys, mapM f l = inr ys /\
             Forall2 (fun x y => f x = inr y) l ys.
Proof.
  induction 1 as [|x l [y Hy] _ (ys & Hys & Hall)].
  - exists []. split; [reflexivity|constructor].
  - exists (y :: ys). simpl. rewrite Hy, Hys. simpl.
    split; [reflexivity|]. now constructor.
Qed.

End GlsExport.

(** C7. A record is kept by the export exactly when its gls is the
    string "1", the number 1 or [true]. Without such a record the export
    throws; otherwise it maps the kept records, in order, to rows, and
    gives a row for each when the azienda of each is a string or falsy.
    In the row of a record, NOME DESTINATARIO is the azienda when that is
    a string not empty after trimming, and the nome (the empty string for
    a missing one) otherwise, and INDIRIZZO is the indirizzo, one space
    and the civico, trimmed. In the scenario the rows are the row of the
    first record alone, with NOME DESTINATARIO "A" and INDIRIZZO
    "Via X 5". *)
Theorem export_filter_projection :
  (forall record : obj,
     ExcelImporter.isGls record = true <->
     get record (js "gls") = VStr (js "1") \/
     get record (js "gls") = VNum 1 \/
     get record (js "gls") = VBool true) /\
  (forall data : list obj,
     filter ExcelImporter.isGls data = [] ->
     ExcelImporter.exportGLS data
     = inl (Error (js "Nessun record da esportare per GLS"))) /\
  (forall data : list obj,
     filter ExcelImporter.isGls data <> [] ->
     ExcelImporter.exportGLS data
     = mapM ExcelImporter.formatRecord
         (filter ExcelImporter.isGls data)) /\
  (forall data : list obj,
     filter ExcelImporter.isGls data <> [] ->
     Forall (fun record => falsyOrString (get record (js "azienda")))
       (filter ExcelImporter.isGls data) ->
     exists rows,
       ExcelImporter.exportGLS data = inr rows /\
       Forall2 (fun record row =>
                  ExcelImporter.formatRecord record = inr row)
         (filter ExcelImporter.isGls data) rows) /\
  (forall record row : obj,
     ExcelImporter.formatRecord record = inr row ->
     get row (js "NOME DESTINATARIO")
       = match get record (js "azienda") with
         | VStr s =>
             if str_eqb (trim s) []
             then js_or (get record (js "nome")) (VStr [])
             else VStr s
         | _ => js_or (get record (js "nome")) (VStr [])
         end /\
     get row (js "INDIRIZZO")
       = VStr (trim (ToString (js_or (get record (js "indirizzo"))
                                 (VStr []))
                     ++ js " "
                     ++ ToString (js_or (get record (js "civico"))
                                    (VStr []))))) /\
  ExcelImporter.exportGLS exportScenario
  = inr [ [ (js "NOME DESTINATARIO", VStr (js "A"));
            (js "INDIRIZZO", VStr (js "Via X 5"));
            (js "LOCALITA'", VStr (js "Udine"));
            (js "PROV", VStr []);
            (js "CAP", VStr []);
            (js "TIPO MERCE", VStr (js "OMAGGIO NATALIZIO"));
            (js "COLLI", VStr (js "1"));
            (js "NOTE SPEDIZIONE", VStr []);
            (js "RIFERIMENTO MITTENTE", VStr (js "A"));
            (js "TELEFONO", VStr []) ] ].
Proof.
  split; [exact isGls_spec|].
  split.
  { intros data H. unfold ExcelImporter.exportGLS. now rewrite H. }
  split.
  { intros data H. unfold ExcelImporter.exportGLS.
    destruct (filter ExcelImporter.isGls data); [congruence|reflexivity]. }
  split.
  { intros data Hne Hall. unfold ExcelImporter.exportGLS.
    destruct (filter ExcelImporter.isGls data) as [|r l] eqn:E;
      [congruence|].
    cbn [List.length Nat.eqb]. apply mapM_total.
    apply Forall_forall. intros record Hrecord.
    apply formatRecord_total.
    rewrite Forall_forall in Hall. now apply Hall. }
  split; [exact formatRecord_columns|].
  vm_compute. reflexivity.
Qed.

(** C7 at the scenario: its rows are those of the kept records. *)
Lemma export_filter_projection_witness :
  exists rows,
    ExcelImporter.exportGLS exportScenario = inr rows /\
    Forall2 (fun record row =>
               ExcelImporter.formatRecord record = inr row)
      (filter ExcelImporter.isGls exportScenario) rows.
Proof.
  destruct export_filter_projection as (_ & _ & _ & Hrows & _).
  apply Hrows.
  - discriminate.
  - repeat constructor.
Defined.

(* ================================================================== *)
(** ** The house number *)

Section Civico.
Import ExcelImporter.

Lemma take_drop_while (p : N -> bool) (s : jsstring) :
  s = take_while p s ++ drop_while p s /\
  forallb p (take_while p s) = true.
Proof.
  induction s as [|c s [IH1 IH2]]; simpl; [auto|].
  destruct (p c) eqn:E; simpl.
  - rewrite E, IH2. split; [now f_equal|reflexivity].
  - auto.
Qed.

Lemma drop_while_app (p : N -> bool) (seps rest : jsstring) (d : N) :
  forallb p seps = true -> p d = false ->
  drop_while p (seps ++ d :: rest) = d :: rest.
Proof.
  intros Hs Hd. induction seps as [|c seps IH]; simpl in *.
  - now rewrite Hd.
  - apply andb_true_iff in Hs as [Hc Hs]. rewrite Hc. auto.
Qed.

Lemma digit_not_sep (d : N) : is_digit d = true -> is_sep d = false.
Proof.
  unfold is_digit. intros H. apply in_range_spec in H.
  assert (Hd : d = 48 \/ d = 49 \/ d = 50 \/ d = 51 \/ d = 52 \/
               d = 53 \/ d = 54 \/ d = 55 \/ d = 56 \/ d = 57) by lia.
  repeat (destruct Hd as [->|Hd]; [reflexivity|]). now subst.
Qed.

Lemma matchTail_spec (s tok : jsstring) :
  matchTail s = Some tok <-> TailPattern s tok.
Proof.
  unfold matchTail, TailPattern. split.
  - destruct s as [|c s']; [discriminate|].
    destruct (is_sep c) eqn:Ec; [|discriminate].
    destruct (drop_while is_sep s') as [|d rest] eqn:Ed; [discriminate|].
    destruct (is_digit d && no_comma rest) eqn:Et; [|discriminate].
    intros H. injection H as <-.
    apply andb_true_iff in Et as [Hd Hrest].
    destruct (take_drop_while is_sep s') as [Hsplit Hall].
    exists (c :: take_while is_sep s'). repeat split.
    + simpl. f_equal. now rewrite <- Ed.
    + discriminate.
    + simpl. now rewrite Ec, Hall.
    + exists d, rest. auto.
  - intros (seps & -> & Hne & Hall & d & rest & -> & Hd & Hrest).
    destruct seps as [|c seps]; [congruence|].
    simpl in Hall. apply andb_true_iff in Hall as [Hc Hall].
    simpl. rewrite Hc.
    rewrite drop_while_app by (auto using digit_not_sep).
    now rewrite Hd, Hrest.
Qed.

Lemma matchTail_None (s : jsstring) :
  matchTail s = None <-> forall tok, ~ TailPattern s tok.
Proof.
  split.
  - intros H tok Ht. apply matchTail_spec in Ht. congruence.
  - intros H. destruct (matchTail s) as [tok|] eqn:E; [|reflexivity].
    apply matchTail_spec in E. now apply H in E.
Qed.

Lemma civicoMatch_unfold (raw : jsstring) :
  civicoMatch raw
  = match matchTail raw with
    | Some m2 => Some ([], m2)
    | None =>
        match raw with
        | [] => None
        | c :: raw' =>
            if is_line_terminator c then None
            else match civicoMatch raw' with
                 | Some (m1, m2) => Some (c :: m1, m2)
                 | None => None
                 end
        end
    end.
Proof. destruct raw; reflexivity. Qed.

Lemma civicoMatch_sound (raw m1 m2 : jsstring) :
  civicoMatch raw = Some (m1, m2) -> CivicoPattern raw m1 m2.
Proof.
  revert m1. induction raw as [|c raw IH]; intros m1;
    rewrite civicoMatch_unfold.
  - simpl. discriminate.
  - destruct (matchTail (c :: raw)) as [tok|] eqn:Et.
    + intros H. injection H as <- <-.
      apply matchTail_spec in Et as Ht.
      destruct Ht as (seps & Hs & Hne & Hall & Htok).
      repeat split; try assumption.
      * exists seps. auto.
      * simpl. intros p q tok' _ Hlt. lia.
    + destruct (is_line_terminator c) eqn:Ec; [discriminate|].
      destruct (civicoMatch raw) as [[m1' m2']|] eqn:Em; [|discriminate].
      intros H. injection H as <- <-.
      destruct (IH m1' eq_refl)
        as ((seps & Hs & Hne & Hall) & Hlt & Htok & Hmin).
      repeat split; try assumption.
      * exists seps. simpl. rewrite Hs. auto.
      * simpl. now rewrite Ec, Hlt.
      * intros p q tok Hpq Hlen Htail.
        destruct p as [|c' p]; simpl in Hpq.
        -- subst q. apply matchTail_spec in Htail. congruence.
        -- injection Hpq as <- Hpq. simpl in Hlen.
           apply (Hmin p q tok); [assumption|lia|assumption].
Qed.

Lemma civicoMatch_complete (m1 : jsstring) :
  forall raw m2,
    CivicoPattern raw m1 m2 -> civicoMatch raw = Some (m1, m2).
Proof.
  induction m1 as [|c m1 IH];
    intros raw m2 ((seps & Hs & Hne & Hall) & Hlt & Htok & Hmin);
    rewrite civicoMatch_unfold.
  - assert (Ht : matchTail raw = Some m2).
    { apply matchTail_spec. exists seps. auto. }
    now rewrite Ht.
  - assert (Ht : matchTail raw = None).
    { apply matchTail_None. intros tok.
      apply (Hmin [] raw tok); [reflexivity|simpl; lia]. }
    rewrite Ht. simpl in Hs. subst raw.
    simpl in Hlt. apply andb_true_iff in Hlt as [Hc Hlt].
    apply negb_true_iff in Hc. rewrite Hc.
    rewrite (IH (m1 ++ seps ++ m2) m2); [reflexivity|].
    repeat split; try assumption.
    + exists seps. auto.
    + intros p q tok Hpq Hlen.
      apply (Hmin (c :: p) q tok); [simpl; now rewrite Hpq|simpl; lia].
Qed.

Lemma civicoMatch_spec (raw m1 m2 : jsstring) :
  civicoMatch raw = Some (m1, m2) <-> CivicoPattern raw m1 m2.
Proof.
  split; [apply civicoMatch_sound|apply civicoMatch_complete].
Qed.

(** No match means that no split at all fits the pattern. *)
Lemma civicoMatch_None (raw : jsstring) :
  civicoMatch raw = None <->
  forall p q tok,
    raw = p ++ q -> noLineTerminator p = true -> ~ TailPattern q tok.
Proof.
  split.
  - induction raw as [|c raw IH]; rewrite civicoMatch_unfold.
    + intros _ p q tok Hpq _ Ht.
      destruct p; [|discriminate]. simpl in Hpq. subst q.
      apply matchTail_spec in Ht. discriminate.
    + destruct (matchTail (c :: raw)) as [tok|] eqn:Et; [discriminate|].
      intros H p q tok Hpq Hp Htail.
      destruct p as [|c' p]; simpl in Hpq.
      * subst q. apply matchTail_spec in Htail. congruence.
      * injection Hpq as <- Hpq. simpl in Hp.
        apply andb_true_iff in Hp as [Hc Hp].
        apply negb_true_iff in Hc. rewrite Hc in H.
        destruct (civicoMatch raw) as [[m1 m2]|] eqn:Em;
          [discriminate|].
        apply (IH eq_refl p q tok); assumption.
  - induction raw as [|c raw IH]; intros H; rewrite civicoMatch_unfold.
    + reflexivity.
    + assert (Ht : matchTail (c :: raw) = None).
      { apply matchTail_None. intros tok.
        apply (H [] (c :: raw) tok); reflexivity. }
      rewrite Ht.
      destruct (is_line_terminator c) eqn:Ec; [reflexivity|].
      rewrite IH; [reflexivity|].
      intros p q tok Hpq Hp.
      apply (H (c :: p) q tok); [simpl; now rewrite Hpq|].
      simpl. now rewrite Ec, Hp.
Qed.

End Civico.

(** C8. After the field assignment, when indirizzo is non-empty and
    civico is empty and the trimmed indirizzo fits the pattern (a prefix
    without line terminators, one or more commas or white space units,
    and a token that starts with a digit and has no comma, the prefix
    being the shortest one possible), the trimmed prefix becomes
    indirizzo, the trimmed token becomes civico and nothing else changes.
    When no split of the trimmed indirizzo fits, or civico is not empty,
    the row is left as it is. In particular "Via Roma, 12" without civico
    gives indirizzo "Via Roma" and civico "12". *)
Theorem address_split :
  (forall (o : obj) (m1 m2 : jsstring),
     truthy (get o (js "indirizzo")) = true ->
     truthy (get o (js "civico")) = false ->
     CivicoPattern (trim (ToString (get o (js "indirizzo")))) m1 m2 ->
     get (ExcelImporter.extractCivico o) (js "indirizzo") = VStr (trim m1) /\
     get (ExcelImporter.extractCivico o) (js "civico") = VStr (trim m2) /\
     forall k, k <> js "indirizzo" -> k <> js "civico" ->
               get (ExcelImporter.extractCivico o) k = get o k) /\
  (forall o : obj,
     (forall p q tok,
        trim (ToString (get o (js "indirizzo"))) = p ++ q ->
        noLineTerminator p = true -> ~ TailPattern q tok) ->
     ExcelImporter.extractCivico o = o) /\
  (forall o : obj,
     truthy (get o (js "civico")) = true ->
     ExcelImporter.extractCivico o = o) /\
  (forall (now : Z) (row : obj) (dataType : jsstring),
     ExcelImporter.normalizeRowData now row dataType
     = ExcelImporter.extractCivico
         (ExcelImporter.assignFields now row dataType)) /\
  (forall (now : Z) (dataType : jsstring),
     get (ExcelImporter.normalizeRowData now
            [(js "Indirizzo", VStr (js "Via Roma, 12"))] dataType)
         (js "indirizzo") = VStr (js "Via Roma") /\
     get (ExcelImporter.normalizeRowData now
            [(js "Indirizzo", VStr (js "Via Roma, 12"))] dataType)
         (js "civico") = VStr (js "12")) /\
  CivicoPattern (js "Via Roma, 12") (js "Via Roma") (js "12").
Proof.
  split.
  { intros o m1 m2 Hi Hc Hp. unfold ExcelImporter.extractCivico.
    unfold js_not. rewrite Hi, Hc. cbn [negb orb andb].
    apply civicoMatch_spec in Hp. rewrite Hp.
    split; [|split].
    - rewrite get_set_other by discriminate. apply get_set_same.
    - apply get_set_same.
    - intros k H1 H2. now rewrite !get_set_other by assumption. }
  split.
  { intros o H. unfold ExcelImporter.extractCivico.
    apply civicoMatch_None in H. rewrite H.
    now destruct (truthy (get o (js "indirizzo")) && _). }
  split.
  { intros o H. unfold ExcelImporter.extractCivico, js_not. rewrite H.
    destruct (get o (js "civico")) as [| | | |s|]; try discriminate;
      cbn [negb strict_eq orb]; rewrite ?andb_false_r; try reflexivity.
    simpl in H. apply negb_true_iff in H. rewrite H.
    now rewrite andb_false_r. }
  split; [reflexivity|].
  split.
  { intros now dataType. split; vm_compute; reflexivity. }
  apply civicoMatch_spec. vm_compute. reflexivity.
Qed.

(** C8 at the row that has only the indirizzo "Via Roma, 12". *)
Lemma address_split_witness :
  get (ExcelImporter.extractCivico
         [(js "indirizzo", VStr (js "Via Roma, 12"))]) (js "indirizzo")
  = VStr (js "Via Roma") /\
  get (ExcelImporter.extractCivico
         [(js "indirizzo", VStr (js "Via Roma, 12"))]) (js "civico")
  = VStr (js "12").
Proof.
  destruct address_split as (Hsplit & _).
  destruct (Hsplit [(js "indirizzo", VStr (js "Via Roma, 12"))]
              (js "Via Roma") (js "12"))
    as (Hi & Hc & _).
  - reflexivity.
  - reflexivity.
  - apply civicoMatch_spec. vm_compute. reflexivity.
  - split; [exact Hi|exact Hc].
Defined.

(* ================================================================== *)
(** ** Failures of the import *)

(** C9. [importFile] always returns a result, a success with message and
    data or a failure with a message only. Whatever is thrown inside the
    [try] block, by the reading of the file or by any of the three
    conversions of the sheet, comes back as the failure whose message is
    "Errore durante l'importazione: " followed by the message of what was
    thrown; a failure is returned in no other case, and it has no data. *)
Theorem import_failure_handling :
  forall (W : Type)
         (readFile : jsstring -> exn + ExcelImporter.workbook W)
         (sheet_to_json : option W -> ExcelImporter.headerOption
                          -> exn + list obj)
         (clk : clock) (filePath dataType : jsstring),
    let result :=
      ExcelImporter.importFile W readFile sheet_to_json clk
        filePath dataType in
    let failure (e : exn) :=
      ExcelImporter.ImportFailure
        (js "Errore durante l'importazione: " ++ message e) in
    let worksheet (wb : ExcelImporter.workbook W) :=
      ExcelImporter.sheetAt (ExcelImporter.Sheets wb)
        (ToString (ExcelImporter.determineSheetName wb dataType)) in
    (forall e,
       ExcelImporter.importFileBody W readFile sheet_to_json clk
         filePath dataType = inl e ->
       result = failure e) /\
    (forall e, readFile filePath = inl e -> result = failure e) /\
    (forall wb e,
       readFile filePath = inr wb ->
       sheet_to_json (worksheet wb) ExcelImporter.HeaderFirstRow = inl e ->
       result = failure e) /\
    (forall wb rows1 e,
       readFile filePath = inr wb ->
       sheet_to_json (worksheet wb) ExcelImporter.HeaderFirstRow
         = inr rows1 ->
       ExcelImporter.noValidHeaders rows1 = true ->
       sheet_to_json (worksheet wb) ExcelImporter.HeaderLetters = inl e ->
       result = failure e) /\
    (forall wb rows1 rows2 e,
       readFile filePath = inr wb ->
       sheet_to_json (worksheet wb) ExcelImporter.HeaderFirstRow
         = inr rows1 ->
       ExcelImporter.noValidHeaders rows1 = true ->
       sheet_to_json (worksheet wb) ExcelImporter.HeaderLetters
         = inr rows2 ->
       ExcelImporter.noValidHeaders rows2 = true ->
       sheet_to_json (worksheet wb)
         (ExcelImporter.HeaderExplicit ExcelImporter.createExplicitHeaders)
         = inl e ->
       result = failure e) /\
    ((exists msg data,
        result = ExcelImporter.ImportSuccess msg data /\
        ExcelImporter.importFileBody W readFile sheet_to_json clk
          filePath dataType
        = inr (ExcelImporter.ImportSuccess msg data)) \/
     (exists e,
        result = failure e /\
        ExcelImporter.importFileBody W readFile sheet_to_json clk
          filePath dataType = inl e)).
Proof.
  intros W readFile sheet_to_json clk filePath dataType
         result failure worksheet.
  subst result failure worksheet.
  unfold ExcelImporter.importFile, ExcelImporter.importFileBody.
  split; [intros e H; now rewrite H|].
  split; [intros e H; now rewrite H|].
  split.
  { intros wb e Hread H1. rewrite Hread. cbn [bind].
    unfold ExcelImporter.readRows. now rewrite H1. }
  split.
  { intros wb rows1 e Hread H1 Hd1 H2. rewrite Hread. cbn [bind].
    unfold ExcelImporter.readRows. rewrite H1. cbn [bind].
    rewrite Hd1, H2. reflexivity. }
  split.
  { intros wb rows1 rows2 e Hread H1 Hd1 H2 Hd2 H3.
    rewrite Hread. cbn [bind].
    unfold ExcelImporter.readRows. rewrite H1. cbn [bind].
    rewrite Hd1, H2. cbn [bind]. rewrite Hd2, H3. reflexivity. }
  destruct (readFile filePath) as [e|wb]; cbn [bind].
  - right. exists e. auto.
  - destruct (ExcelImporter.readRows W sheet_to_json _) as [e|jsonData];
      cbn [bind].
    + right. exists e. auto.
    + left. eauto.
Qed.

(** C9 at a file that is not there. *)
Lemma import_failure_handling_witness :
  ExcelImporter.importFile unit missingFile sampleSheetToJson sampleClock
    (js "assente.xlsx") (js "clienti")
  = ExcelImporter.ImportFailure
      (js "Errore durante l'importazione: ENOENT: no such file or directory").
Proof.
  destruct (import_failure_handling unit missingFile sampleSheetToJson
              sampleClock (js "assente.xlsx") (js "clienti"))
    as (_ & Hread & _).
  exact (Hread (Error (js "ENOENT: no such file or directory")) eq_refl).
Defined.

(* ================================================================== *)
(** ** Export followed by import *)

Section Reimport.
Import ExcelImporter.

Lemma get_headerStep (o : obj) (k f : jsstring) (v : value) :
  get (headerStep o (k, v)) f
  = if isBlank v then get o f
    else if str_eqb f (finalKey k) then normalizeValue (finalKey k) v
         else get o f.
Proof.
  unfold headerStep. cbn [fst snd].
  destruct (isBlank v); [reflexivity|apply get_set].
Qed.

Lemma get_headerLoop_other (f : jsstring)
    (entries : list (jsstring * value)) :
  Forall (fun e => finalKey (fst e) <> f) entries ->
  forall o, get (fold_left headerStep entries o) f = get o f.
Proof.
  induction 1 as [|[k v] entries Hk _ IH]; intros o; simpl.
  - reflexivity.
  - rewrite IH, get_headerStep. cbn [fst] in Hk.
    destruct (isBlank v); [reflexivity|].
    destruct (str_eqb f (finalKey k)) eqn:E; [|reflexivity].
    apply str_eqb_eq in E. congruence.
Qed.

Lemma get_headerLoop_unique (f k : jsstring) (v : value)
    (before after : list (jsstring * value)) (o : obj) :
  Forall (fun e => finalKey (fst e) <> f) before ->
  Forall (fun e => finalKey (fst e) <> f) after ->
  finalKey k = f ->
  get (fold_left headerStep (before ++ (k, v) :: after) o) f
  = if isBlank v then get o f else normalizeValue f v.
Proof.
  intros Hb Ha Hk. rewrite fold_left_app. simpl.
  rewrite get_headerLoop_other by assumption.
  rewrite get_headerStep, Hk, str_eqb_refl.
  now rewrite get_headerLoop_other by assumption.
Qed.

Lemma get_headerLoop_at (n : nat) (f k : jsstring) (v : value)
    (entries : list (jsstring * value)) (o : obj) :
  nth_error entries n = Some (k, v) ->
  Forall (fun e => finalKey (fst e) <> f) (firstn n entries) ->
  Forall (fun e => finalKey (fst e) <> f) (skipn (S n) entries) ->
  finalKey k = f ->
  get (fold_left headerStep entries o) f
  = if isBlank v then get o f else normalizeValue f v.
Proof.
  intros Hn Hb Ha Hk.
  rewrite <- (firstn_skipn n entries) at 1.
  assert (Hs : skipn n entries = (k, v) :: skipn (S n) entries).
  { clear Hb Ha. revert entries Hn.
    induction n as [|n IH]; intros [|e entries] Hn; simpl in Hn;
      try discriminate.
    - now injection Hn as ->.
    - now apply IH. }
  rewrite Hs. now apply get_headerLoop_unique.
Qed.

Lemma get_extractCivico_other (o : obj) (k : jsstring) :
  k <> js "indirizzo" -> k <> js "civico" ->
  get (extractCivico o) k = get o k.
Proof.
  intros H1 H2. unfold extractCivico.
  destruct (truthy (get o (js "indirizzo")) && _); [|reflexivity].
  destruct (civicoMatch _) as [[m1 m2]|]; [|reflexivity].
  now rewrite !get_set_other by assumption.
Qed.

Lemma isBlank_js_or (v : value) :
  isBlank (js_or v (VStr [])) = negb (truthy v).
Proof.
  unfold js_or. destruct v as [| |[|]|z|s|]; try reflexivity.
  - simpl. destruct (Z.eqb z 0); reflexivity.
  - simpl. destruct s; reflexivity.
Qed.

Lemma js_or_truthy (v w : value) : truthy v = true -> js_or v w = v.
Proof. unfold js_or. now intros ->. Qed.

Lemma truthy_js_or_empty (v : value) :
  truthy (js_or v (VStr [])) = truthy v.
Proof. unfold js_or. destruct (truthy v) eqn:E; [assumption|reflexivity]. Qed.

(** The row that the export writes for a record. *)
Lemma formatRecord_row (record row : obj) :
  formatRecord record = inr row ->
  row = [ (js "NOME DESTINATARIO", recipientOf record);
          (js "INDIRIZZO",
             js_or (VStr (indirizzoCompleto record)) (VStr []));
          (js "LOCALITA'", js_or (get record (js "localita")) (VStr []));
          (js "PROV", js_or (get record (js "provincia")) (VStr []));
          (js "CAP", js_or (get record (js "cap")) (VStr []));
          (js "TIPO MERCE", VStr (js "OMAGGIO NATALIZIO"));
          (js "COLLI", VStr (js "1"));
          (js "NOTE SPEDIZIONE",
             js_or (get record (js "note")) (VStr []));
          (js "RIFERIMENTO MITTENTE",
             js_or (get record (js "nome")) (VStr []));
          (js "TELEFONO",
             js_or (get record (js "telefono")) (VStr [])) ].
Proof.
  unfold formatRecord, nomeDestinatario, recipientOf.
  destruct (get record (js "azienda")) as [| |b|z|s|iso str];
    cbn [truthy bind];
    try (intros H; injection H as <-; reflexivity).
  - destruct b; cbn [bind]; [discriminate|].
    intros H; injection H as <-; reflexivity.
  - destruct (negb (z =? 0)%Z); cbn [bind]; [discriminate|].
    intros H; injection H as <-; reflexivity.
  - destruct (negb (str_eqb s [])) eqn:Es; cbn [bind];
      intros H; injection H as <-.
    + destruct (str_eqb (trim s) []); cbn [negb]; [reflexivity|].
      do 2 f_equal. unfold js_or. cbn [truthy]. now rewrite Es.
    + apply negb_false_iff, str_eqb_eq in Es. subst s. reflexivity.
  - discriminate.
Qed.

Ltac other_headers :=
  repeat constructor; cbn [fst]; intros Hkey; vm_compute in Hkey;
  discriminate Hkey.

Lemma Reimported_row (now : Z) (dataType : jsstring)
    (record row : obj) :
  formatRecord record = inr row ->
  Reimported record (normalizeRowData now row dataType) /\
  get (normalizeRowData now row dataType) (js "id") = VUndefined.
Proof.
  intros Hrow. apply formatRecord_row in Hrow. subst row.
  unfold normalizeRowData, assignFields.
  match goal with
  | |- context [existsb isGenericColumn (keys ?r)] =>
      replace (existsb isGenericColumn (keys r)) with false
        by reflexivity
  end.
  set (init := initialRow now dataType).
  split; [split; [|split; [|split]]|].
  - intros f Hf.
    destruct Hf as [<-|[<-|[<-|[<-|[]]]]];
      rewrite get_extractCivico_other by discriminate.
    + rewrite (get_headerLoop_at 2 (js "localita") (js "LOCALITA'")
                 (js_or (get record (js "localita")) (VStr [])));
        [| reflexivity | other_headers | other_headers |
         vm_compute; reflexivity].
      rewrite isBlank_js_or.
      destruct (truthy (get record (js "localita"))) eqn:E;
        cbn [negb]; [now rewrite js_or_truthy|reflexivity].
    + rewrite (get_headerLoop_at 3 (js "provincia") (js "PROV")
                 (js_or (get record (js "provincia")) (VStr [])));
        [| reflexivity | other_headers | other_headers |
         vm_compute; reflexivity].
      rewrite isBlank_js_or.
      destruct (truthy (get record (js "provincia"))) eqn:E;
        cbn [negb]; [now rewrite js_or_truthy|reflexivity].
    + rewrite (get_headerLoop_at 4 (js "cap") (js "CAP")
                 (js_or (get record (js "cap")) (VStr [])));
        [| reflexivity | other_headers | other_headers |
         vm_compute; reflexivity].
      rewrite isBlank_js_or.
      destruct (truthy (get record (js "cap"))) eqn:E;
        cbn [negb]; [now rewrite js_or_truthy|reflexivity].
    + rewrite (get_headerLoop_at 9 (js "telefono") (js "TELEFONO")
                 (js_or (get record (js "telefono")) (VStr [])));
        [| reflexivity | other_headers | other_headers |
         vm_compute; reflexivity].
      rewrite isBlank_js_or.
      destruct (truthy (get record (js "telefono"))) eqn:E;
        cbn [negb]; [now rewrite js_or_truthy|reflexivity].
  - rewrite get_extractCivico_other by discriminate.
    rewrite get_headerLoop_other by other_headers. reflexivity.
  - rewrite get_extractCivico_other by discriminate.
    rewrite (get_headerLoop_at 0 (js "nome") (js "NOME DESTINATARIO")
               (recipientOf record));
      [| reflexivity | other_headers | other_headers |
       vm_compute; reflexivity].
    assert (Hb : isBlank (recipientOf record)
                 = negb (truthy (recipientOf record))).
    { unfold recipientOf.
      assert (Hor : isBlank (js_or (get record (js "nome")) (VStr []))
                    = negb (truthy (js_or (get record (js "nome"))
                                      (VStr []))))
        by now rewrite isBlank_js_or, truthy_js_or_empty.
      destruct (get record (js "azienda")) as [| |b|z|s|iso str];
        try exact Hor.
      destruct (str_eqb (trim s) []) eqn:Et; [exact Hor|].
      destruct s; [discriminate Et|reflexivity]. }
    rewrite Hb. now destruct (truthy (recipientOf record)).
  - rewrite get_extractCivico_other by discriminate.
    rewrite (get_headerLoop_at 8 (js "riferimento_mittente")
               (js "RIFERIMENTO MITTENTE")
               (js_or (get record (js "nome")) (VStr [])));
      [| reflexivity | other_headers | other_headers |
       vm_compute; reflexivity].
    rewrite isBlank_js_or.
    destruct (truthy (get record (js "nome"))) eqn:E;
      cbn [negb]; [now rewrite js_or_truthy|reflexivity].
  - rewrite get_extractCivico_other by discriminate.
    rewrite get_headerLoop_other by other_headers. reflexivity.
Qed.

Lemma mapM_inr {A B : Type} (f : A -> exn + B) (l : list A) :
  forall ys, mapM f l = inr ys -> Forall2 (fun x y => f x = inr y) l ys.
Proof.
  induction l as [|x l IH]; intros ys H; simpl in H.
  - injection H as <-. constructor.
  - destruct (f x) as [e|y] eqn:Ex; [discriminate|]. cbn [bind] in H.
    destruct (mapM f l) as [e|ys'] eqn:El; [discriminate|].
    cbn [bind] in H. injection H as <-. constructor; auto.
Qed.

Lemma exportGLS_inr (data formattedData : list obj) :
  exportGLS data = inr formattedData ->
  Forall2 (fun record row => formatRecord record = inr row)
    (filter isGls data) formattedData.
Proof.
  unfold exportGLS.
  destruct (List.length (filter isGls data) =? 0)%nat; [discriminate|].
  apply mapM_inr.
Qed.

(** The rows of an export have valid headers. *)
Lemma exportGLS_valid_headers (data formattedData : list obj) :
  exportGLS data = inr formattedData ->
  noValidHeaders formattedData = false.
Proof.
  intros H. assert (Hall := exportGLS_inr _ _ H).
  unfold exportGLS in H.
  destruct (filter isGls data) as [|record records]; [discriminate|].
  inversion Hall as [|? row ? rows Hrow _]; subst.
  apply formatRecord_row in Hrow. subst row. reflexivity.
Qed.

Lemma Reimported_normalizeAll (clk : clock) (dataType : jsstring)
    (records formattedData : list obj) :
  Forall2 (fun record row => formatRecord record = inr row)
    records formattedData ->
  forall t index,
    Forall2 Reimported records
      (normalizeAll clk t index formattedData dataType).
Proof.
  induction 1 as [|record row records rows Hrow _ IH]; intros t index.
  - constructor.
  - cbn [normalizeAll].
    destruct (Reimported_row (clk t) dataType record row Hrow)
      as [(Hf & Ha & Hn & Hr) Hid].
    unfold js_not. rewrite Hid. cbn [truthy negb].
    constructor; [|apply IH].
    unfold Reimported. rewrite !get_set_other by discriminate.
    repeat split; try assumption.
    intros f Hin. rewrite get_set_other; [now apply Hf|].
    destruct Hin as [<-|[<-|[<-|[<-|[]]]]]; discriminate.
Qed.

End Reimport.

(* ================================================================== *)
(** ** The shape of a normalized row *)


Section EliminatoColumn.
Import ExcelImporter.




End EliminatoColumn.




(** C6 as stated fails. The column RIFERIMENTO MITTENTE resolves to the
    name riferimento_mittente, which is no field of the synonym table,
    and nothing is read back as azienda: a record with a name and a
    company comes back with the company as nome and without azienda, and
    two records that differ in azienda come back as the same record, so
    nome and azienda cannot be told from what is read back. *)
Lemma export_reimport_counterexample :
  ExcelImporter.finalKey (js "RIFERIMENTO MITTENTE")
    = js "riferimento_mittente" /\
  ~ In (js "riferimento_mittente") (map fst ExcelImporter.keyMapping) /\
  (exists r,
     reimport sampleClock (js "clienti") [recordWithCompany] = inr [r] /\
     get recordWithCompany (js "nome") = VStr (js "Mario Rossi") /\
     get recordWithCompany (js "azienda") = VStr (js "Acme") /\
     get r (js "nome") = VStr (js "Acme") /\
     get r (js "azienda") = VUndefined /\
     get r (js "riferimento_mittente") = VStr (js "Mario Rossi")) /\
  get recordSameText (js "azienda") <> get recordNoCompany (js "azienda") /\
  reimport sampleClock (js "clienti") [recordSameText]
  = reimport sampleClock (js "clienti") [recordNoCompany].
Proof.
  split; [vm_compute; reflexivity|].
  split.
  { intros H. vm_compute in H.
    repeat (destruct H as [H|H]; [discriminate H|]). exact H. }
  split.
  { eexists. split; [vm_compute; reflexivity|].
    repeat split; vm_compute; reflexivity. }
  split; [discriminate|].
  vm_compute. reflexivity.
Qed.

(** C6, amended. When the export of a record set succeeds, its rows have
    valid headers, so [importFile] on a sheet that converts to those rows
    returns what [reimport] returns. Reading the rows back gives, before
    the acceptance filter, one record for each exported record, in order,
    and in it: localita, provincia, cap and
    telefono hold the trimmed text of the exported value when that is a
    non-empty string, and are absent when it is empty or missing; nome
    holds the recipient, that is the azienda when it is not blank and the
    nome otherwise; riferimento_mittente, which is not a field of the
    schema, holds the nome; azienda is absent. The acceptance filter
    keeps the record exactly when that nome is a non-empty string. *)
Theorem export_reimport :
  forall (clk : clock) (dataType : jsstring)
         (data formattedData : list obj),
    ExcelImporter.exportGLS data = inr formattedData ->
    let normalizedData :=
      ExcelImporter.normalizeAll clk 0 0 formattedData dataType in
    reimport clk dataType data
      = inr (filter ExcelImporter.isValid normalizedData) /\
    (forall (W : Type)
            (readFile : jsstring -> exn + ExcelImporter.workbook W)
            (sheet_to_json : option W -> ExcelImporter.headerOption
                             -> exn + list obj)
            (filePath : jsstring) (wb : ExcelImporter.workbook W),
       readFile filePath = inr wb ->
       sheet_to_json
         (ExcelImporter.sheetAt (ExcelImporter.Sheets wb)
            (ToString (ExcelImporter.determineSheetName wb dataType)))
         ExcelImporter.HeaderFirstRow = inr formattedData ->
       exists msg,
         ExcelImporter.importFile W readFile sheet_to_json clk
           filePath dataType
         = ExcelImporter.ImportSuccess msg
             (filter ExcelImporter.isValid normalizedData)) /\
    Forall2 Reimported (filter ExcelImporter.isGls data) normalizedData /\
    (forall record r : obj,
       Reimported record r ->
       (forall f s,
          In f [js "localita"; js "provincia"; js "cap"; js "telefono"] ->
          get record f = VStr s -> s <> [] ->
          get r f = VStr (trim s)) /\
       (forall f,
          In f [js "localita"; js "provincia"; js "cap"; js "telefono"] ->
          truthy (get record f) = false ->
          get r f = VUndefined) /\
       get r (js "azienda") = VUndefined /\
       get r (js "nome")
         = (if truthy (recipientOf record)
            then ExcelImporter.normalizeValue (js "nome")
                   (recipientOf record)
            else VUndefined) /\
       get r (js "riferimento_mittente")
         = (if truthy (get record (js "nome"))
            then ExcelImporter.normalizeValue (js "riferimento_mittente")
                   (get record (js "nome"))
            else VUndefined)) /\
    (forall record r : obj,
       Reimported record r -> In r normalizedData ->
       (ExcelImporter.isValid r = true <->
        nonEmptyString (get r (js "nome")))).
Proof.
  intros clk dataType data formattedData Hexport normalizedData.
  subst normalizedData. split; [|split; [|split; [|split]]].
  - unfold reimport. now rewrite Hexport.
  - intros W readFile sheet_to_json filePath wb Hread Hsheet.
    unfold ExcelImporter.importFile, ExcelImporter.importFileBody.
    rewrite Hread. cbn [bind]. unfold ExcelImporter.readRows.
    rewrite Hsheet. cbn [bind].
    rewrite (exportGLS_valid_headers data formattedData Hexport).
    cbn [bind]. eauto.
  - apply Reimported_normalizeAll. now apply exportGLS_inr.
  - intros record r (Hf & Ha & Hn & Hr).
    split; [|split; [|auto]].
    + intros f s Hin Hs Hne. rewrite (Hf f Hin), Hs.
      apply truthy_VStr in Hne. rewrite Hne.
      destruct Hin as [<-|[<-|[<-|[<-|[]]]]]; reflexivity.
    + intros f Hin Hfalsy. now rewrite (Hf f Hin), Hfalsy.
  - intros record r (_ & Ha & _) Hin.
    destruct (isValid_normalizedData clk dataType formattedData 0 0 r Hin)
      as [Hiff _].
    rewrite Hiff. split; [|auto].
    intros [H|(s & Hs & _)]; [assumption|]. congruence.
Qed.

(** C6 amended, at the record with a name and a company. *)
Lemma export_reimport_witness :
  exists formattedData,
    ExcelImporter.exportGLS [recordWithCompany] = inr formattedData /\
    reimport sampleClock (js "clienti") [recordWithCompany]
    = inr (filter ExcelImporter.isValid
             (ExcelImporter.normalizeAll sampleClock 0 0 formattedData
                (js "clienti"))) /\
    Forall2 Reimported
      (filter ExcelImporter.isGls [recordWithCompany])
      (ExcelImporter.normalizeAll sampleClock 0 0 formattedData
         (js "clienti")).
Proof.
  assert (Hexport : ExcelImporter.exportGLS [recordWithCompany]
                    = inr [ [ (js "NOME DESTINATARIO", VStr (js "Acme"));
                              (js "INDIRIZZO", VStr []);
                              (js "LOCALITA'", VStr (js "Udine"));
                              (js "PROV", VStr (js "UD"));
                              (js "CAP", VStr (js "33100"));
                              (js "TIPO MERCE",
                                 VStr (js "OMAGGIO NATALIZIO"));
                              (js "COLLI", VStr (js "1"));
                              (js "NOTE SPEDIZIONE", VStr []);
                              (js "RIFERIMENTO MITTENTE",
                                 VStr (js "Mario Rossi"));
                              (js "TELEFONO", VStr (js "0432 111")) ] ])
    by (vm_compute; reflexivity).
  eexists. split; [exact Hexport|].
  destruct (export_reimport sampleClock (js "clienti") [recordWithCompany]
              _ Hexport) as (Hre & _ & Hall & _).
  split; [exact Hre|exact Hall].
Defined.

(* ================================================================== *)
(** ** The choice of the sheet *)

(** X1. [determineSheetName] gives no name only for a workbook without
    sheet names; otherwise it gives one of the workbook's sheet names,
    and, for a record kind whose first character is one of Basic Latin
    or Latin-1 with its capital there, the capitalized record kind
    whenever that is one of them. When every sheet name has its sheet,
    the worksheet that [importFile] reads is therefore found. *)
Theorem determineSheetName_total :
  forall (W : Type) (wb : ExcelImporter.workbook W) (dataType : jsstring),
    (ExcelImporter.SheetNames wb = [] ->
     ExcelImporter.determineSheetName wb dataType = VUndefined) /\
    (ExcelImporter.SheetNames wb <> [] ->
     exists name,
       ExcelImporter.determineSheetName wb dataType = VStr name /\
       In name (ExcelImporter.SheetNames wb)) /\
    (forallb upperExact (firstn 1 dataType) = true ->
     In (toUpperCase (firstn 1 dataType) ++ skipn 1 dataType)
        (ExcelImporter.SheetNames wb) ->
     ExcelImporter.determineSheetName wb dataType
     = VStr (toUpperCase (firstn 1 dataType) ++ skipn 1 dataType)) /\
    (ExcelImporter.SheetNames wb <> [] ->
     (forall name, In name (ExcelImporter.SheetNames wb) ->
                   ExcelImporter.sheetAt (ExcelImporter.Sheets wb) name
                   <> None) ->
     ExcelImporter.sheetAt (ExcelImporter.Sheets wb)
       (ToString (ExcelImporter.determineSheetName wb dataType)) <> None).
Proof.
  intros W wb dataType.
  assert (Hmem : ExcelImporter.SheetNames wb <> [] ->
                 exists name,
                   ExcelImporter.determineSheetName wb dataType = VStr name /\
                   In name (ExcelImporter.SheetNames wb)).
  { intros Hne. unfold ExcelImporter.determineSheetName.
    match goal with
    | |- context [find ?f ?l] => destruct (find f l) as [name|] eqn:E1
    end.
    - exists name. split; [reflexivity|].
      apply find_some in E1 as [_ E1]. now apply array_includes_In.
    - match goal with
      | |- context [find ?f (ExcelImporter.SheetNames wb)] =>
          destruct (find f (ExcelImporter.SheetNames wb))
            as [name|] eqn:E2
      end.
      + exists name. split; [reflexivity|].
        now apply find_some in E2 as [E2 _].
      + destruct (ExcelImporter.SheetNames wb) as [|first rest];
          [congruence|].
        exists first. split; [reflexivity|now left]. }
  split; [|split; [exact Hmem|split]].
  - intros Hnil. unfold ExcelImporter.determineSheetName. rewrite Hnil.
    reflexivity.
  - intros _ Hin. unfold ExcelImporter.determineSheetName.
    cbn [find]. apply array_includes_In in Hin. now rewrite Hin.
  - intros Hne Hsheets. destruct (Hmem Hne) as (name & -> & Hin).
    now apply Hsheets.
Qed.

(** X1 at a workbook whose second sheet is named after the record kind. *)
Lemma determineSheetName_total_witness :
  ExcelImporter.determineSheetName
    {| ExcelImporter.SheetNames := [js "Foglio1"; js "Clienti"];
       ExcelImporter.Sheets := [(js "Foglio1", 1%nat); (js "Clienti", 2%nat)] |}
    (js "clienti")
  = VStr (js "Clienti").
Proof.
  destruct (determineSheetName_total nat
              {| ExcelImporter.SheetNames := [js "Foglio1"; js "Clienti"];
                 ExcelImporter.Sheets :=
                   [(js "Foglio1", 1%nat); (js "Clienti", 2%nat)] |}
              (js "clienti")) as (_ & _ & Hcap & _).
  apply Hcap; [reflexivity|]. right. left. reflexivity.
Defined.

(* ================================================================== *)
(** ** The identifiers given by the import *)

Section ImportIds.
Import ExcelImporter.

Variables (clk : clock) (dataType : jsstring).
Hypothesis clk_monotone : monotone clk.

Lemma normalizeRowData_id_text (now : Z) (row : obj) :
  textOrAbsent (get (normalizeRowData now row dataType) (js "id")).
Proof.
  destruct (Normalized_normalizeRowData now row dataType)
    as (_ & _ & _ & Hx).
  apply Hx; discriminate.
Qed.

Lemma normalizeAll_id_bound (jsonData : list obj) :
  forall t index r a,
    In r (normalizeAll clk t index jsonData dataType) ->
    get r (js "id") = VNum a ->
    (clk (S t) + Z.of_nat index <= a)%Z.
Proof.
  induction jsonData as [|row rest IH]; intros t index r a Hin Hid.
  - destruct Hin.
  - cbn [normalizeAll] in Hin. unfold js_not in Hin.
    pose proof (normalizeRowData_id_text (clk t) row) as Htext.
    destruct (truthy (get (normalizeRowData (clk t) row dataType)
                          (js "id"))) eqn:E;
      cbn [negb] in Hin; destruct Hin as [<-|Hin].
    + destruct Htext as [Hu|[s Hs]]; congruence.
    + specialize (IH _ _ _ _ Hin Hid).
      pose proof (clk_monotone (S t) (S (S t))). lia.
    + rewrite get_set_same in Hid. injection Hid as <-. lia.
    + specialize (IH _ _ _ _ Hin Hid).
      pose proof (clk_monotone (S t) (S (S (S t)))). lia.
Qed.

Lemma length_normalizeAll (jsonData : list obj) :
  forall t index,
    List.length (normalizeAll clk t index jsonData dataType)
    = List.length jsonData.
Proof.
  induction jsonData as [|row rest IH]; intros t index; cbn [normalizeAll].
  - reflexivity.
  - destruct (js_not _); simpl; now rewrite IH.
Qed.

Lemma normalizeAll_ids_increase (jsonData : list obj) :
  forall t index,
    ForallOrdPairs
      (fun r r' => forall a b,
         get r (js "id") = VNum a -> get r' (js "id") = VNum b ->
         (a < b)%Z)
      (normalizeAll clk t index jsonData dataType).
Proof.
  induction jsonData as [|row rest IH]; intros t index;
    cbn [normalizeAll].
  - constructor.
  - pose proof (normalizeRowData_id_text (clk t) row) as Htext.
    unfold js_not.
    destruct (truthy (get (normalizeRowData (clk t) row dataType)
                          (js "id"))) eqn:E; cbn [negb].
    + constructor; [|apply IH].
      apply Forall_forall. intros r' _ a b Ha _.
      destruct Htext as [Hu|[s Hs]]; congruence.
    + constructor; [|apply IH].
      apply Forall_forall. intros r' Hin a b Ha Hb.
      rewrite get_set_same in Ha. injection Ha as <-.
      pose proof (normalizeAll_id_bound _ _ _ _ _ Hin Hb).
      pose proof (clk_monotone (S t) (S (S (S t)))). lia.
Qed.

End ImportIds.

(** X2. With a clock that does not go backwards, the identifiers that
    the import makes up are numbers that grow strictly from row to row,
    so no two rows of a batch get the same one; the batch has one record
    for each row read. *)
Theorem import_ids_increase :
  forall (clk : clock) (dataType : jsstring) (jsonData : list obj),
    monotone clk ->
    List.length (ExcelImporter.normalizeAll clk 0 0 jsonData dataType)
      = List.length jsonData /\
    ForallOrdPairs
      (fun r r' => forall a b,
         get r (js "id") = VNum a -> get r' (js "id") = VNum b ->
         (a < b)%Z)
      (ExcelImporter.normalizeAll clk 0 0 jsonData dataType).
Proof.
  intros clk dataType jsonData Hmono. split.
  - apply length_normalizeAll.
  - now apply normalizeAll_ids_increase.
Qed.

Lemma sampleClock_monotone : monotone sampleClock.
Proof. intros m n H. unfold sampleClock. lia. Qed.

(** X2 at the sample sheet. *)
Lemma import_ids_increase_witness :
  ForallOrdPairs
    (fun r r' => forall a b,
       get r (js "id") = VNum a -> get r' (js "id") = VNum b ->
       (a < b)%Z)
    (ExcelImporter.normalizeAll sampleClock 0 0 sampleRows (js "clienti")).
Proof.
  exact (proj2 (import_ids_increase sampleClock (js "clienti") sampleRows
                  sampleClock_monotone)).
Defined.

(* ================================================================== *)
(** ** Trimming, lower-casing and the normalized key *)

Section Trimming.
Import ExcelImporter.

Lemma drop_while_all (p : N -> bool) (a s : jsstring) :
  forallb p a = true -> drop_while p (a ++ s) = drop_while p s.
Proof.
  induction a as [|c a IH]; simpl; [reflexivity|].
  intros H. apply andb_true_iff in H as [Hc Ha]. rewrite Hc. auto.
Qed.

Lemma drop_while_head (p : N -> bool) (s r : jsstring) (c : N) :
  drop_while p s = c :: r -> p c = false.
Proof.
  induction s as [|x s IH]; simpl; [discriminate|].
  destruct (p x) eqn:E; [assumption|].
  intros H. injection H as <- _. assumption.
Qed.

Lemma drop_while_idem (p : N -> bool) (s : jsstring) :
  drop_while p (drop_while p s) = drop_while p s.
Proof.
  induction s as [|x s IH]; simpl; [reflexivity|].
  destruct (p x) eqn:E; [assumption|]. simpl. now rewrite E.
Qed.

Lemma drop_while_keeps (p : N -> bool) (s : jsstring) (c : N) :
  In c s -> p c = false -> drop_while p s <> [].
Proof.
  induction s as [|x s IH]; simpl; [tauto|].
  intros [->|Hin] Hc.
  - rewrite Hc. discriminate.
  - destruct (p x); [auto|discriminate].
Qed.

Lemma drop_while_nil (p : N -> bool) (s : jsstring) :
  drop_while p s = [] -> forallb p s = true.
Proof.
  induction s as [|x s IH]; simpl; [reflexivity|].
  destruct (p x); [auto|discriminate].
Qed.

Lemma drop_while_app_keep (p : N -> bool) (s b : jsstring) :
  drop_while p s <> [] -> drop_while p (s ++ b) = drop_while p s ++ b.
Proof.
  induction s as [|x s IH]; simpl; [congruence|].
  destruct (p x); [auto|reflexivity].
Qed.

Lemma trimEnd_pad (s b : jsstring) :
  forallb is_space b = true -> trimEnd (s ++ b) = trimEnd s.
Proof.
  intros Hb. unfold trimEnd. rewrite rev_app_distr.
  rewrite drop_while_all; [reflexivity|].
  rewrite forallb_forall in *. intros c Hc. apply Hb.
  now apply In_rev in Hc.
Qed.

Lemma trim_pad (a s b : jsstring) :
  forallb is_space a = true -> forallb is_space b = true ->
  trim (a ++ s ++ b) = trim s.
Proof.
  intros Ha Hb. unfold trim, trimStart.
  rewrite drop_while_all by assumption.
  destruct (drop_while is_space s) as [|c u] eqn:E.
  - apply drop_while_nil in E.
    rewrite drop_while_all by assumption.
    assert (Hnil : drop_while is_space b = []).
    { rewrite <- (app_nil_r b). now rewrite drop_while_all. }
    now rewrite Hnil.
  - rewrite drop_while_app_keep by (rewrite E; discriminate).
    rewrite E. now apply trimEnd_pad.
Qed.

Lemma trim_idem (s : jsstring) : trim (trim s) = trim s.
Proof.
  unfold trim, trimStart.
  set (u := drop_while is_space s).
  set (d := drop_while is_space (rev u)).
  assert (Hend : trimEnd u = rev d) by reflexivity.
  rewrite Hend.
  assert (Hstart : drop_while is_space (rev d) = rev d).
  { destruct (take_drop_while is_space (rev u)) as [Hsplit _].
    fold d in Hsplit.
    assert (Hu : u = rev d ++ rev (take_while is_space (rev u))).
    { rewrite <- rev_app_distr, <- Hsplit. now rewrite rev_involutive. }
    destruct (rev d) as [|c t] eqn:Et; [reflexivity|].
    rewrite Hu in *. subst u.
    assert (Hc : is_space c = false).
    { apply (drop_while_head is_space s (t ++ rev (take_while is_space
                (rev (drop_while is_space s))))).
      match goal with H : drop_while is_space s = _ |- _ => exact H end. }
    simpl. now rewrite Hc. }
  rewrite Hstart. unfold trimEnd. rewrite rev_involutive.
  unfold d. now rewrite drop_while_idem.
Qed.

Lemma is_space_cases (c : N) :
  is_space c = true -> c <= 13 \/ c = 32 \/ c = 160 \/ 5760 <= c.
Proof.
  unfold is_space.
  repeat rewrite orb_true_iff. repeat rewrite in_range_spec.
  repeat rewrite N.eqb_eq. lia.
Qed.

Lemma lower_unit_space (c : N) : is_space c = true -> lower_unit c = c.
Proof.
  intros H. apply is_space_cases in H. unfold lower_unit.
  destruct (in_range 65 90 c) eqn:E1;
    [apply in_range_spec in E1; lia|].
  destruct (in_range 192 222 c) eqn:E2;
    [apply in_range_spec in E2; lia|reflexivity].
Qed.

Lemma lower_unit_range (c : N) :
  ~ (65 <= lower_unit c <= 90) /\
  ~ (192 <= lower_unit c <= 222 /\ lower_unit c <> 215).
Proof.
  unfold lower_unit.
  destruct (in_range 65 90 c) eqn:E1.
  - apply in_range_spec in E1. lia.
  - destruct (in_range 192 222 c && negb (c =? 215)) eqn:E2.
    + apply andb_true_iff in E2 as [E2 _]. apply in_range_spec in E2. lia.
    + split.
      * intros H. apply in_range_spec in H. congruence.
      * intros [H Hne]. apply in_range_spec in H.
        apply N.eqb_neq in Hne. rewrite H, Hne in E2. discriminate.
Qed.

Lemma lower_unit_idem (c : N) : lower_unit (lower_unit c) = lower_unit c.
Proof.
  destruct (lower_unit_range c) as [H1 H2].
  remember (lower_unit c) as l. unfold lower_unit.
  destruct (in_range 65 90 l) eqn:E1;
    [apply in_range_spec in E1; tauto|].
  destruct (in_range 192 222 l && negb (l =? 215)) eqn:E2;
    [|reflexivity].
  apply andb_true_iff in E2 as [E2 E3]. apply in_range_spec in E2.
  apply negb_true_iff, N.eqb_neq in E3. tauto.
Qed.

Lemma toLowerCase_pad (a : jsstring) :
  forallb is_space a = true -> toLowerCase a = a.
Proof.
  unfold toLowerCase. induction a as [|c a IH]; simpl; [reflexivity|].
  intros H. apply andb_true_iff in H as [Hc Ha].
  now rewrite lower_unit_space, IH.
Qed.

Lemma In_replace_space_runs_strong (r x : N) (b : bool) (s : jsstring) :
  In x (replace_space_runs r b s) ->
  x = r \/ (In x s /\ is_space x = false).
Proof.
  revert b. induction s as [|c s IH]; intros b; simpl; [tauto|].
  destruct (is_space c) eqn:Ec.
  - destruct b; simpl.
    + intros H. apply IH in H. tauto.
    + intros [H|H]; [auto|]. apply IH in H. tauto.
  - simpl. intros [H|H]; [subst; auto|]. apply IH in H. tauto.
Qed.

Lemma In_replace_key_punct_strong (x : N) (s : jsstring) :
  In x (replace_key_punct s) ->
  x = 32 \/ (In x s /\ is_key_punct x = false).
Proof.
  unfold replace_key_punct. intros H.
  apply in_map_iff in H as (c & Hc & Hin).
  destruct (is_key_punct c) eqn:E; subst; auto.
Qed.

Lemma has_double_space_cons (a b : N) (rest : jsstring) :
  has_double_space (a :: b :: rest)
  = (N.eqb a 32 && N.eqb b 32) || has_double_space (b :: rest).
Proof. reflexivity. Qed.

Lemma replace_space_runs_single (b : bool) (s : jsstring) :
  has_double_space (replace_space_runs 32 b s) = false /\
  (b = true ->
   match replace_space_runs 32 b s with
   | c :: _ => c <> 32
   | [] => True
   end).
Proof.
  revert b. induction s as [|c s IH]; intros b; [simpl; auto|].
  cbn [replace_space_runs].
  destruct (is_space c) eqn:Ec.
  - destruct b.
    + apply IH.
    + destruct (IH true) as [H1 H2]. specialize (H2 eq_refl).
      split; [|discriminate].
      destruct (replace_space_runs 32 true s) as [|y rest]; [reflexivity|].
      rewrite has_double_space_cons.
      apply N.eqb_neq in H2. rewrite H2, andb_false_r. exact H1.
  - destruct (IH false) as [H1 _].
    assert (Hc : c <> 32) by (intros ->; discriminate Ec).
    split; [|intros _; exact Hc].
    destruct (replace_space_runs 32 false s) as [|y rest]; [reflexivity|].
    rewrite has_double_space_cons. apply N.eqb_neq in Hc. now rewrite Hc.
Qed.

End Trimming.

(** X3. A normalized header key holds none of the characters / - _ .
    and no white space other than single spaces; that of a header of
    Basic Latin and Latin-1 characters is made of such characters and
    is all lower case: it holds no capital letter, A to Z or A grave to
    Thorn. *)
Theorem normalizeKey_shape :
  forall key : jsstring,
    (forall c, In c (ExcelImporter.normalizeKey key) ->
               is_key_punct c = false /\
               (is_space c = true -> c = 32)) /\
    has_double_space (ExcelImporter.normalizeKey key) = false /\
    (latin1 key = true ->
     latin1 (ExcelImporter.normalizeKey key) = true /\
     toLowerCase (ExcelImporter.normalizeKey key)
     = ExcelImporter.normalizeKey key /\
     forall c, In c (ExcelImporter.normalizeKey key) ->
               in_range 65 90 c = false /\
               (in_range 192 222 c = true -> c = 215)).
Proof.
  intros key.
  assert (Hin : forall c, In c (ExcelImporter.normalizeKey key) ->
                  c = 32 \/ exists x, In x key /\ c = lower_unit x).
  { unfold ExcelImporter.normalizeKey. intros c Hc.
    apply In_replace_space_runs_strong in Hc as [->|[Hc Hsp]]; [now left|].
    apply In_replace_key_punct_strong in Hc as [->|[Hc Hp]]; [now left|].
    apply In_trim in Hc. unfold toLowerCase in Hc.
    apply in_map_iff in Hc as (x & <- & Hx). right. eauto. }
  split; [|split].
  - unfold ExcelImporter.normalizeKey. intros c Hc.
    apply In_replace_space_runs_strong in Hc as [->|[Hc Hsp]];
      [repeat split; reflexivity|].
    apply In_replace_key_punct_strong in Hc as [->|[Hc Hp]];
      [repeat split; reflexivity|].
    split; [assumption|]. rewrite Hsp. discriminate.
  - apply replace_space_runs_single.
  - intros Hl. unfold latin1 in *. rewrite forallb_forall in Hl.
    assert (Hfix : forall c, In c (ExcelImporter.normalizeKey key) ->
                     (c <=? 255) = true /\ lower_unit c = c).
    { intros c Hc. apply Hin in Hc as [->|(x & Hx & ->)];
        [split; reflexivity|].
      split; [|apply lower_unit_idem].
      specialize (Hl x Hx). apply N.leb_le in Hl. apply N.leb_le.
      unfold lower_unit, in_range.
      destruct (65 <=? x) eqn:E1; destruct (x <=? 90) eqn:E2;
        cbn [andb];
        try (apply N.leb_le in E2; lia);
        destruct (192 <=? x) eqn:E3; destruct (x <=? 222) eqn:E4;
        cbn [andb]; try lia;
        destruct (negb (x =? 215)); try lia;
        apply N.leb_le in E4; lia. }
    split; [|split].
    + apply forallb_forall. intros c Hc. now apply Hfix.
    + unfold toLowerCase.
      rewrite <- (map_id (ExcelImporter.normalizeKey key)) at 2.
      apply map_ext_in. intros c Hc. now apply Hfix.
    + intros c Hc. destruct (Hfix c Hc) as [_ Hc'].
      unfold lower_unit in Hc'.
      destruct (in_range 65 90 c) eqn:E1; [lia|].
      split; [reflexivity|]. intros E2. rewrite E2 in Hc'.
      cbn [andb] in Hc'.
      destruct (c =? 215) eqn:E3; [now apply N.eqb_eq|].
      cbn [negb] in Hc'. lia.
Qed.

(** X3 at the header "Cod.Fiscale". *)
Lemma normalizeKey_shape_witness :
  toLowerCase (ExcelImporter.normalizeKey (js "Cod.Fiscale"))
  = ExcelImporter.normalizeKey (js "Cod.Fiscale").
Proof.
  destruct (normalizeKey_shape (js "Cod.Fiscale")) as (_ & _ & H).
  apply H. reflexivity.
Defined.

(** X4. For headers of Basic Latin and Latin-1 characters, the
    resolution of a header is blind to letter case and to white space
    around the header: two such headers that are equal once lower-cased
    resolve alike, also with white space of any kind before or after
    one of them. *)
Theorem finalKey_case_and_padding :
  forall a b key key' : jsstring,
    latin1 key = true -> latin1 key' = true ->
    forallb is_space a = true -> forallb is_space b = true ->
    toLowerCase key = toLowerCase key' ->
    ExcelImporter.finalKey (a ++ key ++ b) = ExcelImporter.finalKey key'.
Proof.
  intros a b key key' _ _ Ha Hb Hk.
  unfold ExcelImporter.finalKey, ExcelImporter.normalizeKey.
  assert (Hl : trim (toLowerCase (a ++ key ++ b))
               = trim (toLowerCase key')).
  { unfold toLowerCase. rewrite !map_app.
    fold (toLowerCase a) (toLowerCase key) (toLowerCase b).
    rewrite (toLowerCase_pad a Ha), (toLowerCase_pad b Hb), Hk.
    now apply trim_pad. }
  now rewrite Hl.
Qed.

(** X4 at the header " TELEFONO " against "telefono". *)
Lemma finalKey_case_and_padding_witness :
  ExcelImporter.finalKey (js " " ++ js "TELEFONO" ++ js "  ")
  = ExcelImporter.finalKey (js "telefono").
Proof.
  apply finalKey_case_and_padding; reflexivity.
Defined.

(** X5. Value normalization settles at once: the result is a string
    without white space at either end, and normalizing the result again
    for the same field gives the same result, for every value that is
    not a date. *)
Theorem normalizeValue_idempotent :
  forall (fieldName : jsstring) (v : value),
    (forall iso str, v <> VDate iso str) ->
    (exists s, ExcelImporter.normalizeValue fieldName v = VStr s /\
               trim s = s) /\
    ExcelImporter.normalizeValue fieldName
      (ExcelImporter.normalizeValue fieldName v)
    = ExcelImporter.normalizeValue fieldName v.
Proof.
  intros fieldName v Hdate. unfold ExcelImporter.normalizeValue.
  destruct (str_eqb fieldName (js "grappa")
            || str_eqb fieldName (js "gls")).
  - destruct (ExcelImporter.normalizeBoolean v);
      (split; [eexists; split; reflexivity|reflexivity]).
  - destruct v as [| |[|]|z|s|iso str];
      try (split; [eexists; split; [reflexivity|apply trim_idem]|];
           cbn [ToString]; now rewrite trim_idem).
    exfalso. now apply (Hdate iso str).
Qed.

(** X5 at a telephone number with blanks around it. *)
Lemma normalizeValue_idempotent_witness :
  ExcelImporter.normalizeValue (js "telefono")
    (ExcelImporter.normalizeValue (js "telefono") (VStr (js " 0432 111 ")))
  = ExcelImporter.normalizeValue (js "telefono") (VStr (js " 0432 111 ")).
Proof.
  apply normalizeValue_idempotent. discriminate.
Defined.

(* ================================================================== *)
(** ** The house number is split once *)

Lemma trim_token_nonempty (d : N) (rest : jsstring) :
  is_digit d = true -> trim (d :: rest) <> [].
Proof.
  intros Hd. apply digit_not_sep in Hd.
  unfold ExcelImporter.is_sep in Hd. apply orb_false_iff in Hd as [_ Hsp].
  unfold trim, trimStart, trimEnd. simpl. rewrite Hsp.
  intros H. apply (f_equal (@rev N)) in H. rewrite rev_involutive in H.
  simpl in H. revert H.
  apply (drop_while_keeps is_space (rev rest ++ [d]) d); [|assumption].
  apply in_or_app. right. now left.
Qed.

(** X6. Looking for the house number a second time changes nothing: once
    a number has been split off, civico is no longer empty. *)
Theorem extractCivico_idempotent :
  forall o : obj,
    ExcelImporter.extractCivico (ExcelImporter.extractCivico o)
    = ExcelImporter.extractCivico o.
Proof.
  intros o. remember (ExcelImporter.extractCivico o) as r eqn:Hr.
  unfold ExcelImporter.extractCivico in Hr.
  destruct (truthy (get o (js "indirizzo")) && _) eqn:Hc.
  - destruct (ExcelImporter.civicoMatch _) as [[m1 m2]|] eqn:Hm.
    + apply civicoMatch_sound in Hm
        as (_ & _ & (d & rest & -> & Hd & _) & _).
      pose proof (trim_token_nonempty d rest Hd) as Hne.
      apply str_eqb_neq in Hne.
      subst r. unfold ExcelImporter.extractCivico, js_not.
      rewrite !get_set_same. cbn [strict_eq truthy]. rewrite Hne.
      cbn [negb orb]. now rewrite andb_false_r.
    + subst r. unfold ExcelImporter.extractCivico. now rewrite Hc, Hm.
  - subst r. unfold ExcelImporter.extractCivico. now rewrite Hc.
Qed.

(* ================================================================== *)
(** ** The rows of the export *)

Section ExportRows.
Import ExcelImporter.

Lemma js_or_defined (v : value) :
  js_or v (VStr []) <> VUndefined /\ js_or v (VStr []) <> VNull.
Proof.
  unfold js_or. destruct v as [| |[|]|z|s|]; simpl;
    try (split; discriminate).
  - destruct (negb (z =? 0)%Z); split; discriminate.
  - destruct (negb (str_eqb s [])); split; discriminate.
Qed.

Lemma recipientOf_defined (record : obj) :
  recipientOf record <> VUndefined /\ recipientOf record <> VNull.
Proof.
  unfold recipientOf.
  destruct (get record (js "azienda")) as [| |b|z|s|iso str];
    try apply js_or_defined.
  destruct (str_eqb (trim s) []); [apply js_or_defined|].
  split; discriminate.
Qed.

Lemma formatRecord_shape (record row : obj) :
  formatRecord record = inr row ->
  keys row = glsHeaders /\
  (forall v, In v (values row) -> v <> VUndefined /\ v <> VNull) /\
  get row (js "TIPO MERCE") = VStr (js "OMAGGIO NATALIZIO") /\
  get row (js "COLLI") = VStr (js "1").
Proof.
  intros H. apply formatRecord_row in H. subst row.
  split; [reflexivity|]. split; [|split; reflexivity].
  intros v Hv. cbn [values map snd In] in Hv.
  repeat (destruct Hv as [<-|Hv];
          [first [apply recipientOf_defined | apply js_or_defined
                 | split; discriminate]|]).
  destruct Hv.
Qed.

Lemma Forall2_length_eq {A B : Type} (R : A -> B -> Prop)
    (l : list A) (l' : list B) :
  Forall2 R l l' -> List.length l = List.length l'.
Proof. induction 1; simpl; congruence. Qed.

End ExportRows.

(** X7. Every row that the export writes has the ten columns of the GLS
    layout, in their order, with no cell undefined or null, the goods
    column "OMAGGIO NATALIZIO" and the parcel count "1"; there is one
    row for each record flagged for GLS. *)
Theorem exportGLS_rows_shape :
  forall data rows : list obj,
    ExcelImporter.exportGLS data = inr rows ->
    List.length rows = List.length (filter ExcelImporter.isGls data) /\
    rows <> [] /\
    forall row, In row rows ->
      keys row = glsHeaders /\
      (forall v, In v (values row) -> v <> VUndefined /\ v <> VNull) /\
      get row (js "TIPO MERCE") = VStr (js "OMAGGIO NATALIZIO") /\
      get row (js "COLLI") = VStr (js "1").
Proof.
  intros data rows H.
  pose proof (exportGLS_inr data rows H) as Hall.
  pose proof (exportGLS_valid_headers data rows H) as Hvalid.
  split; [symmetry; now apply Forall2_length_eq in Hall|].
  split; [intros ->; discriminate Hvalid|].
  intros row Hrow.
  clear H Hvalid. induction Hall as [|record r records rs Hr _ IH].
  - destruct Hrow.
  - destruct Hrow as [<-|Hrow]; [now apply (formatRecord_shape record)|].
    now apply IH.
Qed.

(** X7 at the export scenario. *)
Lemma exportGLS_rows_shape_witness :
  exists rows,
    ExcelImporter.exportGLS exportScenario = inr rows /\
    List.length rows
      = List.length (filter ExcelImporter.isGls exportScenario).
Proof.
  eexists. split; [vm_compute; reflexivity|].
  refine (proj1 (exportGLS_rows_shape exportScenario _ _)).
  vm_compute. reflexivity.
Defined.

(** X8. The export is all or nothing: it gives rows exactly when at
    least one record is flagged for GLS and the azienda of every flagged
    record is a string or falsy; one flagged record whose azienda is, say,
    a number makes the whole export throw. Filtering the flagged records
    beforehand, as the handler does, changes nothing. *)
Theorem exportGLS_all_or_nothing :
  forall data : list obj,
    ((exists rows, ExcelImporter.exportGLS data = inr rows) <->
     filter ExcelImporter.isGls data <> [] /\
     Forall (fun record => falsyOrString (get record (js "azienda")))
       (filter ExcelImporter.isGls data)) /\
    (forall record,
       In record (filter ExcelImporter.isGls data) ->
       ~ falsyOrString (get record (js "azienda")) ->
       exists e, ExcelImporter.exportGLS data = inl e) /\
    ExcelImporter.exportGLS (filter ExcelImporter.isGls data)
    = ExcelImporter.exportGLS data.
Proof.
  intros data.
  assert (Hiff :
    (exists rows, ExcelImporter.exportGLS data = inr rows) <->
    filter ExcelImporter.isGls data <> [] /\
    Forall (fun record => falsyOrString (get record (js "azienda")))
      (filter ExcelImporter.isGls data));
    [|split; [exact Hiff|split]].
  - split.
    + intros [rows H]. split.
      * intros Hnil. unfold ExcelImporter.exportGLS in H.
        rewrite Hnil in H. discriminate.
      * apply exportGLS_inr in H. apply Forall_forall. intros record Hin.
        destruct (truthy (get record (js "azienda"))) eqn:Et;
          [|now left].
        destruct (get record (js "azienda")) as [| |b|z|s|iso str] eqn:Ea;
          try discriminate; try (right; eauto; fail);
          exfalso;
          (induction H as [|r row rs rows' Hr _ IH];
           [destruct Hin|
            destruct Hin as [->|Hin]; [|now apply IH];
            unfold ExcelImporter.formatRecord,
              ExcelImporter.nomeDestinatario in Hr;
            rewrite Ea, Et in Hr; discriminate Hr]).
    + intros [Hne Hall]. unfold ExcelImporter.exportGLS.
      destruct (filter ExcelImporter.isGls data) as [|r l] eqn:E;
        [congruence|].
      cbn [List.length Nat.eqb].
      destruct (mapM_total ExcelImporter.formatRecord (r :: l))
        as (rows & Hrows & _); [|eauto].
      apply Forall_forall. intros record Hin.
      apply formatRecord_total.
      rewrite Forall_forall in Hall. now apply Hall.
  - intros record Hin Hbad.
    destruct (ExcelImporter.exportGLS data) as [e|rows] eqn:E; [eauto|].
    exfalso. apply Hbad.
    destruct Hiff as [Hiff _]. destruct Hiff as [_ Hall]; [eauto|].
    rewrite Forall_forall in Hall. now apply Hall.
  - clear Hiff. unfold ExcelImporter.exportGLS.
    assert (Hidem : filter ExcelImporter.isGls
                      (filter ExcelImporter.isGls data)
                    = filter ExcelImporter.isGls data).
    { induction data as [|r data IH]; simpl; [reflexivity|].
      destruct (ExcelImporter.isGls r) eqn:E; simpl;
        [now rewrite E, IH|assumption]. }
    now rewrite Hidem.
Qed.

(* ================================================================== *)
(** ** Rows keyed by column letters *)

Section GenericColumns.
Import ExcelImporter.

Variable row : obj.

Lemma columnOrder_NoDup : NoDup columnOrder.
Proof.
  unfold columnOrder, createExplicitHeaders.
  repeat (constructor; [simpl; intuition discriminate|]). constructor.
Qed.

Lemma columnOrder_nth (i : nat) (field : jsstring) :
  nth_error columnOrder i = Some field ->
  (i < List.length columnOrder)%nat /\ nth i columnOrder [] = field.
Proof.
  intros H. split.
  - apply nth_error_Some. congruence.
  - now apply nth_error_nth.
Qed.

Lemma get_genericLoop_other (k : jsstring) (sortedKeys : list jsstring) :
  ~ In k columnOrder ->
  forall colIndex o,
    get (genericLoop row sortedKeys colIndex o) k = get o k.
Proof.
  intros Hk. induction sortedKeys as [|key rest IH]; intros c o;
    cbn [genericLoop]; [reflexivity|].
  destruct (isGenericColumn key && (c <? List.length columnOrder)%nat)
    eqn:E; [|apply IH].
  rewrite IH. destruct (negb (isBlank (get row key))); [|reflexivity].
  apply andb_true_iff in E as [_ E]. apply Nat.ltb_lt in E.
  apply get_set_other. intros ->. apply Hk. now apply nth_In.
Qed.

Lemma get_genericLoop (i : nat) (field : jsstring)
    (sortedKeys : list jsstring) :
  nth_error columnOrder i = Some field ->
  forall colIndex o,
    get (genericLoop row sortedKeys colIndex o) field
    = if (i <? colIndex)%nat then get o field
      else
        match nth_error (filter isGenericColumn sortedKeys)
                (i - colIndex) with
        | Some key =>
            if isBlank (get row key) then get o field
            else normalizeValue field (get row key)
        | None => get o field
        end.
Proof.
  intros Hi. destruct (columnOrder_nth i field Hi) as [Hlt Hnth].
  assert (Hother : forall c, (c < List.length columnOrder)%nat -> c <> i ->
                             nth c columnOrder [] <> field).
  { intros c Hc Hci Heq. apply Hci.
    apply (proj1 (NoDup_nth columnOrder []) columnOrder_NoDup);
      try assumption. congruence. }
  induction sortedKeys as [|key rest IH]; intros c o; cbn [genericLoop].
  - cbn [filter]. destruct (i <? c)%nat; [reflexivity|].
    now destruct (i - c)%nat.
  - destruct (isGenericColumn key) eqn:Eg; cbn [filter andb];
      rewrite ?Eg.
    + destruct (c <? List.length columnOrder)%nat eqn:Ec.
      * apply Nat.ltb_lt in Ec. rewrite IH.
        destruct (Nat.eq_dec c i) as [->|Hci].
        -- replace (i <? S i)%nat with true
             by (symmetry; apply Nat.ltb_lt; lia).
           rewrite Nat.ltb_irrefl, Nat.sub_diag. cbn [nth_error].
           rewrite Hnth.
           destruct (isBlank (get row key)); cbn [negb];
             [reflexivity|apply get_set_same].
        -- assert (Hget : get (if negb (isBlank (get row key))
                               then set o (nth c columnOrder [])
                                      (normalizeValue (nth c columnOrder [])
                                         (get row key))
                               else o) field = get o field).
           { destruct (negb (isBlank (get row key))); [|reflexivity].
             apply get_set_other. intros Heq. symmetry in Heq.
             now apply (Hother c Ec Hci). }
           rewrite Hget.
           destruct (i <? c)%nat eqn:Eic.
           ++ apply Nat.ltb_lt in Eic.
              replace (i <? S c)%nat with true
                by (symmetry; apply Nat.ltb_lt; lia).
              reflexivity.
           ++ apply Nat.ltb_ge in Eic.
              replace (i <? S c)%nat with false
                by (symmetry; apply Nat.ltb_ge; lia).
              replace (i - c)%nat with (S (i - S c)) by lia.
              reflexivity.
      * apply Nat.ltb_ge in Ec. rewrite IH.
        replace (i <? c)%nat with true
          by (symmetry; apply Nat.ltb_lt; lia).
        reflexivity.
    + apply IH.
Qed.

End GenericColumns.

(** X9. When some key of a row is a column letter, the populated columns
    go by position: the i-th column letter, in the order of the sorted
    keys, fills the i-th of the fourteen fields, unless its cell is
    blank; further column letters and every key that is no column letter
    are dropped. The house number apart, this is the row that
    [normalizeRowData] returns. *)
Theorem generic_columns_by_position :
  forall (now : Z) (row : obj) (dataType : jsstring),
    existsb ExcelImporter.isGenericColumn (keys row) = true ->
    (forall i field,
       nth_error ExcelImporter.columnOrder i = Some field ->
       get (ExcelImporter.assignFields now row dataType) field
       = match nth_error (genericKeys row) i with
         | Some key =>
             if ExcelImporter.isBlank (get row key) then VUndefined
             else ExcelImporter.normalizeValue field (get row key)
         | None => VUndefined
         end) /\
    (forall k,
       ~ In k ExcelImporter.columnOrder ->
       get (ExcelImporter.normalizeRowData now row dataType) k
       = get (ExcelImporter.initialRow now dataType) k) /\
    (forall k,
       k <> js "indirizzo" -> k <> js "civico" ->
       get (ExcelImporter.normalizeRowData now row dataType) k
       = get (ExcelImporter.assignFields now row dataType) k).
Proof.
  intros now row dataType Hgen.
  assert (Hassign : ExcelImporter.assignFields now row dataType
                    = ExcelImporter.genericLoop row
                        (sort_strings (keys row)) 0
                        (ExcelImporter.initialRow now dataType))
    by (unfold ExcelImporter.assignFields; now rewrite Hgen).
  split; [|split].
  - intros i field Hi. rewrite Hassign.
    rewrite (get_genericLoop row i field _ Hi).
    cbn [Nat.ltb Nat.leb]. rewrite Nat.sub_0_r. fold (genericKeys row).
    assert (Hinit : get (ExcelImporter.initialRow now dataType) field
                    = VUndefined).
    { assert (Hin : In field ExcelImporter.columnOrder)
        by (eapply nth_error_In; eassumption).
      destruct (columnOrder_not_reserved field Hin) as (H1 & H2 & H3).
      unfold ExcelImporter.initialRow. simpl.
      apply str_eqb_neq in H1, H2, H3. now rewrite H1, H3, H2. }
    rewrite Hinit.
    destruct (nth_error (genericKeys row) i); [|reflexivity].
    now destruct (ExcelImporter.isBlank _).
  - intros k Hk. unfold ExcelImporter.normalizeRowData.
    rewrite get_extractCivico_other.
    + rewrite Hassign. now apply get_genericLoop_other.
    + intros ->. apply Hk. vm_compute. tauto.
    + intros ->. apply Hk. vm_compute. tauto.
  - intros k H1 H2. unfold ExcelImporter.normalizeRowData.
    now apply get_extractCivico_other.
Qed.

(** X9 at a row of column letters A, B and AA with a stray header: AA
    sorts before B, so its cell becomes the azienda and that of B the
    indirizzo, and the header is dropped. *)
Lemma generic_columns_by_position_witness :
  genericKeys lettersRow = [js "A"; js "AA"; js "B"] /\
  get (ExcelImporter.assignFields 0 lettersRow (js "clienti"))
      (js "azienda") = VStr (js "Via Roma 1") /\
  get (ExcelImporter.normalizeRowData 0 lettersRow (js "clienti"))
      (js "Nome") = VUndefined.
Proof.
  destruct (generic_columns_by_position 0 lettersRow (js "clienti")
              eq_refl) as (Hpos & Hother & _).
  split; [reflexivity|]. split.
  - exact (Hpos 1%nat (js "azienda") eq_refl).
  - apply Hother. vm_compute. intuition discriminate.
Defined.

(* ================================================================== *)
(** ** What the merge keeps *)

Section MergeInvariants.
Import ImportExcel.

Variable lower : jsstring -> jsstring.
Variable clk : clock.

Lemma mergeStep_cases (st st' : mergeState) (x : obj) :
  mergeStep lower clk st x = inr st' ->
  (exists i,
     (i < List.length (updatedData st))%nat /\
     sameNameAndCompany lower x (nth i (updatedData st) []) = inr true /\
     updatedData st'
       = update_nth i
           (mergedRecord (clk (ticks st)) (nth i (updatedData st) []) x)
           (updatedData st) /\
     newRecords st' = newRecords st /\
     updatedRecords st' = S (updatedRecords st) /\
     ticks st' = S (ticks st)) \/
  (Forall (fun item => sameNameAndCompany lower x item = inr false)
     (updatedData st) /\
   updatedData st'
     = updatedData st
       ++ [createdRecord
             (clk (ticks st) + Z.of_nat (List.length (updatedData st))
              + Z.of_nat (newRecords st))
             (clk (S (ticks st))) x] /\
   newRecords st' = S (newRecords st) /\
   updatedRecords st' = updatedRecords st /\
   ticks st' = S (S (ticks st))).
Proof.
  unfold mergeStep.
  destruct (findIndex (sameNameAndCompany lower x) (updatedData st) 0)
    as [e|[i|]] eqn:E; cbn [bind]; [discriminate| |].
  - intros H. injection H as <-. left. exists i.
    apply findIndex_Some in E as (j & Hj0 & Hj & Hp & _).
    simpl in Hj0. subst j. cbn. auto 10.
  - intros H. injection H as <-. right.
    apply findIndex_None in E. cbn. auto.
Qed.

Lemma mergedRecord_id (now : Z) (existing x : obj) :
  get (mergedRecord now existing x) (js "id") = get existing (js "id").
Proof.
  unfold mergedRecord. rewrite !get_set_other by discriminate.
  apply get_set_same.
Qed.

Lemma mergedRecord_eliminato (now : Z) (existing x : obj) :
  get (mergedRecord now existing x) (js "eliminato")
  = js_or (get existing (js "eliminato")) (VBool false).
Proof.
  unfold mergedRecord. rewrite get_set_other by discriminate.
  apply get_set_same.
Qed.

Lemma createdRecord_id (newId now : Z) (x : obj) :
  get (createdRecord newId now x) (js "id") = VNum newId.
Proof.
  unfold createdRecord. rewrite !get_set_other by discriminate.
  apply get_set_same.
Qed.

Lemma createdRecord_eliminato (newId now : Z) (x : obj) :
  get (createdRecord newId now x) (js "eliminato") = VBool false.
Proof.
  unfold createdRecord. rewrite get_set_other by discriminate.
  apply get_set_same.
Qed.

Lemma Forall_update_nth {A : Type} (P : A -> Prop) (i : nat) (x : A)
    (l : list A) :
  Forall P l -> P x -> Forall P (update_nth i x l).
Proof.
  intros Hl Hx. revert i. induction Hl as [|y l Hy Hl IH]; intros [|i];
    simpl; constructor; auto.
Qed.

(** The counts, and the length of the array. *)
Lemma mergeLoop_counts (imported : list obj) :
  forall st st',
    mergeLoop lower clk st imported = inr st' ->
    (newRecords st' + updatedRecords st'
     = newRecords st + updatedRecords st + List.length imported)%nat /\
    (List.length (updatedData st') + newRecords st
     = List.length (updatedData st) + newRecords st')%nat /\
    (newRecords st <= newRecords st')%nat /\
    (ticks st' + updatedRecords st + 2 * newRecords st
     = ticks st + updatedRecords st' + 2 * newRecords st')%nat.
Proof.
  induction imported as [|x rest IH]; intros st st' H; simpl in H.
  - injection H as <-. simpl. lia.
  - destruct (mergeStep lower clk st x) as [e|st1] eqn:E; [discriminate|].
    cbn [bind] in H. apply IH in H.
    apply mergeStep_cases in E
      as [(i & Hi & _ & Hud & Hn & Hu & Ht)|(_ & Hud & Hn & Hu & Ht)].
    + assert (Hlen : List.length (updatedData st1)
                     = List.length (updatedData st))
        by (rewrite Hud; apply length_update_nth).
      simpl. lia.
    + assert (Hlen : List.length (updatedData st1)
                     = S (List.length (updatedData st)))
        by (rewrite Hud, length_app; simpl; lia).
      simpl. lia.
Qed.

(** No deleted record comes in. *)
Lemma mergeLoop_no_deleted (imported : list obj) :
  forall st st',
    mergeLoop lower clk st imported = inr st' ->
    Forall (fun r => isDeleted r = false) (updatedData st) ->
    Forall (fun r => isDeleted r = false) (updatedData st').
Proof.
  induction imported as [|x rest IH]; intros st st' H Hst; simpl in H.
  - now injection H as <-.
  - destruct (mergeStep lower clk st x) as [e|st1] eqn:E; [discriminate|].
    cbn [bind] in H. apply (IH st1 st' H).
    apply mergeStep_cases in E
      as [(i & Hi & _ & Hud & _)|(_ & Hud & _)]; rewrite Hud.
    + apply Forall_update_nth; [assumption|].
      unfold isDeleted. rewrite mergedRecord_eliminato.
      assert (Hex : isDeleted (nth i (updatedData st) []) = false).
      { rewrite Forall_forall in Hst. apply Hst. now apply nth_In. }
      unfold isDeleted in Hex. unfold js_or. now rewrite Hex.
    + apply Forall_app. split; [assumption|].
      constructor; [|constructor].
      unfold isDeleted. now rewrite createdRecord_eliminato.
Qed.

Lemma StronglySorted_snoc (zs : list Z) (z : Z) :
  StronglySorted Z.lt zs -> Forall (fun a => (a < z)%Z) zs ->
  StronglySorted Z.lt (zs ++ [z]).
Proof.
  induction 1 as [|a zs Hs IH Ha]; intros Hz; simpl.
  - repeat constructor.
  - inversion Hz as [|? ? Haz Hzs]; subst. constructor; [auto|].
    apply Forall_app. split; [assumption|]. now repeat constructor.
Qed.

(** The identifiers: those of the array at the start stay in place, and
    each record put in gets a number; with a clock that does not go
    backwards these numbers grow strictly. *)
Lemma mergeLoop_ids (imported : list obj) :
  forall st st',
    mergeLoop lower clk st imported = inr st' ->
    exists zs,
      idsOf (updatedData st') = idsOf (updatedData st) ++ map VNum zs /\
      (List.length zs + newRecords st = newRecords st')%nat /\
      (monotone clk ->
       StronglySorted Z.lt zs /\
       Forall (fun a =>
                 (clk (ticks st) + Z.of_nat (List.length (updatedData st))
                  + Z.of_nat (newRecords st) <= a)%Z) zs).
Proof.
  induction imported as [|x rest IH]; intros st st' H; simpl in H.
  - injection H as <-. exists []. simpl. rewrite app_nil_r.
    repeat split; constructor.
  - destruct (mergeStep lower clk st x) as [e|st1] eqn:E; [discriminate|].
    cbn [bind] in H. apply IH in H as (zs & Hids & Hlen & Hmono).
    apply mergeStep_cases in E
      as [(i & Hi & _ & Hud & Hn & Hu & Ht)|(_ & Hud & Hn & Hu & Ht)].
    + exists zs.
      assert (Hsame : idsOf (updatedData st1) = idsOf (updatedData st)).
      { rewrite Hud. unfold idsOf.
        apply map_update_nth with (d := []); [assumption|].
        apply mergedRecord_id. }
      assert (Hl : List.length (updatedData st1)
                   = List.length (updatedData st))
        by (rewrite Hud; apply length_update_nth).
      rewrite Hids, Hsame. split; [reflexivity|]. split; [lia|].
      intros Hm. destruct (Hmono Hm) as [Hs Hb]. split; [assumption|].
      eapply Forall_impl; [|exact Hb]. cbv beta. intros a Ha.
      rewrite Hl, Hn, Ht in Ha.
      pose proof (Hm (ticks st) (S (ticks st))). lia.
    + set (nid := (clk (ticks st)
                   + Z.of_nat (List.length (updatedData st))
                   + Z.of_nat (newRecords st))%Z) in *.
      exists (nid :: zs).
      assert (Hl : List.length (updatedData st1)
                   = S (List.length (updatedData st)))
        by (rewrite Hud, length_app; simpl; lia).
      split; [|split].
      * rewrite Hids, Hud. unfold idsOf. rewrite map_app. simpl.
        rewrite createdRecord_id. now rewrite <- app_assoc.
      * simpl. lia.
      * intros Hm. destruct (Hmono Hm) as [Hs Hb].
        assert (Hgt : Forall (fun a => (nid < a)%Z) zs).
        { eapply Forall_impl; [|exact Hb]. cbv beta. intros a Ha.
          rewrite Hl, Hn, Ht in Ha.
          pose proof (Hm (ticks st) (S (S (ticks st)))). lia. }
        split.
        -- constructor; assumption.
        -- constructor; [lia|].
           eapply Forall_impl; [|exact Hgt]. cbv beta. lia.
Qed.



End MergeInvariants.

(** X10. When the merge succeeds, every imported record is counted once,
    as new or as updated; the record set grows by the number of new
    records; the clock is read once for each update and twice for each
    new record. *)
Theorem merge_counts :
  forall (lower : jsstring -> jsstring) (clk : clock)
         (currentData imported : list obj)
         (st : ImportExcel.mergeState),
    ImportExcel.merge lower clk currentData imported = inr st ->
    (ImportExcel.newRecords st + ImportExcel.updatedRecords st
     = List.length imported)%nat /\
    (List.length (ImportExcel.updatedData st)
     = List.length currentData + ImportExcel.newRecords st)%nat /\
    (ImportExcel.ticks st
     = ImportExcel.updatedRecords st + 2 * ImportExcel.newRecords st)%nat.
Proof.
  intros lower clk currentData imported st H.
  apply mergeLoop_counts in H. cbn in H. lia.
Qed.

(** X10 at the merge scenario. *)
Lemma merge_counts_witness :
  exists st,
    ImportExcel.merge toLowerCase sampleClock scenarioCurrent scenarioImport = inr st /\
    (ImportExcel.newRecords st + ImportExcel.updatedRecords st = 1)%nat.
Proof.
  eexists. split; [vm_compute; reflexivity|].
  refine (proj1 (merge_counts toLowerCase sampleClock scenarioCurrent scenarioImport
                   _ _)).
  vm_compute. reflexivity.
Defined.

(** X11. When the merge succeeds, the identifiers of the current records
    are where they were, and after them come the identifiers of the new
    records, one number each; with a clock that does not go backwards
    these numbers grow strictly, so no two new records share one. *)
Theorem merge_ids :
  forall (lower : jsstring -> jsstring) (clk : clock)
         (currentData imported : list obj)
         (st : ImportExcel.mergeState),
    ImportExcel.merge lower clk currentData imported = inr st ->
    exists zs,
      idsOf (ImportExcel.updatedData st)
        = idsOf currentData ++ map VNum zs /\
      List.length zs = ImportExcel.newRecords st /\
      (monotone clk -> StronglySorted Z.lt zs).
Proof.
  intros lower clk currentData imported st H.
  apply mergeLoop_ids in H as (zs & Hids & Hlen & Hmono). cbn in *.
  exists zs. split; [assumption|]. split; [lia|].
  intros Hm. now apply Hmono.
Qed.

(** X11 at a merge that inserts the one-record batch without azienda. *)
Lemma merge_ids_witness :
  exists st zs,
    ImportExcel.merge toLowerCase sampleClock scenarioCurrent batchWithoutAzienda
      = inr st /\
    idsOf (ImportExcel.updatedData st)
      = idsOf scenarioCurrent ++ map VNum zs /\
    List.length zs = ImportExcel.newRecords st.
Proof.
  assert (H : ImportExcel.merge toLowerCase sampleClock scenarioCurrent
                batchWithoutAzienda
              = inr {| ImportExcel.updatedData :=
                         scenarioCurrent
                         ++ [ImportExcel.createdRecord 1001 1001
                               (hd [] batchWithoutAzienda)];
                       ImportExcel.newRecords := 1;
                       ImportExcel.updatedRecords := 0;
                       ImportExcel.ticks := 2 |})
    by (vm_compute; reflexivity).
  destruct (merge_ids _ _ _ _ _ H) as (zs & Hids & Hlen & _).
  eexists. exists zs. split; [exact H|]. split; assumption.
Defined.

(** X12. The merge brings in no deleted record: when it succeeds on
    current data from which the deleted records were left out, no record
    of the result is deleted, so the result that the handler saves and
    the result that it returns are the same. *)
Theorem merge_no_deleted :
  forall (lower : jsstring -> jsstring) (clk : clock)
         (currentData imported : list obj)
         (st : ImportExcel.mergeState),
    ImportExcel.merge lower clk (ImportExcel.excludeDeleted currentData) imported
      = inr st ->
    Forall (fun r => isDeleted r = false) (ImportExcel.updatedData st) /\
    ImportExcel.excludeDeleted (ImportExcel.updatedData st)
      = ImportExcel.updatedData st.
Proof.
  intros lower clk currentData imported st H.
  assert (Hall : Forall (fun r => isDeleted r = false)
                   (ImportExcel.updatedData st)).
  { apply (mergeLoop_no_deleted lower clk imported _ st H). cbn.
    unfold ImportExcel.excludeDeleted. apply Forall_forall.
    intros r Hr. apply filter_In in Hr as [_ Hr].
    unfold js_not in Hr. now apply negb_true_iff in Hr. }
  split; [assumption|].
  unfold ImportExcel.excludeDeleted.
  induction Hall as [|r l Hr _ IH]; simpl; [reflexivity|].
  unfold isDeleted in Hr. unfold js_not. rewrite Hr. simpl. now f_equal.
Qed.

(** X12 at the merge scenario. *)
Lemma merge_no_deleted_witness :
  exists st,
    ImportExcel.merge toLowerCase sampleClock
      (ImportExcel.excludeDeleted scenarioCurrent) scenarioImport = inr st /\
    ImportExcel.excludeDeleted (ImportExcel.updatedData st)
      = ImportExcel.updatedData st.
Proof.
  eexists. split; [vm_compute; reflexivity|].
  refine (proj2 (merge_no_deleted toLowerCase sampleClock scenarioCurrent
                   scenarioImport _ _)).
  vm_compute. reflexivity.
Defined.



(* ================================================================== *)
(** ** The files of the data folder *)

Section Json.
Import DataManager.

Lemma toJSON_isJson (o : obj) : isJson o = true -> toJSON o = o.
Proof.
  unfold isJson. intros H. apply andb_true_iff in H as [_ H].
  unfold toJSON. induction o as [|[k v] o IH]; simpl in *; [reflexivity|].
  apply andb_true_iff in H as [Hv Ho].
  destruct v; try discriminate; simpl; now rewrite IH.
Qed.

Lemma map_toJSON_isJson (data : list obj) :
  forallb isJson data = true -> map toJSON data = data.
Proof.
  induction data as [|o data IH]; simpl; [reflexivity|].
  intros H. apply andb_true_iff in H as [Ho Hd].
  now rewrite toJSON_isJson, IH.
Qed.

Lemma has_set (o : obj) (k k' : jsstring) (v : value) :
  has (set o k v) k' = str_eqb k' k || has o k'.
Proof.
  induction o as [|[k0 v0] o IH]; simpl.
  - now rewrite orb_false_r.
  - destruct (str_eqb k k0) eqn:E; simpl.
    + apply str_eqb_eq in E. subst k0.
      destruct (str_eqb k' k); reflexivity.
    + rewrite IH. destruct (str_eqb k' k0), (str_eqb k' k); reflexivity.
Qed.

Lemma well_formed_set (o : obj) (k : jsstring) (v : value) :
  well_formed o = true -> well_formed (set o k v) = true.
Proof.
  induction o as [|[k0 v0] o IH]; simpl; [reflexivity|].
  intros H. apply andb_true_iff in H as [Hk Ho].
  destruct (str_eqb k k0) eqn:E; simpl.
  - now rewrite Hk, Ho.
  - rewrite has_set, IH by assumption.
    rewrite (str_eqb_sym k0 k), E. simpl. now rewrite Hk.
Qed.

Lemma json_values_set (o : obj) (k : jsstring) (v : value) :
  forallb (fun kv => jsonValue (snd kv)) o = true -> jsonValue v = true ->
  forallb (fun kv => jsonValue (snd kv)) (set o k v) = true.
Proof.
  intros Ho Hv. induction o as [|[k0 v0] o IH]; simpl in *.
  - now rewrite Hv.
  - apply andb_true_iff in Ho as [H0 Ho].
    destruct (str_eqb k k0); simpl.
    + now rewrite Hv, Ho.
    + now rewrite H0, IH.
Qed.

Lemma isJson_set (o : obj) (k : jsstring) (v : value) :
  isJson o = true -> jsonValue v = true -> isJson (set o k v) = true.
Proof.
  unfold isJson. intros H Hv. apply andb_true_iff in H as [Hw Hs].
  now rewrite well_formed_set, json_values_set.
Qed.

Lemma has_delete (o : obj) (k k' : jsstring) :
  has (delete o k) k' = negb (str_eqb k' k) && has o k'.
Proof.
  unfold delete. induction o as [|[k0 v0] o IH]; simpl.
  - now rewrite andb_false_r.
  - destruct (str_eqb k0 k) eqn:E; simpl.
    + rewrite IH. apply str_eqb_eq in E. subst k0.
      destruct (str_eqb k' k); reflexivity.
    + rewrite IH.
      destruct (str_eqb k' k0) eqn:E0; [|reflexivity].
      apply str_eqb_eq in E0. subst k0. now rewrite E.
Qed.

Lemma isJson_delete (o : obj) (k : jsstring) :
  isJson o = true -> isJson (delete o k) = true.
Proof.
  unfold isJson. intros H. apply andb_true_iff in H as [Hw Hs].
  apply andb_true_iff. split.
  - clear Hs. induction o as [|[k0 v0] o IH]; [reflexivity|].
    simpl in Hw. apply andb_true_iff in Hw as [Hk Ho].
    unfold delete in *. simpl.
    destruct (str_eqb k0 k) eqn:E; simpl; [auto|].
    fold (delete o k). rewrite has_delete.
    apply negb_true_iff in Hk. rewrite Hk, andb_false_r. simpl. auto.
  - unfold delete. clear Hw. induction o as [|[k0 v0] o IH];
      [reflexivity|].
    simpl in *. apply andb_true_iff in Hs as [H0 Hs].
    destruct (str_eqb k0 k); simpl; [auto|]. now rewrite H0, IH.
Qed.

Lemma get_delete (o : obj) (k k' : jsstring) :
  get (delete o k) k' = if str_eqb k' k then VUndefined else get o k'.
Proof.
  unfold delete. induction o as [|[k0 v0] o IH]; simpl.
  - now destruct (str_eqb k' k).
  - destruct (str_eqb k0 k) eqn:E; simpl.
    + rewrite IH. apply str_eqb_eq in E. subst k0.
      now destruct (str_eqb k' k).
    + rewrite IH. destruct (str_eqb k' k0) eqn:E0; [|reflexivity].
      apply str_eqb_eq in E0. subst k0. now rewrite E.
Qed.

Lemma set_absent (o : obj) (k : jsstring) (v : value) :
  has o k = false -> set o k v = o ++ [(k, v)].
Proof.
  induction o as [|[k0 v0] o IH]; simpl; [reflexivity|].
  intros H. apply orb_false_iff in H as [H0 Ho].
  rewrite H0. now rewrite IH.
Qed.

Lemma has_app (a b : obj) (k : jsstring) :
  has (a ++ b) k = has a k || has b k.
Proof.
  induction a as [|[k0 v0] a IH]; simpl; [reflexivity|].
  now rewrite IH, orb_assoc.
Qed.

Lemma spread_well_formed (o : obj) :
  forall a,
    well_formed o = true ->
    (forall k, has o k = true -> has a k = false) ->
    spread a o = a ++ o.
Proof.
  unfold spread. induction o as [|[k v] o IH]; intros a Hw Hd; simpl.
  - now rewrite app_nil_r.
  - simpl in Hw. apply andb_true_iff in Hw as [Hk Ho].
    apply negb_true_iff in Hk.
    rewrite set_absent
      by (apply Hd; simpl; now rewrite str_eqb_refl).
    rewrite IH; [now rewrite <- app_assoc|assumption|].
    intros k' Hk'. rewrite has_app. simpl. rewrite orb_false_r.
    rewrite Hd by (simpl; rewrite Hk'; apply orb_true_r).
    simpl. apply str_eqb_neq. intros ->. congruence.
Qed.

Lemma spread_nil (o : obj) : well_formed o = true -> spread [] o = o.
Proof.
  intros H. now apply (spread_well_formed o []).
Qed.

End Json.

Section Folder.
Import DataManager.

Lemma loadData_write_same (d : disk) (dataType : value) (l : list obj)
    (includeEliminati : bool) :
  loadData (write d (fileName dataType) (Records l)) dataType
    includeEliminati
  = LoadOk (visible dataType includeEliminati l).
Proof.
  unfold loadData, write. cbn [files]. now rewrite str_eqb_refl.
Qed.

Lemma loadData_write_other (d : disk) (name : jsstring) (c : content)
    (other : value) (includeEliminati : bool) :
  fileName other <> name ->
  loadData (write d name c) other includeEliminati
  = loadData d other includeEliminati.
Proof.
  intros H. unfold loadData, write. cbn [files].
  apply str_eqb_neq in H. now rewrite H.
Qed.

Lemma saveData_written (d : disk) (dataType : value) (data : list obj) :
  writeError d (fileName dataType) = None ->
  saveData d dataType data
  = (write d (fileName dataType) (Records (map toJSON data)), Ok).
Proof. unfold saveData. now intros ->. Qed.

Lemma saveData_refused (d : disk) (dataType : value) (data : list obj)
    (e : exn) :
  writeError d (fileName dataType) = Some e ->
  saveData d dataType data = (d, Failed (message e)).
Proof. unfold saveData. now intros ->. Qed.

Lemma visible_all (dataType : value) (l : list obj) :
  visible dataType true l = l.
Proof. reflexivity. Qed.

Lemma indexOfId_Some (id : value) (data : list obj) (i : nat) :
  indexOfId id data = Some i ->
  (i < List.length data)%nat /\
  strict_eq (get (nth i data []) (js "id")) id = true.
Proof.
  revert i. induction data as [|item rest IH]; intros i H; simpl in H.
  - discriminate.
  - destruct (strict_eq (get item (js "id")) id) eqn:E.
    + injection H as <-. simpl. split; [lia|assumption].
    + destruct (indexOfId id rest) as [j|]; [|discriminate].
      injection H as <-. destruct (IH j eq_refl) as [Hj Hs].
      simpl. split; [lia|assumption].
Qed.

Lemma indexOfId_None (id : value) (data : list obj) :
  indexOfId id data = None <->
  Forall (fun item => strict_eq (get item (js "id")) id = false) data.
Proof.
  induction data as [|item rest IH]; simpl.
  - split; [constructor|reflexivity].
  - destruct (strict_eq (get item (js "id")) id) eqn:E.
    + split; [discriminate|]. intros H. inversion H; congruence.
    + destruct (indexOfId id rest) as [j|]; simpl.
      * split; [discriminate|]. intros H. inversion H as [|? ? _ Hr].
        apply IH in Hr. discriminate.
      * split; [|reflexivity]. intros _. constructor; [assumption|].
        now apply IH.
Qed.

Lemma indexOfId_ids (id : value) (data data' : list obj) :
  idsOf data = idsOf data' -> indexOfId id data = indexOfId id data'.
Proof.
  revert data'. induction data as [|item rest IH]; intros [|item' rest'] H;
    try discriminate; [reflexivity|].
  simpl in H. injection H as Hid Hrest. simpl. rewrite Hid.
  now rewrite (IH rest').
Qed.

Lemma indexOfId_last (id : value) (l : list obj) (r : obj) :
  indexOfId id l = None ->
  strict_eq (get r (js "id")) id = true ->
  indexOfId id (l ++ [r]) = Some (List.length l).
Proof.
  intros Hl Hr. induction l as [|item rest IH]; simpl in *.
  - now rewrite Hr.
  - destruct (strict_eq (get item (js "id")) id); [discriminate|].
    destruct (indexOfId id rest); [discriminate|].
    now rewrite IH.
Qed.

Lemma splice1_last {A : Type} (l : list A) (x : A) :
  splice1 (List.length l) (l ++ [x]) = l.
Proof. induction l as [|y l IH]; simpl; [reflexivity|now rewrite IH]. Qed.

Lemma update_nth_twice {A : Type} (i : nat) (x y : A) (l : list A) :
  update_nth i y (update_nth i x l) = update_nth i y l.
Proof.
  revert i. induction l as [|z l IH]; intros [|i]; simpl; auto.
  now rewrite IH.
Qed.

Lemma update_nth_same {A : Type} (i : nat) (d : A) (l : list A) :
  (i < List.length l)%nat -> update_nth i (nth i l d) l = l.
Proof.
  revert i. induction l as [|z l IH]; intros [|i] H; simpl in *;
    try lia; [reflexivity|]. rewrite IH; [reflexivity|lia].
Qed.

Lemma forallb_update_nth {A : Type} (f : A -> bool) (i : nat) (x : A)
    (l : list A) :
  forallb f l = true -> f x = true -> forallb f (update_nth i x l) = true.
Proof.
  revert i. induction l as [|z l IH]; intros [|i] Hl Hx; simpl in *;
    try reflexivity; apply andb_true_iff in Hl as [Hz Hl].
  - now rewrite Hx, Hl.
  - now rewrite Hz, IH.
Qed.

Lemma forallb_nth {A : Type} (f : A -> bool) (i : nat) (d : A)
    (l : list A) :
  forallb f l = true -> (i < List.length l)%nat -> f (nth i l d) = true.
Proof.
  intros Hl Hi. rewrite forallb_forall in Hl. apply Hl. now apply nth_In.
Qed.

Lemma isJson_flagged (now : Z) (r : obj) :
  isJson r = true -> isJson (flagged now r) = true.
Proof.
  intros H. unfold flagged. repeat apply isJson_set; auto.
Qed.

Lemma isJson_well_formed (o : obj) : isJson o = true -> well_formed o = true.
Proof. unfold isJson. intros H. now apply andb_true_iff in H. Qed.

Lemma isJson_restored (r : obj) :
  isJson r = true -> isJson (restored r) = true.
Proof.
  intros H. unfold restored. apply isJson_delete.
  rewrite spread_nil by now apply isJson_well_formed.
  now apply isJson_set.
Qed.

Lemma get_flagged (now : Z) (r : obj) (k : jsstring) :
  get (flagged now r) k
  = if str_eqb k (js "eliminatoIl") then VNum now
    else if str_eqb k (js "eliminato") then VBool true
    else get r k.
Proof. unfold flagged. now rewrite !get_set. Qed.

Lemma get_restored (r : obj) (k : jsstring) :
  well_formed r = true ->
  get (restored r) k
  = if str_eqb k (js "eliminatoIl") then VUndefined
    else if str_eqb k (js "eliminato") then VBool false
    else get r k.
Proof.
  intros H. unfold restored.
  now rewrite get_delete, get_set, spread_nil.
Qed.

Lemma set_back (o : obj) (k : jsstring) (v v' : value) :
  has o k = true -> get o k = v -> set (set o k v') k v = o.
Proof.
  induction o as [|[k0 v0] o IH]; simpl; [discriminate|].
  destruct (str_eqb k k0) eqn:E.
  - intros _ <-. simpl. rewrite E. apply str_eqb_eq in E. now subst.
  - simpl. rewrite E. intros Ho Hg. now rewrite IH.
Qed.

Lemma set_app_left (o : obj) (k k' : jsstring) (v v' : value) :
  has o k = true -> set (o ++ [(k', v')]) k v = set o k v ++ [(k', v')].
Proof.
  induction o as [|[k0 v0] o IH]; simpl; [discriminate|].
  destruct (str_eqb k k0) eqn:E; [reflexivity|].
  simpl. intros H. now rewrite IH.
Qed.

Lemma delete_absent (o : obj) (k : jsstring) :
  has o k = false -> delete o k = o.
Proof.
  unfold delete. induction o as [|[k0 v0] o IH]; simpl; [reflexivity|].
  intros H. apply orb_false_iff in H as [H0 Ho].
  rewrite (str_eqb_sym k0 k), H0. simpl. now rewrite IH.
Qed.

Lemma delete_last (o : obj) (k : jsstring) (v : value) :
  has o k = false -> delete (o ++ [(k, v)]) k = o.
Proof.
  intros H. unfold delete. rewrite filter_app. simpl.
  rewrite str_eqb_refl. simpl. rewrite app_nil_r.
  now apply delete_absent.
Qed.

(** Flagging and restoring a record that was not deleted gives it back. *)
Lemma restored_flagged (now : Z) (r : obj) :
  well_formed r = true ->
  get r (js "eliminato") = VBool false ->
  has r (js "eliminatoIl") = false ->
  restored (flagged now r) = r.
Proof.
  intros Hw He Hil.
  assert (Hhas : has r (js "eliminato") = true).
  { destruct (has r (js "eliminato")) eqn:E; [reflexivity|].
    apply get_absent in E. congruence. }
  unfold restored, flagged.
  rewrite spread_nil by (repeat apply well_formed_set; assumption).
  rewrite (set_absent (set r (js "eliminato") (VBool true)))
    by (rewrite has_set, Hil; reflexivity).
  rewrite set_app_left by (rewrite has_set; reflexivity).
  rewrite set_back by assumption.
  now apply delete_last.
Qed.

End Folder.

Section DataFolder.
Import DataManager.

Lemma indexOfId_found (id : value) (data : list obj) :
  (exists i, indexOfId id data = Some i) <->
  Exists (fun item => strict_eq (get item (js "id")) id = true) data.
Proof.
  split.
  - intros [i H]. apply indexOfId_Some in H as [Hlt Hs].
    apply Exists_exists. exists (nth i data []). split; [|assumption].
    now apply nth_In.
  - intros H. destruct (indexOfId id data) as [i|] eqn:E; [eauto|].
    apply indexOfId_None in E. rewrite Forall_forall in E.
    apply Exists_exists in H as (item & Hin & Hs).
    rewrite (E item Hin) in Hs. discriminate.
Qed.

Lemma fileName_differs (dataType : value) (name : jsstring) :
  fileName dataType <> fileName (VStr name) ->
  strict_eq dataType (VStr name) = false.
Proof.
  intros H. destruct (strict_eq dataType (VStr name)) eqn:E;
    [|reflexivity].
  destruct dataType; simpl in E; try discriminate.
  apply str_eqb_eq in E. subst. now contradiction H.
Qed.

Lemma filter_update_nth_out {A : Type} (f : A -> bool) (i : nat) (x : A)
    (l : list A) :
  f x = false -> (i < List.length l)%nat ->
  filter f (update_nth i x l) = filter f (splice1 i l).
Proof.
  intros Hx. revert i. induction l as [|y l IH]; intros [|i] Hi;
    simpl in *; try lia.
  - now rewrite Hx.
  - rewrite IH by lia. reflexivity.
Qed.

Lemma forallb_app_last {A : Type} (f : A -> bool) (l : list A) (x : A) :
  forallb f l = true -> f x = true -> forallb f (l ++ [x]) = true.
Proof.
  intros Hl Hx. rewrite forallb_app, Hl. simpl. now rewrite Hx.
Qed.

Lemma idsOf_update_nth (i : nat) (x : obj) (l : list obj) :
  get x (js "id") = get (nth i l []) (js "id") ->
  idsOf (update_nth i x l) = idsOf l.
Proof.
  revert i. induction l as [|y l IH]; intros [|i] H; simpl in *;
    try reflexivity.
  - now rewrite H.
  - unfold idsOf in IH. now rewrite IH.
Qed.

Lemma nth_last {A : Type} (l : list A) (x d : A) :
  nth (List.length l) (l ++ [x]) d = x.
Proof. induction l as [|y l IH]; simpl; auto. Qed.

(** X14. What is saved is what is loaded: where the file can be written,
    [saveData] succeeds and [loadData] with the deleted records included
    then gives the records as JSON keeps them (undefined properties
    dropped, dates as ISO strings), which are the saved records
    themselves when they came from JSON; the other files of the folder
    read as before. *)
Theorem save_then_load :
  forall (d : disk) (dataType : value) (data : list obj),
    writeError d (fileName dataType) = None ->
    exists d',
      saveData d dataType data = (d', Ok) /\
      loadData d' dataType true = LoadOk (map toJSON data) /\
      (forallb isJson data = true ->
       loadData d' dataType true = LoadOk data) /\
      (strict_eq dataType (VStr (js "eliminati")) = false ->
       loadData d' dataType false
       = LoadOk (ImportExcel.excludeDeleted (map toJSON data))) /\
      (forall other includeEliminati,
         fileName other <> fileName dataType ->
         loadData d' other includeEliminati
         = loadData d other includeEliminati).
Proof.
  intros d dataType data Hw.
  exists (write d (fileName dataType) (Records (map toJSON data))).
  split; [now apply saveData_written|].
  split; [apply loadData_write_same|].
  split.
  - intros Hj. rewrite loadData_write_same.
    now rewrite map_toJSON_isJson.
  - split.
    + intros Hne. rewrite loadData_write_same. unfold visible.
      now rewrite Hne.
    + intros other inc Hother. now apply loadData_write_other.
Qed.

(** X14 on the sample folder. *)
Lemma save_then_load_witness :
  exists d',
    saveData sampleDisk (VStr (js "partner")) [sampleClient 7 "Ugo" false]
      = (d', Ok) /\
    loadData d' (VStr (js "partner")) true
      = LoadOk [sampleClient 7 "Ugo" false] /\
    loadData d' (VStr (js "clienti")) true
      = loadData sampleDisk (VStr (js "clienti")) true.
Proof.
  destruct (save_then_load sampleDisk (VStr (js "partner"))
              [sampleClient 7 "Ugo" false] eq_refl)
    as (d' & Hs & _ & Hl & _ & Ho).
  exists d'. split; [exact Hs|]. split.
  - apply Hl. vm_compute. reflexivity.
  - apply Ho. intros H. vm_compute in H. discriminate H.
Defined.

(** X15. A record is moved or restored exactly when it is found:
    [moveToEliminati] reports success exactly when the collection can be
    read and holds a record whose id is strictly equal to the given one
    (the string of a numeric id does not match), and
    [restoreFromEliminati] exactly when the deleted records' file does;
    when they report a failure the folder is as before. *)
Theorem move_and_restore_need_the_record :
  forall (d : disk) (now : Z) (dataType id : value),
    (snd (moveToEliminati d now dataType id) = Ok <->
     exists data,
       loadData d dataType true = LoadOk data /\
       Exists (fun item => strict_eq (get item (js "id")) id = true) data) /\
    (snd (moveToEliminati d now dataType id) <> Ok ->
     fst (moveToEliminati d now dataType id) = d) /\
    (snd (restoreFromEliminati d id) = Ok <->
     exists data,
       loadData d (VStr (js "eliminati")) true = LoadOk data /\
       Exists (fun item => strict_eq (get item (js "id")) id = true) data) /\
    (snd (restoreFromEliminati d id) <> Ok ->
     fst (restoreFromEliminati d id) = d).
Proof.
  intros d now dataType id. unfold moveToEliminati, restoreFromEliminati.
  repeat split.
  - destruct (loadData d dataType true) as [data|error];
      [|discriminate].
    destruct (indexOfId id data) as [i|] eqn:E; [|discriminate].
    intros _. exists data. split; [reflexivity|].
    apply indexOfId_found. eauto.
  - intros (data & -> & Hex). apply indexOfId_found in Hex as [i ->].
    reflexivity.
  - destruct (loadData d dataType true) as [data|error];
      [|reflexivity].
    destruct (indexOfId id data) as [i|]; [|reflexivity].
    intros H. now contradiction H.
  - destruct (loadData d (VStr (js "eliminati")) true) as [data|error];
      [|discriminate].
    destruct (indexOfId id data) as [i|] eqn:E; [|discriminate].
    intros _. exists data. split; [reflexivity|].
    apply indexOfId_found. eauto.
  - intros (data & -> & Hex). apply indexOfId_found in Hex as [i ->].
    reflexivity.
  - destruct (loadData d (VStr (js "eliminati")) true) as [data|error];
      [|reflexivity].
    destruct (indexOfId id data) as [i|]; [|reflexivity].
    intros H. now contradiction H.
Qed.

(** X16. What a successful [moveToEliminati] does in a folder that can
    be written to: the record found gets eliminato = true and
    eliminatoIl = the time read, its other properties staying as they
    were; the collection holds it in place, the deleted records' file
    holds a copy at its end; the default view of the collection is the
    one of the collection without that record; every other file reads as
    before. *)
Theorem moveToEliminati_effect :
  forall (d : disk) (now : Z) (dataType id : value)
         (data eliminati : list obj) (index : nat),
    writable d ->
    fileName dataType <> fileName (VStr (js "eliminati")) ->
    loadData d dataType true = LoadOk data ->
    loadData d (VStr (js "eliminati")) true = LoadOk eliminati ->
    forallb isJson data = true ->
    forallb isJson eliminati = true ->
    indexOfId id data = Some index ->
    let record := flagged now (nth index data []) in
    exists d',
      moveToEliminati d now dataType id = (d', Ok) /\
      loadData d' dataType true = LoadOk (update_nth index record data) /\
      loadData d' (VStr (js "eliminati")) true
        = LoadOk (eliminati ++ [record]) /\
      loadData d' dataType false
        = LoadOk (ImportExcel.excludeDeleted (splice1 index data)) /\
      get record (js "eliminato") = VBool true /\
      get record (js "eliminatoIl") = VNum now /\
      (forall k, k <> js "eliminato" -> k <> js "eliminatoIl" ->
         get record k = get (nth index data []) k) /\
      (forall other includeEliminati,
         fileName other <> fileName dataType ->
         fileName other <> fileName (VStr (js "eliminati")) ->
         loadData d' other includeEliminati
         = loadData d other includeEliminati).
Proof.
  intros d now dataType id data eliminati index Hw Hn Hd He Hjd Hje Hi
    record.
  destruct (indexOfId_Some _ _ _ Hi) as [Hlt Hid].
  assert (Hjr : isJson record = true)
    by (apply isJson_flagged; now apply forallb_nth).
  assert (Hmap : map toJSON (update_nth index record data)
                 = update_nth index record data)
    by (apply map_toJSON_isJson; now apply forallb_update_nth).
  assert (Hmape : map toJSON (eliminati ++ [record])
                  = eliminati ++ [record])
    by (apply map_toJSON_isJson; now apply forallb_app_last).
  assert (Hn' : fileName (VStr (js "eliminati")) <> fileName dataType)
    by (intros E; apply Hn; now symmetry).
  exists (write (write d (fileName dataType)
                   (Records (update_nth index record data)))
            (fileName (VStr (js "eliminati")))
            (Records (eliminati ++ [record]))).
  split.
  { unfold moveToEliminati. rewrite Hd, Hi. cbv zeta.
    fold record.
    rewrite (saveData_written d dataType) by apply Hw.
    cbn [fst]. rewrite Hmap.
    rewrite loadData_write_other by exact Hn'. rewrite He.
    rewrite saveData_written by apply Hw.
    cbn [fst]. now rewrite Hmape. }
  split.
  { rewrite loadData_write_other by exact Hn.
    now rewrite loadData_write_same. }
  split; [now rewrite loadData_write_same|].
  split.
  { rewrite loadData_write_other by exact Hn.
    rewrite loadData_write_same. unfold visible.
    rewrite (fileName_differs _ _ Hn). cbn [negb andb].
    unfold ImportExcel.excludeDeleted. f_equal.
    apply filter_update_nth_out; [|assumption].
    unfold record. now rewrite get_flagged. }
  split; [unfold record; now rewrite get_flagged|].
  split; [unfold record; now rewrite get_flagged|].
  split.
  { intros k Hk1 Hk2. unfold record. rewrite get_flagged.
    apply str_eqb_neq in Hk1, Hk2. now rewrite Hk1, Hk2. }
  intros other inc Ho1 Ho2.
  rewrite loadData_write_other by exact Ho2.
  now rewrite loadData_write_other by exact Ho1.
Qed.

(** X16 on the sample folder: the client 1 is moved. *)
Lemma moveToEliminati_effect_witness :
  exists d',
    moveToEliminati sampleDisk 5 (VStr (js "clienti")) (VNum 1) = (d', Ok) /\
    loadData d' (VStr (js "clienti")) false = LoadOk [].
Proof.
  destruct (moveToEliminati_effect sampleDisk 5 (VStr (js "clienti"))
              (VNum 1)
              [sampleClient 1 "Mario" false; sampleClient 2 "Anna" true]
              [sampleClient 2 "Anna" true] 0)
    as (d' & Hm & _ & _ & Hv & _).
  - intros name. reflexivity.
  - intros H. vm_compute in H. discriminate H.
  - reflexivity.
  - reflexivity.
  - vm_compute. reflexivity.
  - vm_compute. reflexivity.
  - reflexivity.
  - exists d'. split; [exact Hm|exact Hv].
Defined.

(** X17. Failed writes go unreported: [moveToEliminati] and
    [restoreFromEliminati] do not look at the results of their two
    [saveData] calls, so in a folder where no file can be written they
    report success for every record they find although the folder is as
    before, while [saveData] itself reports the failure. *)
Theorem write_failures_go_unreported :
  forall d : disk,
    (forall name, writeError d name <> None) ->
    (forall now dataType id data index,
       loadData d dataType true = LoadOk data ->
       indexOfId id data = Some index ->
       moveToEliminati d now dataType id = (d, Ok)) /\
    (forall id data index,
       loadData d (VStr (js "eliminati")) true = LoadOk data ->
       indexOfId id data = Some index ->
       restoreFromEliminati d id = (d, Ok)) /\
    (forall dataType data,
       exists error, saveData d dataType data = (d, Failed error)).
Proof.
  intros d Hro.
  assert (Hsave : forall dataType data,
            exists error, saveData d dataType data = (d, Failed error)).
  { intros dataType data. unfold saveData.
    destruct (writeError d (fileName dataType)) as [e|] eqn:E; [eauto|].
    now apply Hro in E. }
  split; [|split; [|exact Hsave]].
  - intros now dataType id data index Hd Hi.
    unfold moveToEliminati. rewrite Hd, Hi. cbv zeta.
    destruct (Hsave dataType
                (update_nth index (flagged now (nth index data [])) data))
      as [e1 ->].
    cbn [fst].
    match goal with
    | |- (fst (saveData d ?t ?l), Ok) = _ =>
        destruct (Hsave t l) as [e2 ->]
    end.
    reflexivity.
  - intros id data index Hd Hi.
    unfold restoreFromEliminati. rewrite Hd, Hi. cbv zeta.
    destruct (Hsave (VStr (js "eliminati")) (splice1 index data))
      as [e1 ->].
    cbn [fst].
    match goal with
    | |- (fst (saveData d ?t ?l), Ok) = _ =>
        destruct (Hsave t l) as [e2 ->]
    end.
    reflexivity.
Qed.

(** X17 on the sample folder when it is read-only. *)
Lemma write_failures_go_unreported_witness :
  moveToEliminati readOnlyDisk 5 (VStr (js "clienti")) (VNum 1)
    = (readOnlyDisk, Ok) /\
  restoreFromEliminati readOnlyDisk (VNum 2) = (readOnlyDisk, Ok).
Proof.
  assert (Hro : forall name, writeError readOnlyDisk name <> None)
    by (intros name; discriminate).
  destruct (write_failures_go_unreported readOnlyDisk Hro)
    as (Hm & Hr & _).
  split.
  - apply (Hm 5%Z (VStr (js "clienti")) (VNum 1)
             [sampleClient 1 "Mario" false; sampleClient 2 "Anna" true] 0%nat);
      reflexivity.
  - apply (Hr (VNum 2) [sampleClient 2 "Anna" true] 0%nat); reflexivity.
Defined.

Lemma moveToEliminati_written (d : disk) (now : Z) (dataType id : value)
    (data : list obj) (index : nat) :
  writable d ->
  loadData d dataType true = LoadOk data ->
  indexOfId id data = Some index ->
  let record := flagged now (nth index data []) in
  let d1 :=
    write d (fileName dataType)
      (Records (map toJSON (update_nth index record data))) in
  let eliminati :=
    match loadData d1 (VStr (js "eliminati")) true with
    | LoadOk e => e
    | LoadFailed _ => []
    end in
  moveToEliminati d now dataType id
  = (write d1 (fileName (VStr (js "eliminati")))
       (Records (map toJSON (eliminati ++ [record]))), Ok).
Proof.
  intros Hw Hd Hi. cbv zeta. unfold moveToEliminati. rewrite Hd, Hi.
  cbv zeta. rewrite (saveData_written d dataType) by apply Hw.
  cbn [fst]. now rewrite saveData_written by apply Hw.
Qed.

Lemma restoreFromEliminati_written (d : disk) (id : value)
    (eliminati : list obj) (index : nat) :
  writable d ->
  loadData d (VStr (js "eliminati")) true = LoadOk eliminati ->
  indexOfId id eliminati = Some index ->
  let record := restored (nth index eliminati []) in
  let d1 :=
    write d (fileName (VStr (js "eliminati")))
      (Records (map toJSON (splice1 index eliminati))) in
  let currentData :=
    match loadData d1 (get record (js "tipo")) true with
    | LoadOk c => c
    | LoadFailed _ => []
    end in
  restoreFromEliminati d id
  = (write d1 (fileName (get record (js "tipo")))
       (Records
          (map toJSON
             match indexOfId id currentData with
             | Some existingIndex =>
                 update_nth existingIndex record currentData
             | None => currentData ++ [record]
             end)), Ok).
Proof.
  intros Hw Hd Hi. cbv zeta. unfold restoreFromEliminati. rewrite Hd, Hi.
  cbv zeta. rewrite (saveData_written d (VStr (js "eliminati")))
    by apply Hw.
  cbn [fst]. now rewrite saveData_written by apply Hw.
Qed.




(** X19. Deleting and restoring is a round trip: in a folder that can
    be written to, moving a record whose tipo names its collection to
    the deleted records, where no record has its id, and restoring it by
    the same id leaves the deleted records' file as it was and the
    collection with that record carrying eliminato = false and no
    eliminatoIl, every other record untouched; the collection is exactly
    as before when the record had eliminato = false and no
    eliminatoIl. *)
Theorem move_then_restore :
  forall (d : disk) (now : Z) (dataType id : value)
         (data eliminati : list obj) (index : nat),
    writable d ->
    fileName dataType <> fileName (VStr (js "eliminati")) ->
    loadData d dataType true = LoadOk data ->
    loadData d (VStr (js "eliminati")) true = LoadOk eliminati ->
    forallb isJson data = true ->
    forallb isJson eliminati = true ->
    indexOfId id data = Some index ->
    indexOfId id eliminati = None ->
    get (nth index data []) (js "tipo") = dataType ->
    let original := nth index data [] in
    exists d1 d2,
      moveToEliminati d now dataType id = (d1, Ok) /\
      restoreFromEliminati d1 id = (d2, Ok) /\
      loadData d2 (VStr (js "eliminati")) true = LoadOk eliminati /\
      loadData d2 dataType true
        = LoadOk (update_nth index (restored (flagged now original)) data) /\
      (forall k, k <> js "eliminato" -> k <> js "eliminatoIl" ->
         get (restored (flagged now original)) k = get original k) /\
      (get original (js "eliminato") = VBool false ->
       has original (js "eliminatoIl") = false ->
       loadData d2 dataType true = LoadOk data) /\
      (forall other includeEliminati,
         fileName other <> fileName dataType ->
         fileName other <> fileName (VStr (js "eliminati")) ->
         loadData d2 other includeEliminati
         = loadData d other includeEliminati).
Proof.
  intros d now dataType id data eliminati index Hw Hn Hd He Hjd Hje Hi
    Hnone Htipo original.
  destruct (indexOfId_Some _ _ _ Hi) as [Hlt Hid].
  set (record := flagged now original).
  assert (Hjo : isJson original = true) by now apply forallb_nth.
  assert (Hjr : isJson record = true) by now apply isJson_flagged.
  assert (Hwr := isJson_well_formed _ Hjr).
  assert (Hjb : isJson (restored record) = true)
    by now apply isJson_restored.
  assert (Hn' : fileName (VStr (js "eliminati")) <> fileName dataType)
    by (intros E; apply Hn; now symmetry).
  (* the move *)
  pose proof (moveToEliminati_written d now dataType id data index Hw Hd
                Hi) as Hmove.
  cbv zeta in Hmove. fold original in Hmove. fold record in Hmove.
  rewrite (map_toJSON_isJson (update_nth index record data)) in Hmove
    by now apply forallb_update_nth.
  rewrite loadData_write_other in Hmove by exact Hn'.
  rewrite He in Hmove.
  rewrite map_toJSON_isJson in Hmove by now apply forallb_app_last.
  set (d1 := write (write d (fileName dataType)
                      (Records (update_nth index record data)))
               (fileName (VStr (js "eliminati")))
               (Records (eliminati ++ [record]))) in *.
  (* the restore *)
  assert (Hw1 : writable d1) by (intros name; apply Hw).
  assert (He1 : loadData d1 (VStr (js "eliminati")) true
                = LoadOk (eliminati ++ [record]))
    by (unfold d1; now rewrite loadData_write_same).
  assert (Hidr : strict_eq (get record (js "id")) id = true)
    by (unfold record; now rewrite get_flagged).
  assert (Hi1 : indexOfId id (eliminati ++ [record])
                = Some (List.length eliminati))
    by now apply indexOfId_last.
  pose proof (restoreFromEliminati_written d1 id (eliminati ++ [record])
                (List.length eliminati) Hw1 He1 Hi1) as Hrest.
  cbv zeta in Hrest. rewrite nth_last, splice1_last in Hrest.
  assert (Ht : get (restored record) (js "tipo") = dataType).
  { rewrite get_restored by assumption. unfold record.
    now rewrite get_flagged. }
  rewrite Ht in Hrest.
  rewrite (map_toJSON_isJson eliminati) in Hrest by assumption.
  rewrite loadData_write_other in Hrest by exact Hn.
  assert (Hd1 : loadData d1 dataType true
                = LoadOk (update_nth index record data)).
  { unfold d1. rewrite loadData_write_other by exact Hn.
    now rewrite loadData_write_same. }
  rewrite Hd1 in Hrest.
  assert (Hi2 : indexOfId id (update_nth index record data) = Some index).
  { rewrite <- Hi. apply indexOfId_ids. apply idsOf_update_nth.
    unfold record. now rewrite get_flagged. }
  rewrite Hi2, update_nth_twice in Hrest.
  rewrite map_toJSON_isJson in Hrest by now apply forallb_update_nth.
  exists d1. eexists. split; [exact Hmove|]. split; [exact Hrest|].
  split.
  { rewrite loadData_write_other by exact Hn'.
    now rewrite loadData_write_same. }
  split; [now rewrite loadData_write_same|].
  split.
  { intros k Hk1 Hk2. rewrite get_restored by assumption.
    unfold record. rewrite get_flagged.
    apply str_eqb_neq in Hk1, Hk2. now rewrite Hk1, Hk2. }
  split.
  { intros Hel Hil. rewrite loadData_write_same. cbn [visible negb andb].
    unfold record. rewrite restored_flagged; try assumption.
    - unfold original. now rewrite update_nth_same.
    - now apply isJson_well_formed. }
  intros other inc Ho1 Ho2.
  rewrite loadData_write_other by exact Ho1.
  rewrite loadData_write_other by exact Ho2.
  unfold d1. rewrite loadData_write_other by exact Ho2.
  now rewrite loadData_write_other by exact Ho1.
Qed.

(** X19 on the sample folder: the client 1 is deleted and restored. *)
Lemma move_then_restore_witness :
  exists d1 d2,
    moveToEliminati sampleDisk 5 (VStr (js "clienti")) (VNum 1) = (d1, Ok) /\
    restoreFromEliminati d1 (VNum 1) = (d2, Ok) /\
    loadData d2 (VStr (js "clienti")) true
      = loadData sampleDisk (VStr (js "clienti")) true /\
    loadData d2 (VStr (js "eliminati")) true
      = loadData sampleDisk (VStr (js "eliminati")) true.
Proof.
  destruct (move_then_restore sampleDisk 5 (VStr (js "clienti")) (VNum 1)
              [sampleClient 1 "Mario" false; sampleClient 2 "Anna" true]
              [sampleClient 2 "Anna" true] 0)
    as (d1 & d2 & Hm & Hr & He & _ & _ & Hc & _).
  - intros name. reflexivity.
  - intros H. vm_compute in H. discriminate H.
  - reflexivity.
  - reflexivity.
  - vm_compute. reflexivity.
  - vm_compute. reflexivity.
  - reflexivity.
  - reflexivity.
  - reflexivity.
  - exists d1, d2. split; [exact Hm|]. split; [exact Hr|]. split.
    + apply Hc; reflexivity.
    + exact He.
Defined.

(** X20. A file that cannot be read as JSON is replaced: in a folder
    that can be written to, when [restoreFromEliminati] cannot load the
    collection that the record's tipo names it takes the collection to
    be empty and writes it with the restored record alone, and when
    [moveToEliminati] cannot load the deleted records' file it writes
    that file with the moved record alone; both report success. *)
Theorem unreadable_file_is_replaced :
  forall d : disk,
    writable d ->
    (forall id eliminati index error,
       loadData d (VStr (js "eliminati")) true = LoadOk eliminati ->
       indexOfId id eliminati = Some index ->
       let record := restored (nth index eliminati []) in
       let dataType := get record (js "tipo") in
       fileName dataType <> fileName (VStr (js "eliminati")) ->
       loadData d dataType true = LoadFailed error ->
       exists d',
         restoreFromEliminati d id = (d', Ok) /\
         loadData d' dataType true = LoadOk [toJSON record]) /\
    (forall now dataType id data index error,
       fileName dataType <> fileName (VStr (js "eliminati")) ->
       loadData d dataType true = LoadOk data ->
       indexOfId id data = Some index ->
       loadData d (VStr (js "eliminati")) true = LoadFailed error ->
       exists d',
         moveToEliminati d now dataType id = (d', Ok) /\
         loadData d' (VStr (js "eliminati")) true
           = LoadOk [toJSON (flagged now (nth index data []))]).
Proof.
  intros d Hw. split.
  - intros id eliminati index error He Hi record dataType Hn Hd.
    pose proof (restoreFromEliminati_written d id eliminati index Hw He
                  Hi) as Hres.
    cbv zeta in Hres. fold record in Hres. fold dataType in Hres.
    rewrite loadData_write_other in Hres by exact Hn.
    rewrite Hd in Hres. cbn [indexOfId app map] in Hres.
    eexists. split; [exact Hres|].
    now rewrite loadData_write_same.
  - intros now dataType id data index error Hn Hd Hi He.
    pose proof (moveToEliminati_written d now dataType id data index Hw
                  Hd Hi) as Hmove.
    cbv zeta in Hmove.
    rewrite loadData_write_other in Hmove
      by (intros E; apply Hn; now symmetry).
    rewrite He in Hmove. cbn [app map] in Hmove.
    eexists. split; [exact Hmove|].
    now rewrite loadData_write_same.
Qed.

(** X20 on the sample folder when clienti.json is not JSON. *)
Lemma unreadable_file_is_replaced_witness :
  exists d',
    restoreFromEliminati corruptDisk (VNum 2) = (d', Ok) /\
    loadData d' (VStr (js "clienti")) true
      = LoadOk [sampleClient 2 "Anna" false].
Proof.
  assert (Hw : writable corruptDisk) by (intros name; reflexivity).
  destruct (proj1 (unreadable_file_is_replaced corruptDisk Hw)
              (VNum 2) [sampleClient 2 "Anna" true] 0%nat
              (js "Unexpected end of JSON input"))
    as (d' & Hr & Hl).
  - reflexivity.
  - reflexivity.
  - intros H. vm_compute in H. discriminate H.
  - reflexivity.
  - exists d'. split; [exact Hr|exact Hl].
Defined.

End DataFolder.

Section Handlers.
Import DataManager.

Lemma bulkMap_Forall2 (clk : clock) (ids : list value)
    (propertyName : jsstring) (propertyValue : value) (data : list obj) :
  forall t,
    Forall2 (fun old new =>
               if Main.selected ids old then
                 exists n,
                   new = set (set (spread [] old) propertyName propertyValue)
                             (js "lastUpdate") (VNum (clk n))
               else new = old)
      data (Main.bulkMap clk t ids propertyName propertyValue data).
Proof.
  induction data as [|item rest IH]; intros t; cbn [Main.bulkMap].
  - constructor.
  - destruct (Main.selected ids item) eqn:E; constructor; auto;
      rewrite E; eauto.
Qed.

Lemma excludeDeleted_all (l : list obj) :
  Forall (fun r => isDeleted r = false) l ->
  ImportExcel.excludeDeleted l = l.
Proof.
  unfold ImportExcel.excludeDeleted.
  induction 1 as [|r l Hr _ IH]; simpl; [reflexivity|].
  unfold isDeleted in Hr. unfold js_not. rewrite Hr. simpl. now f_equal.
Qed.

Lemma excludeDeleted_none (l : list obj) :
  Forall (fun r => isDeleted r = false) (ImportExcel.excludeDeleted l).
Proof.
  apply Forall_forall. intros r Hr.
  apply filter_In in Hr as [_ Hr].
  unfold js_not in Hr. now apply negb_true_iff in Hr.
Qed.

Lemma mergeLoop_nonempty (lower : jsstring -> jsstring) (clk : clock)
    (x : obj) (rest : list obj) (st st' : ImportExcel.mergeState) :
  ImportExcel.mergeLoop lower clk st (x :: rest) = inr st' ->
  ImportExcel.updatedData st' <> [].
Proof.
  cbn [ImportExcel.mergeLoop].
  destruct (ImportExcel.mergeStep lower clk st x) as [e|st1] eqn:E;
    [discriminate|].
  cbn [bind]. intros H.
  apply mergeLoop_counts in H as (_ & Hlen & Hle & _).
  assert (H1 : (0 < List.length (ImportExcel.updatedData st1))%nat).
  { apply mergeStep_cases in E
      as [(i & Hi & _ & Hud & _)|(_ & Hud & _)]; rewrite Hud.
    - rewrite length_update_nth. lia.
    - rewrite length_app. simpl. lia. }
  intros Hnil. rewrite Hnil in Hlen. simpl in Hlen. lia.
Qed.



(** X21. What a successful ['update-bulk'] does: each record of the
    collection, deleted ones included, whose id is among the given ones
    gets the property set to the value and lastUpdate set to a reading
    of the clock, its other properties staying as they were; every
    other record is untouched; the order and, unless the property is id
    itself, the ids are kept; what is written is the whole collection
    and what is returned is its records that are not deleted; the
    message counts the ids given, not the records changed. *)
Theorem updateBulk_effect :
  forall (d : disk) (clk : clock) (dataType : value) (ids : list value)
         (propertyName : jsstring) (propertyValue : value)
         (data : list obj),
    loadData d dataType true = LoadOk data ->
    writeError d (fileName dataType) = None ->
    forallb well_formed data = true ->
    exists d' updated,
      Main.updateBulk d clk dataType ids propertyName propertyValue
      = (d',
         Main.Success
           (js "Aggiornamento completato con successo: "
            ++ decimal (Z.of_nat (List.length ids)) ++ js " record")
           (ImportExcel.excludeDeleted updated)) /\
      loadData d' dataType true = LoadOk (map toJSON updated) /\
      Forall2 (fun old new =>
                 if Main.selected ids old then
                   (exists n, get new (js "lastUpdate") = VNum (clk n)) /\
                   (propertyName <> js "lastUpdate" ->
                    get new propertyName = propertyValue) /\
                   (forall k, k <> propertyName -> k <> js "lastUpdate" ->
                      get new k = get old k)
                 else new = old)
        data updated /\
      (propertyName <> js "id" -> idsOf updated = idsOf data) /\
      (forall other includeEliminati,
         fileName other <> fileName dataType ->
         loadData d' other includeEliminati
         = loadData d other includeEliminati).
Proof.
  intros d clk dataType ids propertyName propertyValue data Hd Hw Hwf.
  set (updated := Main.bulkMap clk 0 ids propertyName propertyValue data).
  assert (Hall :
    Forall2 (fun old new =>
               if Main.selected ids old then
                 (exists n, get new (js "lastUpdate") = VNum (clk n)) /\
                 (propertyName <> js "lastUpdate" ->
                  get new propertyName = propertyValue) /\
                 (forall k, k <> propertyName -> k <> js "lastUpdate" ->
                    get new k = get old k)
               else new = old)
      data updated).
  { pose proof (bulkMap_Forall2 clk ids propertyName propertyValue data 0)
      as H.
    fold updated in H. rewrite forallb_forall in Hwf. clear Hd Hw.
    induction H as [|old new olds news Hon _ IH]; constructor.
    - destruct (Main.selected ids old); [|assumption].
      destruct Hon as [n ->].
      assert (Hwo : well_formed old = true) by (apply Hwf; now left).
      split; [exists n; apply get_set_same|]. split.
      + intros Hp. rewrite get_set_other by assumption.
        apply get_set_same.
      + intros k Hk1 Hk2. rewrite !get_set_other by assumption.
        now rewrite spread_nil.
    - apply IH. intros o Ho. apply Hwf. now right. }
  exists (write d (fileName dataType) (Records (map toJSON updated))),
    updated.
  split.
  { unfold Main.updateBulk. rewrite Hd. fold updated.
    now rewrite saveData_written. }
  split; [now rewrite loadData_write_same|].
  split; [exact Hall|].
  split.
  - intros Hp. clear Hd Hwf. unfold idsOf.
    induction Hall as [|old new olds news Hon _ IH]; [reflexivity|].
    simpl. rewrite IH. f_equal.
    destruct (Main.selected ids old); [|now subst].
    destruct Hon as (_ & _ & Hk). apply Hk.
    + intros E. apply Hp. now symmetry.
    + discriminate.
  - intros other inc Ho. now apply loadData_write_other.
Qed.

(** X21 on the sample folder: the two clients are flagged for grappa. *)
Lemma updateBulk_effect_witness :
  exists d' updated,
    snd (Main.updateBulk sampleDisk sampleClock (VStr (js "clienti"))
           [VNum 2; VNum 1; VNum 9] (js "grappa") (VStr (js "1")))
    = Main.Success (js "Aggiornamento completato con successo: 3 record")
        (ImportExcel.excludeDeleted updated) /\
    loadData d' (VStr (js "clienti")) true = LoadOk (map toJSON updated) /\
    idsOf updated = [VNum 1; VNum 2].
Proof.
  destruct (updateBulk_effect sampleDisk sampleClock (VStr (js "clienti"))
              [VNum 2; VNum 1; VNum 9] (js "grappa") (VStr (js "1"))
              [sampleClient 1 "Mario" false; sampleClient 2 "Anna" true])
    as (d' & updated & Hu & Hl & _ & Hids & _).
  - reflexivity.
  - reflexivity.
  - vm_compute. reflexivity.
  - exists d', updated. split; [rewrite Hu; reflexivity|].
    split; [exact Hl|]. rewrite Hids by discriminate.
    vm_compute. reflexivity.
Defined.

(** X22. The ['import-excel'] handler and the folder: it changes no file
    when it reports a failure, and never a file other than the one of
    the collection; when it reports success with no record nothing was
    written; when it reports success with records, none of them is
    deleted and they are, as JSON keeps them, the whole content of the
    collection's file, so the records that were flagged as deleted are
    no longer in it. *)
Theorem importExcel_and_the_folder :
  forall (showOpenDialog : exn + (bool * list jsstring)) (W : Type)
         (readFile : jsstring -> exn + ExcelImporter.workbook W)
         (sheet_to_json :
            option W -> ExcelImporter.headerOption -> exn + list obj)
         (clkImport clkMerge : clock) (toLowerCase : jsstring -> jsstring)
         (d : disk) (dataType : jsstring),
    let out :=
      Main.importExcel showOpenDialog W readFile sheet_to_json
        clkImport clkMerge toLowerCase d dataType in
    (forall msg, snd out = Main.Failure msg -> fst out = d) /\
    (forall msg data,
       snd out = Main.Success msg data ->
       (data = [] /\ fst out = d) \/
       (data <> [] /\
        Forall (fun r => isDeleted r = false) data /\
        loadData (fst out) (VStr dataType) true
        = LoadOk (map toJSON data))) /\
    (forall other includeEliminati,
       fileName other <> fileName (VStr dataType) ->
       loadData (fst out) other includeEliminati
       = loadData d other includeEliminati).
Proof.
  intros showOpenDialog W readFile sheet_to_json clkImport clkMerge
    toLowerCase d dataType out.
  assert (Hmerge : forall imported x,
    let o := Main.mergeAndSave clkMerge toLowerCase d dataType
               (x :: imported) in
    (forall msg, snd o = Main.Failure msg -> fst o = d) /\
    (forall msg data,
       snd o = Main.Success msg data ->
       data <> [] /\
       Forall (fun r => isDeleted r = false) data /\
       loadData (fst o) (VStr dataType) true = LoadOk (map toJSON data)) /\
    (forall other includeEliminati,
       fileName other <> fileName (VStr dataType) ->
       loadData (fst o) other includeEliminati
       = loadData d other includeEliminati)).
  { intros imported x o. subst o. unfold Main.mergeAndSave.
    destruct (loadData d (VStr dataType) true) as [currentData|error];
      [|cbn; repeat split; auto; discriminate].
    destruct (ImportExcel.merge toLowerCase clkMerge
                (ImportExcel.excludeDeleted currentData) (x :: imported))
      as [e|st] eqn:E; [cbn; repeat split; auto; discriminate|].
    unfold saveData.
    destruct (writeError d (fileName (VStr dataType))) as [e|];
      [cbn; repeat split; auto; discriminate|].
    assert (Hnd : Forall (fun r => isDeleted r = false)
                    (ImportExcel.updatedData st)).
    { apply (mergeLoop_no_deleted toLowerCase clkMerge _ _ st E). cbn.
      apply excludeDeleted_none. }
    assert (Hne : ImportExcel.updatedData st <> [])
      by apply (mergeLoop_nonempty toLowerCase clkMerge _ _ _ st E).
    rewrite (excludeDeleted_all _ Hnd). cbn [fst snd].
    split; [discriminate|]. split.
    - intros msg data H. injection H as _ <-.
      split; [assumption|]. split; [assumption|].
      apply loadData_write_same.
    - intros other inc Ho. now apply loadData_write_other. }
  subst out. unfold Main.importExcel.
  destruct showOpenDialog as [e|[canceled filePaths]];
    [cbn; repeat split; auto; discriminate|].
  destruct filePaths as [|filePath filePaths];
    [cbn; repeat split; auto; discriminate|].
  destruct canceled; [cbn; repeat split; auto; discriminate|].
  destruct (ExcelImporter.importFile W readFile sheet_to_json clkImport
              filePath dataType) as [msg0 [|r data0]|msg0].
  - cbn. repeat split; auto; try discriminate.
    intros msg data H. injection H as _ <-. auto.
  - destruct (Hmerge data0 r) as (Hf & Hs & Ho). cbv zeta in Hf, Hs, Ho.
    split; [exact Hf|]. split; [|exact Ho].
    intros msg data H. right. now apply (Hs msg).
  - cbn. repeat split; auto; discriminate.
Qed.



End Handlers.

Section CanonicalHeaders.
Import ExcelImporter.

Lemma get_headerLoop_fixed (f : jsstring)
    (entries : list (jsstring * value)) :
  well_formed entries = true ->
  Forall (fun e => finalKey (fst e) = fst e) entries ->
  forall o,
    get (fold_left headerStep entries o) f
    = if isBlank (get entries f) then get o f
      else normalizeValue f (get entries f).
Proof.
  induction entries as [|[k v] rest IH]; intros Hw Hfix o.
  - reflexivity.
  - cbn [well_formed] in Hw. apply andb_true_iff in Hw as [Hk Hw].
    apply negb_true_iff in Hk.
    inversion Hfix as [|? ? Hkv Hrest]; subst.
    cbn [fold_left]. rewrite (IH Hw Hrest). rewrite get_headerStep.
    cbn [fst] in Hkv. rewrite Hkv. cbn [get].
    destruct (str_eqb f k) eqn:E.
    + apply str_eqb_eq in E. subst k.
      rewrite (get_absent rest f Hk). cbn [isBlank strict_eq orb].
      destruct (isBlank v); reflexivity.
    + destruct (isBlank (get rest f)); [|reflexivity].
      destruct (isBlank v); reflexivity.
Qed.

Lemma canonical_fixed :
  forallb (fun h => str_eqb (finalKey h) h && negb (isGenericColumn h))
    createExplicitHeaders = true.
Proof. vm_compute. reflexivity. Qed.

(** X24. A sheet headed by the canonical field names imports column by
    column: for a row whose keys are among the fourteen names of
    [createExplicitHeaders], as the rows of the third conversion of
    [importFile] are, each of these names resolves to itself, so every
    cell that is not blank lands, normalized, in the field of its own
    header, a blank or missing cell leaves the field as it was at the
    start (absent, or tipo, eliminato and createdAt as set), and only
    indirizzo and civico can then be changed by the house number. *)
Theorem canonical_headers_import :
  forall (now : Z) (row : obj) (dataType : jsstring),
    well_formed row = true ->
    Forall (fun k => In k createExplicitHeaders) (keys row) ->
    (forall h, In h createExplicitHeaders -> finalKey h = h) /\
    (forall f,
       get (assignFields now row dataType) f
       = if isBlank (get row f) then get (initialRow now dataType) f
         else normalizeValue f (get row f)) /\
    (forall f, f <> js "indirizzo" -> f <> js "civico" ->
       get (normalizeRowData now row dataType) f
       = if isBlank (get row f) then get (initialRow now dataType) f
         else normalizeValue f (get row f)).
Proof.
  intros now row dataType Hw Hkeys.
  pose proof canonical_fixed as Hc. rewrite forallb_forall in Hc.
  assert (Hfix : forall h, In h createExplicitHeaders -> finalKey h = h).
  { intros h Hh. apply Hc in Hh. apply andb_true_iff in Hh as [Hh _].
    now apply str_eqb_eq. }
  assert (Hassign : forall f,
    get (assignFields now row dataType) f
    = if isBlank (get row f) then get (initialRow now dataType) f
      else normalizeValue f (get row f)).
  { intros f. unfold assignFields.
    assert (Hgen : existsb isGenericColumn (keys row) = false).
    { clear Hw. unfold keys in *.
      induction row as [|[k v] row IH]; [reflexivity|].
      inversion Hkeys as [|? ? Hk Hrest]; subst.
      cbn [map fst existsb]. rewrite (IH Hrest).
      cbn [fst] in Hk. apply Hc in Hk.
      apply andb_true_iff in Hk as [_ Hk].
      apply negb_true_iff in Hk. now rewrite Hk. }
    rewrite Hgen. apply get_headerLoop_fixed; [assumption|].
    clear Hw Hgen. unfold keys in Hkeys.
    induction row as [|[k v] row IH]; constructor;
      inversion Hkeys as [|? ? Hk Hrest]; subst.
    - now apply Hfix.
    - now apply IH. }
  split; [exact Hfix|]. split; [exact Hassign|].
  intros f Hf1 Hf2. unfold normalizeRowData.
  rewrite get_extractCivico_other by assumption. apply Hassign.
Qed.

(** X24 on a row of three cells, one of them blank. *)
Lemma canonical_headers_import_witness :
  get (normalizeRowData 7
         [ (js "nome", VStr (js " Mario ")); (js "azienda", VStr []);
           (js "gls", VStr (js "si")) ]
         (js "clienti")) (js "gls")
  = VStr (js "1").
Proof.
  destruct (canonical_headers_import 7
              [ (js "nome", VStr (js " Mario ")); (js "azienda", VStr []);
                (js "gls", VStr (js "si")) ]
              (js "clienti")) as (_ & _ & H).
  - reflexivity.
  - repeat constructor; vm_compute; tauto.
  - rewrite H by discriminate. vm_compute. reflexivity.
Defined.

End CanonicalHeaders.

Section SettingsFacts.
Import Settings.

Lemma toJSON_truthy (j : json) : jtruthy (toJSON j) = jtruthy j.
Proof. destruct j; reflexivity. Qed.

Lemma toJSON_isArray (j : json) : isArray (toJSON j) = isArray j.
Proof. destruct j; reflexivity. Qed.

Lemma toJSON_arrayLength (j : json) :
  arrayLength (toJSON j) = arrayLength j.
Proof.
  destruct j as [| | | | |items|props]; try reflexivity.
  cbn [toJSON arrayLength].
  induction items as [|x items IH]; [reflexivity|].
  destruct x; cbn [List.length]; now rewrite IH.
Qed.

Lemma toJSON_obj_cons (k : jsstring) (v : json)
    (rest : list (jsstring * json)) :
  v <> JUndefined ->
  toJSON (JObj ((k, v) :: rest))
  = JObj ((k, toJSON v) :: match toJSON (JObj rest) with
                           | JObj r => r
                           | _ => []
                           end).
Proof. destruct v; intros H; try reflexivity. now contradiction H. Qed.

Lemma jand_truthy (a b : json) :
  jtruthy (jand a b) = true -> jtruthy b = true.
Proof.
  unfold jand. destruct (jtruthy a) eqn:E; [auto|]. congruence.
Qed.

Lemma jand_isArray (a b : json) :
  isArray (jand a b) = true -> isArray b = true.
Proof.
  unfold jand. destruct (jtruthy a) eqn:E; [auto|].
  destruct a; simpl in *; congruence.
Qed.

Lemma jtruthy_defined (j : json) : jtruthy j = true -> j <> JUndefined.
Proof. intros H ->. discriminate. Qed.

Lemma isArray_defined (j : json) : isArray j = true -> j <> JUndefined.
Proof. intros H ->. discriminate. Qed.

Lemma isArray_truthy (j : json) : isArray j = true -> jtruthy j = true.
Proof. destruct j; simpl; congruence. Qed.

Lemma lookup_four (v1 v2 v3 v4 : json) :
  let o := [ (js "regaloCorrente", v1); (js "annoCorrente", v2);
             (js "consegnatari", v3); (js "giftNames", v4) ] in
  lookup o (js "regaloCorrente") = v1 /\
  lookup o (js "annoCorrente") = v2 /\
  lookup o (js "consegnatari") = v3 /\
  lookup o (js "giftNames") = v4.
Proof. cbv zeta. repeat split; reflexivity. Qed.

(** The four values of the object that [saveSettings] writes. *)
Lemma saveNormalized_values (year : Z) (settings : json) :
  year <> 0%Z ->
  exists v1 v2 v3 v4,
    saveNormalized year settings
    = [ (js "regaloCorrente", v1); (js "annoCorrente", v2);
        (js "consegnatari", v3); (js "giftNames", v4) ] /\
    jtruthy v1 = true /\ jtruthy v2 = true /\
    (isArray v3 = true /\ (0 < arrayLength v3)%nat) /\
    (isArray v4 = true /\ arrayLength v4 = 3%nat).
Proof.
  intros Hy. unfold saveNormalized.
  do 4 eexists. split; [reflexivity|].
  split.
  { destruct (jtruthy (jand settings
                         (prop settings (js "regaloCorrente")))) eqn:E;
      [now apply jand_truthy in E|reflexivity]. }
  split.
  { destruct (jtruthy (jand settings
                         (prop settings (js "annoCorrente")))) eqn:E;
      [now apply jand_truthy in E|].
    simpl. apply negb_true_iff. now apply Z.eqb_neq. }
  split.
  { destruct (isArray (jand settings
                         (prop settings (js "consegnatari")))) eqn:E;
      [|split; [reflexivity|simpl; lia]].
    destruct (0 <? arrayLength (prop settings (js "consegnatari")))%nat
      eqn:El; cbn [andb]; [|split; [reflexivity|simpl; lia]].
    split; [now apply jand_isArray in E|now apply Nat.ltb_lt]. }
  destruct (isArray (jand settings
                       (prop settings (js "giftNames")))) eqn:E;
    [|split; reflexivity].
  destruct (arrayLength (prop settings (js "giftNames")) =? 3)%nat
    eqn:El; cbn [andb]; [|split; reflexivity].
  split; [now apply jand_isArray in E|now apply Nat.eqb_eq].
Qed.



(** X26. Saved settings are loaded as they were written: when the file
    can be written, [saveSettings] succeeds and [loadSettings], in
    whatever year, then answers with the very object of the file, which
    holds each of the four normalized values as JSON keeps it. *)
Theorem settings_round_trip :
  forall (year year' : Z) (settings : json) (f : file),
    year <> 0%Z ->
    exists saved,
      saveSettings year settings f None
      = (File (Parsed (JObj saved)), DataManager.Ok) /\
      loadSettings year' (File (Parsed (JObj saved))) = saved /\
      map fst saved
      = [js "regaloCorrente"; js "annoCorrente"; js "consegnatari";
         js "giftNames"] /\
      forall k,
        lookup saved k = toJSON (lookup (saveNormalized year settings) k).
Proof.
  intros year year' settings f Hy.
  destruct (saveNormalized_values year settings Hy)
    as (v1 & v2 & v3 & v4 & Hn & H1 & H2 & (H3 & H3') & (H4 & H4')).
  exists [ (js "regaloCorrente", toJSON v1); (js "annoCorrente", toJSON v2);
           (js "consegnatari", toJSON v3); (js "giftNames", toJSON v4) ].
  split.
  { unfold saveSettings. rewrite Hn.
    rewrite toJSON_obj_cons by now apply jtruthy_defined.
    rewrite toJSON_obj_cons by now apply jtruthy_defined.
    rewrite toJSON_obj_cons by now apply isArray_defined.
    rewrite toJSON_obj_cons by now apply isArray_defined.
    reflexivity. }
  split.
  { destruct (lookup_four (toJSON v1) (toJSON v2) (toJSON v3) (toJSON v4))
      as (L1 & L2 & L3 & L4).
    cbv zeta in L1, L2, L3, L4.
    unfold loadSettings. cbn [loadData]. cbv zeta.
    unfold loadNormalized, jand, jor, prop. cbn [jtruthy].
    rewrite L1, L2, L3, L4.
    rewrite !toJSON_truthy, !toJSON_isArray, !toJSON_arrayLength.
    now rewrite H1, H2, H3, H4, H4'. }
  split; [reflexivity|].
  intros k. rewrite Hn. cbn [lookup].
  repeat match goal with
         | |- context [str_eqb k ?x] => destruct (str_eqb k x)
         end; reflexivity.
Qed.

(** X26 on the sample settings. *)
Lemma settings_round_trip_witness :
  exists saved,
    saveSettings 2026 sampleSettings NoFile None
    = (File (Parsed (JObj saved)), DataManager.Ok) /\
    loadSettings 2027 (File (Parsed (JObj saved))) = saved.
Proof.
  destruct (settings_round_trip 2026 2027 sampleSettings NoFile)
    as (saved & Hs & Hl & _).
  - discriminate.
  - exists saved. split; [exact Hs|exact Hl].
Defined.

(** X27. [loadSettings] always answers with settings: regaloCorrente and
    annoCorrente are truthy and consegnatari is an array, which may be
    empty. When the file could be loaded the answer has the four
    properties and giftNames is an array of exactly three items; when
    there is no file, or only white space in it, the answer is the four
    defaults; when the file could not be read or parsed the answer is
    the three defaults of the [catch], without giftNames. *)
Theorem loadSettings_answers :
  forall (year : Z) (f : file),
    year <> 0%Z ->
    let data := loadSettings year f in
    jtruthy (lookup data (js "regaloCorrente")) = true /\
    jtruthy (lookup data (js "annoCorrente")) = true /\
    isArray (lookup data (js "consegnatari")) = true /\
    ((exists loaded, loadData f = LoadOk loaded) ->
     map fst data
     = [js "regaloCorrente"; js "annoCorrente"; js "consegnatari";
        js "giftNames"] /\
     isArray (lookup data (js "giftNames")) = true /\
     arrayLength (lookup data (js "giftNames")) = 3%nat) /\
    (f = NoFile \/ f = File Blank ->
     data = [ (js "regaloCorrente", JStr (js "Grappa"));
              (js "annoCorrente", JNum year);
              (js "consegnatari", defaultConsegnatari);
              (js "giftNames", defaultGiftNames) ]) /\
    ((exists error, loadData f = LoadFailed error) ->
     data = [ (js "regaloCorrente", JStr (js "Grappa"));
              (js "annoCorrente", JNum year);
              (js "consegnatari", defaultConsegnatari) ] /\
     lookup data (js "giftNames") = JUndefined).
Proof.
  intros year f Hy data. subst data.
  assert (Hyear : jtruthy (JNum year) = true)
    by (simpl; apply negb_true_iff; now apply Z.eqb_neq).
  unfold loadSettings.
  destruct (loadData f) as [loaded|error] eqn:E.
  - cbv zeta.
    set (settingsData := match loaded with
                         | [] => JArr []
                         | first :: _ => first
                         end).
    unfold loadNormalized.
    match goal with
    | |- context [lookup [(_, ?a); (_, ?b); (_, ?c); (_, ?d)]] =>
        destruct (lookup_four a b c d) as (L1 & L2 & L3 & L4)
    end.
    cbv zeta in L1, L2, L3, L4. rewrite L1, L2, L3, L4.
    split.
    { unfold jor.
      destruct (jtruthy (jand settingsData
                           (prop settingsData (js "regaloCorrente"))))
        eqn:Et; [exact Et|reflexivity]. }
    split.
    { unfold jor.
      destruct (jtruthy (jand settingsData
                           (prop settingsData (js "annoCorrente"))))
        eqn:Et; [exact Et|exact Hyear]. }
    split.
    { destruct (isArray (jand settingsData
                           (prop settingsData (js "consegnatari"))))
        eqn:Ea; [now apply jand_isArray in Ea|reflexivity]. }
    split.
    { intros _. split; [reflexivity|].
      destruct (isArray (jand settingsData
                           (prop settingsData (js "giftNames")))) eqn:Ea;
        [|split; reflexivity].
      destruct (arrayLength (prop settingsData (js "giftNames")) =? 3)%nat
        eqn:El; cbn [andb]; [|split; reflexivity].
      split; [now apply jand_isArray in Ea|now apply Nat.eqb_eq]. }
    split.
    { intros Hf.
      assert (Hl : loaded = [])
        by (destruct Hf as [-> | ->]; simpl in E; congruence).
      subst loaded. reflexivity. }
    intros [error He]. discriminate He.
  - split; [reflexivity|]. split; [exact Hyear|]. split; [reflexivity|].
    split; [intros [loaded Hl]; discriminate Hl|].
    split.
    { intros [-> | ->]; simpl in E; discriminate E. }
    intros _. split; reflexivity.
Qed.

(** X27 on a file that is not JSON. *)
Lemma loadSettings_answers_witness :
  lookup (loadSettings 2026
            (File (Invalid (Error (js "Unexpected end of JSON input")))))
    (js "giftNames") = JUndefined.
Proof.
  assert (Hy : 2026%Z <> 0%Z) by discriminate.
  destruct (loadSettings_answers 2026
              (File (Invalid (Error (js "Unexpected end of JSON input"))))
              Hy)
    as (_ & _ & _ & _ & _ & Hcatch).
  apply Hcatch. eexists. reflexivity.
Defined.

End SettingsFacts.

